(** * Lebrely backend: identity reconciliation between the hosted auth
      provider and the local users table.

    This development embeds [app/models/user.py], [app/services/user.py],
    [app/services/auth.py], [app/core/auth.py] and the handlers of
    [app/api/v1/endpoints/auth.py] and [app/api/v1/endpoints/users.py],
    and states the properties of the specification over that embedding.

    Modelling conventions.
    - The [users] table is a list of rows in insertion order; a request
      works on an SQLAlchemy session, modelled by the rows already
      committed, the rows as the open transaction sees them, and the
      sequence that feeds the primary key.
    - The storage layer is PostgreSQL behind asyncpg, as [DATABASE_URL]
      has it: [id] is a 32-bit INTEGER fed by a sequence, [name] is
      [String(100)], [supabase_user_id] is [String(255)], and a statement
      that breaks one of these raises.  Lengths are counted on the
      characters of the Rocq string.
    - Service code is written in a state-and-exception monad over the
      session, so that the Python control flow (try/except, early raise)
      can be transcribed statement by statement.
    - The hosted provider is an opaque collaborator: a record of functions
      giving, for each client call, either a response or a raised error.
      What the libraries outside the repository decide (pydantic's
      [EmailStr], Python's [int] on a string, the driver on a parameter
      that is not an integer) is a record of functions as well.
    - The columns [created_at] and [updated_at] are clock readings and are
      left out of the rows.
    - An e-mail address held by a schema object ([UserCreate],
      [UserUpdate], [UserSignUp], [UserSignIn]) has been through
      [EmailStr], which admits no address longer than 254 characters;
      the [String(255)] of the [email] column is therefore never
      reached and is not checked. *)

From Stdlib Require Import ZArith List String Ascii Bool Lia.
Import ListNotations.
Local Open Scope string_scope.
Local Open Scope list_scope.
Local Open Scope Z_scope.

(** ** Rows of the [users] table ([app/models/user.py]) *)

Module User.
Record t : Type := mk {
  id : Z;
  supabase_user_id : option string;
  name : string;
  email : string;
  is_active : bool
}.

Definition with_supabase_user_id (v : option string) (u : t) : t :=
  mk (id u) v (name u) (email u) (is_active u).
Definition with_name (v : string) (u : t) : t :=
  mk (id u) (supabase_user_id u) v (email u) (is_active u).
Definition with_email (v : string) (u : t) : t :=
  mk (id u) (supabase_user_id u) (name u) v (is_active u).
Definition with_is_active (v : bool) (u : t) : t :=
  mk (id u) (supabase_user_id u) (name u) (email u) v.
End User.

(** ** JSON values, as Python holds them *)

(** The values [user_metadata] can hold.  A number with a fraction or an
    exponent is a Python float, kept by what the code can observe of it:
    its integer part and whether it is zero; an array or an object by
    whether it is empty. *)
Module Json.
Inductive t : Type :=
| null
| bool (b : Datatypes.bool)
| int (z : Z)
| float (truncated : Z) (zero : Datatypes.bool)
| str (s : string)
| array (empty : Datatypes.bool)
| object (empty : Datatypes.bool).

(** The truth value Python gives it in [if v:]. *)
Definition truthy (v : t) : Datatypes.bool :=
  match v with
  | null => false
  | bool b => b
  | int z => negb (z =? 0)
  | float _ zero => negb zero
  | str s => negb (String.eqb s "")
  | array empty => negb empty
  | object empty => negb empty
  end.
End Json.

(** ** Exceptions *)

(** The constraints declared on the table: the primary key, the two
    [unique=True] columns, and the columns that are not nullable. *)
Inductive Constraint : Type :=
| users_pkey
| ix_users_email
| ix_users_supabase_user_id
| not_null (column : string).

(** What the driver or the server turns a statement down for, besides a
    constraint. *)
Inductive Fault : Type :=
| out_of_int32
| not_an_integer
| value_too_long (column : string)
| sequence_exhausted
| negative_row_count (clause : string).

(** [detail] of an [HTTPException] is either a literal message or an
    f-string that embeds [str(e)] of the exception being handled; the
    latter keeps the exception itself. *)
Inductive Exception : Type :=
| HTTPException (status_code : Z) (detail : Detail)
| IntegrityError (violated : Constraint)
| DBAPIError (fault : Fault)
| MultipleResultsFound
| ValidationError (field : string)
| AttributeError (attribute : string)
| TypeError (what : string)
| ValueError (what : string)
| StaleDataError
| AuthApiError (reason : string)
with Detail : Type :=
| Message (text : string)
| Formatted (prefix : string) (e : Exception).

Definition HTTP_200_OK := 200.
Definition HTTP_201_CREATED := 201.
Definition HTTP_400_BAD_REQUEST := 400.
Definition HTTP_401_UNAUTHORIZED := 401.
Definition HTTP_404_NOT_FOUND := 404.
Definition HTTP_500_INTERNAL_SERVER_ERROR := 500.

Inductive Result (A : Type) : Type :=
| Ok (a : A)
| Raise (e : Exception).
Arguments Ok {A} a.
Arguments Raise {A} e.

(** ** Libraries outside the repository *)

Module Library.
Record t : Type := mk {
  (** pydantic's [EmailStr]: [None] when the address is rejected, else
      the address as the validator normalises it. *)
  EmailStr : string -> option string;
  (** Python's [int] on a string: [None] when it raises. *)
  int_of_str : string -> option Z;
  (** What reaches the server when a value that is not a Python [int] is
      compared with an INTEGER column: [None] when the statement raises. *)
  bind_integer : Json.t -> option Z
}.
End Library.

(** ** The session: state and exceptions *)

(** What persists between requests. *)
Record Database : Type := mkDatabase {
  rows : list User.t;
  next_id : Z
}.

(** An [AsyncSession] inside a request.  [persisted] is what has been
    committed, [pending] is the table as the open transaction sees it,
    [sequence] is the next primary key; a sequence value is consumed by
    an INSERT whether or not the INSERT succeeds. *)
Record Session : Type := mkSession {
  persisted : list User.t;
  pending : list User.t;
  sequence : Z
}.

Definition M (A : Type) : Type := Session -> Result A * Session.

Definition ret {A} (a : A) : M A := fun s => (Ok a, s).
Definition raise {A} (e : Exception) : M A := fun s => (Raise e, s).
Definition bind {A B} (m : M A) (k : A -> M B) : M B :=
  fun s => match m s with
           | (Ok a, s') => k a s'
           | (Raise e, s') => (Raise e, s')
           end.
(** [try: m except ... as e: h e] *)
Definition try_except {A} (m : M A) (h : Exception -> M A) : M A :=
  fun s => match m s with
           | (Ok a, s') => (Ok a, s')
           | (Raise e, s') => h e s'
           end.
(** A call that either returns or raises, without touching the session. *)
Definition lift {A} (r : Result A) : M A := fun s => (r, s).

Declare Scope monad_scope.
Delimit Scope monad_scope with monad.
Notation "x <- m ;; k" := (bind m (fun x => k))
  (at level 61, m at next level, right associativity) : monad_scope.
Notation "m ;; k" := (bind m (fun _ => k))
  (at level 61, right associativity) : monad_scope.
Local Open Scope monad_scope.

(** ** The storage layer *)

(** The comparisons of a column with a value, as they occur in WHERE
    clauses and in index checks; NULL compares equal to nothing. *)
Definition has_id (i : Z) (u : User.t) : bool := User.id u =? i.

Definition has_email (e : string) (u : User.t) : bool :=
  String.eqb (User.email u) e.

Definition has_supabase_user_id (x : string) (u : User.t) : bool :=
  match User.supabase_user_id u with
  | Some y => String.eqb y x
  | None => false
  end.

Module Storage.

(** Values of a column that take part in a unique index; a NULL takes
    no part. *)
Definition column {K} (key : User.t -> option K) (l : list User.t) : list K :=
  flat_map (fun u => match key u with Some k => [k] | None => [] end) l.

Definition pk (u : User.t) : option Z := Some (User.id u).
Definition email_key (u : User.t) : option string := Some (User.email u).

(** The bounds of a 32-bit INTEGER. *)
Definition min_int32 : Z := -2147483648.
Definition max_int32 : Z := 2147483647.

Definition in_int32 (z : Z) : bool := (min_int32 <=? z) && (z <=? max_int32).

(** A Python [int] bound to an INTEGER parameter: the driver refuses one
    that does not fit 32 bits. *)
Definition integer_parameter (z : Z) : M Z :=
  if in_int32 z then ret z else raise (DBAPIError out_of_int32).

(** Whether a string fits a character column of the given width. *)
Definition fits (width : nat) (v : string) : bool :=
  (String.length v <=? width)%nat.

(** Whether a statement sends [v] for a column of the given width and
    [v] does not fit.  An UPDATE sends the columns whose value differs
    from the loaded one, [old]; an INSERT sends them all. *)
Definition exceeds (width : nat) (old : option string) (v : string) : bool :=
  match old with
  | Some w => negb (String.eqb w v)
  | None => true
  end && negb (fits width v).

(** The character columns against their widths, [String(255)] for
    [supabase_user_id] and [String(100)] for [name], on the row [u] of
    an INSERT ([loaded] is [None]) or of the UPDATE of [loaded]. *)
Definition too_long (loaded : option User.t) (u : User.t) : option Fault :=
  if match User.supabase_user_id u with
     | Some x =>
         exceeds 255
           (match loaded with
            | Some v => User.supabase_user_id v
            | None => None
            end) x
     | None => false
     end
  then Some (value_too_long "supabase_user_id")
  else if exceeds 100 (option_map User.name loaded) (User.name u)
  then Some (value_too_long "name")
  else None.

(** The index checks a row [u] is put through against the other rows. *)
Definition violation (u : User.t) (others : list User.t) : option Constraint :=
  if existsb (has_id (User.id u)) others then Some users_pkey
  else if match User.supabase_user_id u with
          | Some x => existsb (has_supabase_user_id x) others
          | None => false
          end
  then Some ix_users_supabase_user_id
  else if existsb (has_email (User.email u)) others then Some ix_users_email
  else None.

(** [select(User).where(p)] *)
Definition select_where (p : User.t -> bool) : M (list User.t) :=
  fun s => (Ok (filter p (pending s)), s).

(** [result.scalar_one_or_none()] *)
Definition scalar_one_or_none (l : list User.t) : M (option User.t) :=
  match l with
  | [] => ret None
  | [u] => ret (Some u)
  | _ :: _ :: _ => raise MultipleResultsFound
  end.

(** [db.add(obj); flush]: INSERT of a row whose id comes from the
    sequence.  A value too long for its column is turned down on the
    parameters, before the sequence is read; the sequence stops at the
    largest INTEGER; a value drawn from it is gone even when an index
    then turns the row down. *)
Definition insert (mk : Z -> User.t) : M User.t :=
  fun s =>
    let u := mk (sequence s) in
    match too_long None u with
    | Some fault => (Raise (DBAPIError fault), s)
    | None =>
        if max_int32 <? sequence s
        then (Raise (DBAPIError sequence_exhausted), s)
        else
          let s' := mkSession (persisted s) (pending s) (sequence s + 1) in
          match violation u (pending s) with
          | Some c => (Raise (IntegrityError c), s')
          | None =>
              (Ok u,
               mkSession (persisted s) (pending s ++ [u]) (sequence s + 1))
          end
    end.

Definition others (i : Z) (l : list User.t) : list User.t :=
  filter (fun v => negb (has_id i v)) l.

(** The table after the row with primary key [i] has become [u']. *)
Definition replace (i : Z) (u' : User.t) (l : list User.t) : list User.t :=
  map (fun v => if has_id i v then u' else v) l.

(** Flush of the attribute assignments made on the object loaded with
    primary key [i]: UPDATE ... WHERE id = i.  In the services every
    assignment is immediately followed by the commit that flushes it. *)
Definition update (i : Z) (f : User.t -> User.t) : M User.t :=
  fun s =>
    match find (has_id i) (pending s) with
    | None => (Raise StaleDataError, s)
    | Some u =>
        let u' := f u in
        match too_long (Some u) u' with
        | Some fault => (Raise (DBAPIError fault), s)
        | None =>
            match violation u' (others i (pending s)) with
            | Some c => (Raise (IntegrityError c), s)
            | None =>
                (Ok u',
                 mkSession (persisted s) (replace i u' (pending s))
                   (sequence s))
            end
        end
    end.

(** [db.delete(obj)] followed by its flush. *)
Definition delete (i : Z) : M unit :=
  fun s => (Ok tt, mkSession (persisted s) (others i (pending s)) (sequence s)).

(** [db.commit()] *)
Definition commit : M unit :=
  fun s => (Ok tt, mkSession (pending s) (pending s) (sequence s)).

(** A request opens a session on the database ([get_db]) and closes it
    when the handler is done, which discards whatever was not
    committed. *)
Definition open (db : Database) : Session :=
  mkSession (rows db) (rows db) (next_id db).
Definition close (s : Session) : Database :=
  mkDatabase (persisted s) (sequence s).
Definition run {A} (m : M A) (db : Database) : Result A * Database :=
  let (r, s) := m (open db) in (r, close s).

End Storage.

(** ** Request schemas ([app/schemas/user.py]) *)

Module UserCreate.
Record t : Type := mk { name : string; email : string }.

(** The pydantic constructor: [name] is declared [str] and takes nothing
    but a string; [email] is declared [EmailStr] and is kept as the
    validator returns it. *)
Definition validate (lib : Library.t) (name : Json.t) (email : string)
    : Result t :=
  match name with
  | Json.str n =>
      match Library.EmailStr lib email with
      | Some address => Ok (mk n address)
      | None => Raise (ValidationError "email")
      end
  | _ => Raise (ValidationError "name")
  end.
End UserCreate.

Module UserUpdate.
(** A field of the update model is either left unset, or set, possibly
    to [None] (every field is declared [Optional]). *)
Inductive Field (A : Type) : Type :=
| unset
| set (v : option A).
Arguments unset {A}.
Arguments set {A} v.

Record t : Type := mk {
  name : Field string;
  email : Field string;
  is_active : Field bool
}.

Definition assign {A} (column : string) (fld : Field A)
    (setter : A -> User.t -> User.t) (k : Result (User.t -> User.t))
    : Result (User.t -> User.t) :=
  match fld, k with
  | unset, _ => k
  | set _, Raise e => Raise e
  | set None, Ok _ => Raise (IntegrityError (not_null column))
  | set (Some v), Ok f => Ok (fun u => setter v (f u))
  end.

(** [for field, value in user_update.model_dump(exclude_unset=True).items():
       setattr(db_user, field, value)], as the UPDATE it flushes to. *)
Definition setattrs (user_update : t) : Result (User.t -> User.t) :=
  assign "is_active" (is_active user_update) User.with_is_active
    (assign "email" (email user_update) User.with_email
       (assign "name" (name user_update) User.with_name
          (Ok (fun u => u)))).
End UserUpdate.

(** ** The user service ([app/services/user.py]) *)

(** [User.is_active], read on the class, is a column object; Python's
    [is] compares identities. *)
Inductive PyObject : Type :=
| InstrumentedAttribute (column : string)
| PyBool (b : bool).

Definition py_is (a b : PyObject) : bool :=
  match a, b with
  | PyBool x, PyBool y => Bool.eqb x y
  | InstrumentedAttribute x, InstrumentedAttribute y => String.eqb x y
  | _, _ => false
  end.

Module UserService.

Definition get_user_by_id (user_id : Z) : M (option User.t) :=
  user_id <- Storage.integer_parameter user_id ;;
  result <- Storage.select_where (has_id user_id) ;;
  Storage.scalar_one_or_none result.

Definition get_user_by_email (email : string) : M (option User.t) :=
  result <- Storage.select_where (has_email email) ;;
  Storage.scalar_one_or_none result.

Definition get_user_by_supabase_id (supabase_user_id : string)
    : M (option User.t) :=
  result <- Storage.select_where (has_supabase_user_id supabase_user_id) ;;
  Storage.scalar_one_or_none result.

Definition create_user (user_create : UserCreate.t) (supabase_user_id : string)
    : M User.t :=
  existing_user <- get_user_by_email (UserCreate.email user_create) ;;
  match existing_user with
  | Some _ =>
      raise (HTTPException HTTP_400_BAD_REQUEST
               (Message "User with this email already exists"))
  | None =>
      existing_supabase_user <- get_user_by_supabase_id supabase_user_id ;;
      match existing_supabase_user with
      | Some _ =>
          raise (HTTPException HTTP_400_BAD_REQUEST
                   (Message "User with this Supabase ID already exists"))
      | None =>
          db_user <- Storage.insert
                       (fun i => User.mk i (Some supabase_user_id)
                                   (UserCreate.name user_create)
                                   (UserCreate.email user_create) true) ;;
          Storage.commit ;;
          ret db_user
      end
  end.

Definition update_user (user_id : Z) (user_update : UserUpdate.t)
    : M (option User.t) :=
  db_user <- get_user_by_id user_id ;;
  match db_user with
  | None => ret None
  | Some u =>
      f <- lift (UserUpdate.setattrs user_update) ;;
      db_user <- Storage.update (User.id u) f ;;
      Storage.commit ;;
      ret (Some db_user)
  end.

Definition delete_user (user_id : Z) : M bool :=
  db_user <- get_user_by_id user_id ;;
  match db_user with
  | None => ret false
  | Some u =>
      Storage.update (User.id u) (User.with_is_active false) ;;
      Storage.commit ;;
      ret true
  end.

(** [select(User).where(User.is_active is True).offset(skip).limit(limit)]:
    the argument of [where] is the Python value of the [is] test, and a
    Boolean constant there is the whole WHERE clause.  LIMIT and OFFSET
    are INTEGER parameters, bound in that order, and the server refuses
    a negative OFFSET, then a negative LIMIT. *)
Definition get_users (skip limit : Z) : M (list User.t) :=
  let criterion := py_is (InstrumentedAttribute "is_active") (PyBool true) in
  limit <- Storage.integer_parameter limit ;;
  skip <- Storage.integer_parameter skip ;;
  if skip <? 0 then raise (DBAPIError (negative_row_count "OFFSET"))
  else if limit <? 0 then raise (DBAPIError (negative_row_count "LIMIT"))
  else
    result <- Storage.select_where (fun _ => criterion) ;;
    ret (firstn (Z.to_nat limit) (skipn (Z.to_nat skip) result)).

Definition link_supabase_user (email supabase_user_id : string)
    : M (option User.t) :=
  db_user <- get_user_by_email email ;;
  match db_user with
  | None => ret None
  | Some u =>
      db_user <- Storage.update (User.id u)
                   (User.with_supabase_user_id (Some supabase_user_id)) ;;
      Storage.commit ;;
      ret (Some db_user)
  end.

End UserService.

(** ** The hosted provider (Supabase Auth), boundary contract only *)

(** [user_metadata]: the two entries the services read, as the JSON
    values stored under them, and the names of whatever other entries
    the dictionary holds. *)
Module Metadata.
Record t : Type := mk {
  local_user_id : option Json.t;
  name : option Json.t;
  other_keys : list string
}.

Definition empty : t := mk None None [].

(** Truth value of the dictionary: false when it has no entry. *)
Definition truthy (m : t) : bool :=
  match local_user_id m, name m, other_keys m with
  | None, None, [] => false
  | _, _, _ => true
  end.

(** [metadata or {}] *)
Definition or_empty (m : option t) : t :=
  match m with
  | Some m => if truthy m then m else empty
  | None => empty
  end.

(** [m.update({"name": n, "local_user_id": i})] *)
Definition update (m : t) (n : Json.t) (i : Z) : t :=
  mk (Some (Json.int i)) (Some n) (other_keys m).
End Metadata.

Module Supabase.
(** [user_metadata] is a dictionary in the provider's library; [None]
    stands for the null the specification considers. *)
Record User : Type := mkUser {
  id : string;
  user_metadata : option Metadata.t
}.

Record Session : Type := mkSession {
  access_token : string;
  refresh_token : string
}.

Record AuthResponse : Type := mkAuthResponse {
  user : option User;
  session : option Session
}.

(** One function per call made on [supabase_client.auth]. *)
Record Client : Type := mkClient {
  sign_up : string -> string -> Metadata.t -> Result AuthResponse;
  sign_in_with_password : string -> string -> Result AuthResponse;
  set_session : string -> string -> Result unit;
  sign_out : unit -> Result unit;
  refresh_session : string -> Result AuthResponse;
  get_user : string -> Result AuthResponse;
  reset_password_email : string -> Result unit
}.
End Supabase.

(** ** The auth service ([app/services/auth.py]) *)

Module AuthService.

(** [db] tells whether a session was handed to the constructor. *)
Record t : Type := mk {
  supabase_client : Supabase.Client;
  db : bool
}.

Record SignUpResult : Type := mkSignUpResult {
  su_user : User.t;
  su_session : option Supabase.Session;
  su_supabase_user : Supabase.User;
  su_message : string
}.

Record SignInResult : Type := mkSignInResult {
  si_user : option User.t;
  si_session : Supabase.Session;
  si_access_token : string;
  si_refresh_token : string;
  si_token_type : string
}.

Record Tokens : Type := mkTokens {
  t_access_token : string;
  t_refresh_token : string;
  t_token_type : string
}.

Definition no_session {A} : M A :=
  raise (HTTPException HTTP_500_INTERNAL_SERVER_ERROR
           (Message "Database session not available")).

(** The [name] argument, which the route fills from an [Optional[str]],
    as a Python value. *)
Definition py_name (name : option string) : Json.t :=
  match name with
  | Some n => Json.str n
  | None => Json.null
  end.

Definition sign_up (lib : Library.t) (self : t) (email password : string)
    (name : option string) (metadata : option Metadata.t) : M SignUpResult :=
  if negb (db self) then no_session
  else
    try_except
      (user_create <- lift (UserCreate.validate lib (py_name name) email) ;;
       local_user <- Storage.insert
                       (fun i => User.mk i None (UserCreate.name user_create)
                                   (UserCreate.email user_create) true) ;;
       let supabase_metadata :=
         Metadata.update (Metadata.or_empty metadata)
           (py_name name) (User.id local_user) in
       response <- lift (Supabase.sign_up (supabase_client self)
                           email password supabase_metadata) ;;
       match Supabase.user response with
       | None =>
           raise (HTTPException HTTP_400_BAD_REQUEST
                    (Message "Failed to create user in Supabase"))
       | Some supabase_user =>
           local_user <- Storage.update (User.id local_user)
                           (User.with_supabase_user_id
                              (Some (Supabase.id supabase_user))) ;;
           Storage.commit ;;
           ret (mkSignUpResult local_user (Supabase.session response)
                  supabase_user "User created successfully")
       end)
      (fun e =>
         raise (HTTPException HTTP_400_BAD_REQUEST
                  (Formatted "Registration failed: " e))).

(** The hint as [sign_in] hands it to [get_user_by_id]: a Python [int]
    as it is, any other value as the driver takes it. *)
Definition as_it_is (lib : Library.t) (local_user_id : Json.t) : M Z :=
  match local_user_id with
  | Json.int z => ret z
  | _ =>
      match Library.bind_integer lib local_user_id with
      | Some z => ret z
      | None => raise (DBAPIError not_an_integer)
      end
  end.

(** [int(local_user_id)], as [get_current_user] has it, on the values
    that pass the truth test before it.  A JSON number is finite. *)
Definition py_int (lib : Library.t) (local_user_id : Json.t) : M Z :=
  match local_user_id with
  | Json.int z => ret z
  | Json.bool b => ret (if b then 1 else 0)
  | Json.float truncated _ => ret truncated
  | Json.str s =>
      match Library.int_of_str lib s with
      | Some z => ret z
      | None => raise (ValueError "invalid literal for int()")
      end
  | Json.null | Json.array _ | Json.object _ =>
      raise (TypeError "int() argument")
  end.

(** "If not found, try to get by local_user_id from metadata": lines
    108-116 of [sign_in], and again lines 213-223 of [get_current_user];
    [key] is what each of them does to the hint before the lookup. *)
Definition by_metadata_hint (key : Json.t -> M Z)
    (supabase_user : Supabase.User) (local_user : option User.t)
    : M (option User.t) :=
  match local_user, Supabase.user_metadata supabase_user with
  | None, Some user_metadata =>
      if Metadata.truthy user_metadata then
        match Metadata.local_user_id user_metadata with
        | Some local_user_id =>
            if Json.truthy local_user_id then
              user_id <- key local_user_id ;;
              local_user <- UserService.get_user_by_id user_id ;;
              match local_user with
              | Some u =>
                  u' <- Storage.update (User.id u)
                          (User.with_supabase_user_id
                             (Some (Supabase.id supabase_user))) ;;
                  Storage.commit ;;
                  ret (Some u')
              | None => ret None
              end
            else ret None
        | None => ret None
        end
      else ret None
  | _, _ => ret local_user
  end.

(** [response.user.user_metadata.get("name", "Unknown")] *)
Definition display_name (supabase_user : Supabase.User) : M Json.t :=
  match Supabase.user_metadata supabase_user with
  | None => raise (AttributeError "get")
  | Some user_metadata =>
      ret (match Metadata.name user_metadata with
           | Some n => n
           | None => Json.str "Unknown"
           end)
  end.

(** Lines 104-133 of [sign_in]: from the provider's user to the local
    row. *)
Definition resolve_local_user (lib : Library.t) (email : string)
    (supabase_user : Supabase.User) : M (option User.t) :=
  local_user <- UserService.get_user_by_supabase_id (Supabase.id supabase_user) ;;
  local_user <- by_metadata_hint (as_it_is lib) supabase_user local_user ;;
  match local_user with
  | Some _ => ret local_user
  | None =>
      local_user <- UserService.get_user_by_email email ;;
      match local_user with
      | Some _ =>
          UserService.link_supabase_user email (Supabase.id supabase_user)
      | None =>
          name <- display_name supabase_user ;;
          user_create <- lift (UserCreate.validate lib name email) ;;
          local_user <- UserService.create_user user_create
                          (Supabase.id supabase_user) ;;
          ret (Some local_user)
      end
  end.

Definition sign_in (lib : Library.t) (self : t) (email password : string)
    : M SignInResult :=
  if negb (db self) then no_session
  else
    try_except
      (response <- lift (Supabase.sign_in_with_password (supabase_client self)
                           email password) ;;
       match Supabase.user response, Supabase.session response with
       | Some supabase_user, Some supabase_session =>
           local_user <- resolve_local_user lib email supabase_user ;;
           ret (mkSignInResult local_user supabase_session
                  (Supabase.access_token supabase_session)
                  (Supabase.refresh_token supabase_session)
                  "bearer")
       | _, _ =>
           raise (HTTPException HTTP_401_UNAUTHORIZED
                    (Message "Invalid credentials"))
       end)
      (fun e =>
         match e with
         | HTTPException _ _ => raise e
         | _ => raise (HTTPException HTTP_401_UNAUTHORIZED
                         (Formatted "Login failed: " e))
         end).

Definition sign_out (self : t) (access_token : string) : M string :=
  try_except
    (lift (Supabase.set_session (supabase_client self) access_token "") ;;
     lift (Supabase.sign_out (supabase_client self) tt) ;;
     ret "Successfully signed out")
    (fun e =>
       raise (HTTPException HTTP_400_BAD_REQUEST
                (Formatted "Sign out failed: " e))).

Definition refresh_token (self : t) (refresh_token : string) : M Tokens :=
  try_except
    (response <- lift (Supabase.refresh_session (supabase_client self)
                         refresh_token) ;;
     match Supabase.session response with
     | Some supabase_session =>
         ret (mkTokens (Supabase.access_token supabase_session)
                (Supabase.refresh_token supabase_session) "bearer")
     | None =>
         raise (HTTPException HTTP_401_UNAUTHORIZED
                  (Message "Invalid refresh token"))
     end)
    (fun e =>
       raise (HTTPException HTTP_401_UNAUTHORIZED
                (Formatted "Token refresh failed: " e))).

Definition get_current_user (lib : Library.t) (self : t)
    (access_token : string) : M User.t :=
  if negb (db self) then no_session
  else
    try_except
      (lift (Supabase.set_session (supabase_client self) access_token "") ;;
       supabase_response <- lift (Supabase.get_user (supabase_client self)
                                    access_token) ;;
       match Supabase.user supabase_response with
       | None =>
           raise (HTTPException HTTP_401_UNAUTHORIZED (Message "Invalid token"))
       | Some supabase_user =>
           local_user <- UserService.get_user_by_supabase_id
                           (Supabase.id supabase_user) ;;
           local_user <- by_metadata_hint (py_int lib) supabase_user
                           local_user ;;
           match local_user with
           | None =>
               raise (HTTPException HTTP_401_UNAUTHORIZED
                        (Message "User not found in local database"))
           | Some u => ret u
           end
       end)
      (fun e =>
         match e with
         | HTTPException _ _ => raise e
         | _ => raise (HTTPException HTTP_401_UNAUTHORIZED
                         (Formatted "Authentication failed: " e))
         end).

Definition reset_password (self : t) (email : string) : M string :=
  try_except
    (lift (Supabase.reset_password_email (supabase_client self) email) ;;
     ret "Password reset email sent")
    (fun e =>
       raise (HTTPException HTTP_400_BAD_REQUEST
                (Formatted "Password reset failed: " e))).

End AuthService.

(** ** HTTP handlers ([app/api/v1/endpoints]) *)

Module Http.
(** The dictionary built from a row for the response body. *)
Record UserData : Type := mkUserData {
  id : Z;
  email : string;
  name : string;
  is_active : bool
}.

Definition user_data (u : User.t) : UserData :=
  mkUserData (User.id u) (User.email u) (User.name u) (User.is_active u).

Inductive Body : Type :=
| SignUpResponse (message : string) (user : UserData)
    (email_confirmation_required : bool)
    (access_token refresh_token : option string) (token_type : string)
| TokenResponse (access_token refresh_token token_type : string)
    (user : UserData)
| MessageResponse (message : string)
| UserBody (user : User.t)
| UsersBody (users : list User.t)
| ErrorBody (detail : Detail)
| InternalServerError.

Record Response : Type := mkResponse {
  status : Z;
  body : Body
}.

(** The framework's part: the handler runs in a session of its own; a
    returned body goes out with the route's status code, an
    [HTTPException] with its own, anything else as a 500. *)
Definition respond (status_code : Z) (handler : M Body) (db : Database)
    : Response * Database :=
  match Storage.run handler db with
  | (Ok b, db') => (mkResponse status_code b, db')
  | (Raise (HTTPException code detail), db') =>
      (mkResponse code (ErrorBody detail), db')
  | (Raise _, db') =>
      (mkResponse HTTP_500_INTERNAL_SERVER_ERROR InternalServerError, db')
  end.
End Http.

Module AuthEndpoints.

Record UserSignUp : Type := mkUserSignUp {
  email : string;
  password : string;
  name : option string;
  metadata : option Metadata.t
}.

(** [POST /signup], status 201.  [result["session"]] is the
    provider's [Session] object, which is true and takes no subscript:
    the branch for a session raises where it reads the tokens. *)
Definition sign_up (lib : Library.t) (client : Supabase.Client)
    (user_data : UserSignUp) : M Http.Body :=
  let auth_service := AuthService.mk client true in
  result <- AuthService.sign_up lib auth_service (email user_data)
              (password user_data) (name user_data) (metadata user_data) ;;
  let user_data := Http.user_data (AuthService.su_user result) in
  match AuthService.su_session result with
  | Some supabase_session =>
      raise (TypeError "'Session' object is not subscriptable")
  | None =>
      ret (Http.SignUpResponse
             "User created successfully. Please check your email to confirm your account."
             user_data true None None "bearer")
  end.

(** The route: [status_code=status.HTTP_201_CREATED]. *)
Definition post_signup (lib : Library.t) (client : Supabase.Client)
    (user_data : UserSignUp) (db : Database) : Http.Response * Database :=
  Http.respond HTTP_201_CREATED (sign_up lib client user_data) db.

(** [POST /signin] *)
Definition sign_in (lib : Library.t) (client : Supabase.Client)
    (email password : string) : M Http.Body :=
  let auth_service := AuthService.mk client true in
  result <- AuthService.sign_in lib auth_service email password ;;
  match AuthService.si_user result with
  | None => raise (AttributeError "id")
  | Some u =>
      ret (Http.TokenResponse (AuthService.si_access_token result)
             (AuthService.si_refresh_token result) "bearer"
             (Http.user_data u))
  end.

(** [POST /signout] *)
Definition sign_out (client : Supabase.Client) (credentials : string)
    : M Http.Body :=
  let auth_service := AuthService.mk client true in
  message <- AuthService.sign_out auth_service credentials ;;
  ret (Http.MessageResponse message).

(** [POST /refresh] *)
Definition refresh_token (lib : Library.t) (client : Supabase.Client)
    (token : string) : M Http.Body :=
  let auth_service := AuthService.mk client true in
  result <- AuthService.refresh_token auth_service token ;;
  user <- AuthService.get_current_user lib auth_service
            (AuthService.t_access_token result) ;;
  ret (Http.TokenResponse (AuthService.t_access_token result)
         (AuthService.t_refresh_token result) "bearer"
         (Http.user_data user)).

(** [POST /reset-password] *)
Definition reset_password (client : Supabase.Client) (email : string)
    : M Http.Body :=
  let auth_service := AuthService.mk client true in
  message <- AuthService.reset_password auth_service email ;;
  ret (Http.MessageResponse message).

(** [GET /me], through the dependency [core.auth.get_current_user]; the
    bearer scheme has already rejected a request without credentials. *)
Definition get_current_user_info (lib : Library.t) (client : Supabase.Client)
    (credentials : string) : M Http.Body :=
  user <- try_except
            (AuthService.get_current_user lib (AuthService.mk client true)
               credentials)
            (fun e =>
               match e with
               | HTTPException _ _ => raise e
               | _ => raise (HTTPException HTTP_401_UNAUTHORIZED
                               (Formatted "Authentication failed: " e))
               end) ;;
  ret (Http.UserBody user).

End AuthEndpoints.

Module UsersEndpoints.

Definition get_users : M Http.Body :=
  users <- Storage.select_where (fun _ => true) ;;
  ret (Http.UsersBody users).

Definition not_found {A} : M A :=
  raise (HTTPException HTTP_404_NOT_FOUND (Message "User not found")).

Definition get_user (user_id : Z) : M Http.Body :=
  user <- UserService.get_user_by_id user_id ;;
  match user with
  | None => not_found
  | Some u => ret (Http.UserBody u)
  end.

Definition create_user (user : UserCreate.t) : M Http.Body :=
  existing <- UserService.get_user_by_email (UserCreate.email user) ;;
  match existing with
  | Some _ =>
      raise (HTTPException HTTP_400_BAD_REQUEST
               (Message "Email already registered"))
  | None =>
      db_user <- Storage.insert
                   (fun i => User.mk i None (UserCreate.name user)
                               (UserCreate.email user) true) ;;
      Storage.commit ;;
      ret (Http.UserBody db_user)
  end.

Definition update_user (user_id : Z) (user_update : UserUpdate.t)
    : M Http.Body :=
  db_user <- UserService.get_user_by_id user_id ;;
  match db_user with
  | None => not_found
  | Some u =>
      f <- lift (UserUpdate.setattrs user_update) ;;
      db_user <- Storage.update (User.id u) f ;;
      Storage.commit ;;
      ret (Http.UserBody db_user)
  end.

Definition delete_user (user_id : Z) : M Http.Body :=
  db_user <- UserService.get_user_by_id user_id ;;
  match db_user with
  | None => not_found
  | Some u =>
      Storage.delete (User.id u) ;;
      Storage.commit ;;
      ret (Http.MessageResponse
             ("User " ++ User.name u ++ " deleted successfully")%string)
  end.

End UsersEndpoints.

(** ** Requests and reachable states *)

(** Every entry point that can touch the table: the methods of the two
    services, each called on a session of its own, and the handlers. *)
Inductive Call : Type :=
| user_create_user (user_create : UserCreate.t) (supabase_user_id : string)
| user_get_user_by_id (user_id : Z)
| user_get_user_by_email (email : string)
| user_get_user_by_supabase_id (supabase_user_id : string)
| user_update_user (user_id : Z) (user_update : UserUpdate.t)
| user_delete_user (user_id : Z)
| user_get_users (skip limit : Z)
| user_link_supabase_user (email supabase_user_id : string)
| auth_sign_up (db : bool) (email password : string) (name : option string)
    (metadata : option Metadata.t)
| auth_sign_in (db : bool) (email password : string)
| auth_sign_out (db : bool) (access_token : string)
| auth_refresh_token (db : bool) (refresh_token : string)
| auth_get_current_user (db : bool) (access_token : string)
| auth_reset_password (db : bool) (email : string)
| post_signup (user_data : AuthEndpoints.UserSignUp)
| post_signin (email password : string)
| post_signout (credentials : string)
| post_refresh (refresh_token : string)
| post_reset_password (email : string)
| get_me (credentials : string)
| users_get_users
| users_get_user (user_id : Z)
| users_create_user (user : UserCreate.t)
| users_update_user (user_id : Z) (user_update : UserUpdate.t)
| users_delete_user (user_id : Z).

Definition effect {A} (m : M A) (db : Database) : Database :=
  snd (Storage.run m db).

Definition perform (lib : Library.t) (client : Supabase.Client) (c : Call)
    (db : Database) : Database :=
  match c with
  | user_create_user uc sid => effect (UserService.create_user uc sid) db
  | user_get_user_by_id i => effect (UserService.get_user_by_id i) db
  | user_get_user_by_email e => effect (UserService.get_user_by_email e) db
  | user_get_user_by_supabase_id sid =>
      effect (UserService.get_user_by_supabase_id sid) db
  | user_update_user i uu => effect (UserService.update_user i uu) db
  | user_delete_user i => effect (UserService.delete_user i) db
  | user_get_users skip limit => effect (UserService.get_users skip limit) db
  | user_link_supabase_user e sid =>
      effect (UserService.link_supabase_user e sid) db
  | auth_sign_up d e p n md =>
      effect (AuthService.sign_up lib (AuthService.mk client d) e p n md) db
  | auth_sign_in d e p =>
      effect (AuthService.sign_in lib (AuthService.mk client d) e p) db
  | auth_sign_out d tok =>
      effect (AuthService.sign_out (AuthService.mk client d) tok) db
  | auth_refresh_token d tok =>
      effect (AuthService.refresh_token (AuthService.mk client d) tok) db
  | auth_get_current_user d tok =>
      effect (AuthService.get_current_user lib (AuthService.mk client d) tok)
        db
  | auth_reset_password d e =>
      effect (AuthService.reset_password (AuthService.mk client d) e) db
  | post_signup user_data =>
      effect (AuthEndpoints.sign_up lib client user_data) db
  | post_signin e p => effect (AuthEndpoints.sign_in lib client e p) db
  | post_signout tok => effect (AuthEndpoints.sign_out client tok) db
  | post_refresh tok => effect (AuthEndpoints.refresh_token lib client tok) db
  | post_reset_password e => effect (AuthEndpoints.reset_password client e) db
  | get_me tok =>
      effect (AuthEndpoints.get_current_user_info lib client tok) db
  | users_get_users => effect UsersEndpoints.get_users db
  | users_get_user i => effect (UsersEndpoints.get_user i) db
  | users_create_user u => effect (UsersEndpoints.create_user u) db
  | users_update_user i uu => effect (UsersEndpoints.update_user i uu) db
  | users_delete_user i => effect (UsersEndpoints.delete_user i) db
  end.

(** The empty table, with the sequence at its first value. *)
Definition initial : Database := mkDatabase [] 1.

Inductive reachable : Database -> Prop :=
| reachable_initial : reachable initial
| reachable_step lib client c db :
    reachable db -> reachable (perform lib client c db).

(** ** The uniqueness invariants *)

(** "At most one LocalUser exists with that email", as a count. *)
Definition at_most_one (p : User.t -> bool) (l : list User.t) : Prop :=
  (List.length (filter p l) <= 1)%nat.

Definition unique_emails (db : Database) : Prop :=
  forall e, at_most_one (has_email e) (rows db).

Definition unique_supabase_user_ids (db : Database) : Prop :=
  forall x, at_most_one (has_supabase_user_id x) (rows db).

(** The same, on the columns, together with what the primary key, the
    sequence and the widths of the columns guarantee. *)
Record well_formed (l : list User.t) (n : Z) : Prop := mk_well_formed {
  wf_ids : NoDup (Storage.column Storage.pk l);
  wf_emails : NoDup (Storage.column Storage.email_key l);
  wf_supabase_user_ids : NoDup (Storage.column User.supabase_user_id l);
  wf_issued : Forall (fun u => 0 < User.id u < n) l;
  wf_widths : Forall (fun u => Storage.too_long None u = None) l;
  wf_sequence : 0 < n <= Storage.max_int32 + 1
}.

Definition consistent (db : Database) : Prop :=
  well_formed (rows db) (next_id db).

(** The WHERE clause [column == k], for any column. *)
Definition holds {K} (key : User.t -> option K) (eqb : K -> K -> bool)
    (k : K) (u : User.t) : bool :=
  match key u with
  | Some x => eqb x k
  | None => false
  end.

Definition invariant (s : Session) : Prop :=
  well_formed (persisted s) (sequence s) /\ well_formed (pending s) (sequence s).

Definition preserves {A} (m : M A) : Prop :=
  forall s, invariant s -> invariant (snd (m s)).

(** ** What "no LocalUser matches" means *)

Definition no_match_by_external_id (external_id : string) (l : list User.t)
    : Prop :=
  forall u, In u l -> User.supabase_user_id u <> Some external_id.

(** No row has the internal id the hint of the provider's user names. *)
Definition no_match_by_hint (supabase_user : Supabase.User) (l : list User.t)
    : Prop :=
  forall user_metadata hint,
    Supabase.user_metadata supabase_user = Some user_metadata ->
    Metadata.local_user_id user_metadata = Some (Json.int hint) ->
    forall u, In u l -> User.id u <> hint.

(** A hint the lookup by internal id takes without raising: an integer
    of the range of the [id] column, or a value the truth test skips. *)
Definition usable_hint (hint : Json.t) : bool :=
  match hint with
  | Json.int z => Storage.in_int32 z
  | _ => negb (Json.truthy hint)
  end.

Definition hint_in_range (supabase_user : Supabase.User) : Prop :=
  forall user_metadata hint,
    Supabase.user_metadata supabase_user = Some user_metadata ->
    Metadata.local_user_id user_metadata = Some hint ->
    usable_hint hint = true.

(** A name the create step takes: a string that fits the [name]
    column. *)
Definition usable_name (name : Json.t) : bool :=
  match name with
  | Json.str n => Storage.fits 100 n
  | _ => false
  end.

Definition name_fits (supabase_user : Supabase.User) : Prop :=
  forall user_metadata name,
    Supabase.user_metadata supabase_user = Some user_metadata ->
    Metadata.name user_metadata = Some name ->
    usable_name name = true.

(** What [sign_in] and [get_current_user] do to the hint before the
    lookup agrees on a Python [int]: it goes as it is. *)
Definition int_as_it_is (key : Json.t -> M Z) : Prop :=
  forall z s, key (Json.int z) s = (Ok z, s).

(** The name the create step of [sign_in] gives the new row, out of
    such a metadata object. *)
Definition display_name_of (m : Metadata.t) : string :=
  match Metadata.name m with
  | Some (Json.str d) => d
  | _ => "Unknown"
  end.

Definition no_match_by_email (email : string) (l : list User.t) : Prop :=
  forall u, In u l -> User.email u <> email.

(** The provider authenticates: the sign-in call returns a user and a
    session. *)
Definition authenticates (client : Supabase.Client) (email password : string)
    (supabase_user : Supabase.User) (supabase_session : Supabase.Session)
    : Prop :=
  Supabase.sign_in_with_password client email password
  = Ok (Supabase.mkAuthResponse (Some supabase_user) (Some supabase_session)).

(** What [sign_in] returns around the LocalUser it resolved. *)
Definition signed_in (local_user : User.t) (supabase_session : Supabase.Session)
    : AuthService.SignInResult :=
  AuthService.mkSignInResult (Some local_user) supabase_session
    (Supabase.access_token supabase_session)
    (Supabase.refresh_token supabase_session) "bearer".

(** What [sign_up] needs before it calls the provider: a name, one
    that fits its column, an address the validator accepts and no row
    has, and an id left in the sequence. *)
Definition reaches_provider (lib : Library.t) (db : Database)
    (email : string) (name : option string) : bool :=
  match name, Library.EmailStr lib email with
  | Some n, Some address =>
      Storage.fits 100 n
      && negb (existsb (has_email address) (rows db))
      && (next_id db <=? Storage.max_int32)
  | _, _ => false
  end.

(** ** The reconciliation, in the words of the specification *)

(** Section 4.1, [resolveLocalUser(externalId, externalMetadata, email)],
    step by step, on a table [l] whose sequence stands at [n]: the
    LocalUser it resolves to and the table afterwards. *)
Definition resolveLocalUser (l : list User.t) (n : Z) (externalId : string)
    (externalMetadata : Metadata.t) (email : string) : User.t * list User.t :=
  let attach u :=
    let u' :=
      User.mk (User.id u) (Some externalId) (User.name u) (User.email u)
        (User.is_active u) in
    (u', map (fun v => if User.id v =? User.id u then u' else v) l) in
  match find (fun u => match User.supabase_user_id u with
                       | Some x => String.eqb x externalId
                       | None => false
                       end) l with
  | Some u => (u, l)
  | None =>
      match match Metadata.local_user_id externalMetadata with
            | Some (Json.int hint) => find (fun u => User.id u =? hint) l
            | _ => None
            end with
      | Some u => attach u
      | None =>
          match find (fun u => String.eqb (User.email u) email) l with
          | Some u => attach u
          | None =>
              let display_name :=
                match Metadata.name externalMetadata with
                | Some (Json.str n) => n
                | _ => "Unknown"
                end in
              let u := User.mk n (Some externalId) display_name email true in
              (u, l ++ [u])
          end
      end
  end.

(** ** Rejections by the provider *)

(** The service methods that forward a credential or a token. *)
Inductive Forwarding : Type :=
| forward_sign_in (email password : string)
| forward_sign_out (access_token : string)
| forward_refresh_token (refresh_token : string)
| forward_get_current_user (access_token : string)
| forward_reset_password (email : string).

(** The status code a computation leaves with, when it raises an
    [HTTPException]. *)
Definition surfaced {A} (r : Result A * Session) : option Z :=
  match fst r with
  | Raise (HTTPException code _) => Some code
  | _ => None
  end.

Definition forward (lib : Library.t) (self : AuthService.t) (op : Forwarding)
    (s : Session) : option Z :=
  match op with
  | forward_sign_in e p => surfaced (AuthService.sign_in lib self e p s)
  | forward_sign_out tok => surfaced (AuthService.sign_out self tok s)
  | forward_refresh_token tok => surfaced (AuthService.refresh_token self tok s)
  | forward_get_current_user tok =>
      surfaced (AuthService.get_current_user lib self tok s)
  | forward_reset_password e => surfaced (AuthService.reset_password self e s)
  end.

(** The client call raised the provider's error. *)
Definition refused {A} (r : Result A) : Prop :=
  exists reason, r = Raise (AuthApiError reason).

(** The provider turns the credential or token down: a call the method
    makes raises, or the response lacks what a successful one carries. *)
Definition provider_rejects (client : Supabase.Client) (op : Forwarding) : Prop :=
  match op with
  | forward_sign_in e p =>
      refused (Supabase.sign_in_with_password client e p)
      \/ exists r, Supabase.sign_in_with_password client e p = Ok r
                   /\ (Supabase.user r = None \/ Supabase.session r = None)
  | forward_sign_out tok =>
      refused (Supabase.set_session client tok "")
      \/ (Supabase.set_session client tok "" = Ok tt
          /\ refused (Supabase.sign_out client tt))
  | forward_refresh_token tok =>
      refused (Supabase.refresh_session client tok)
      \/ exists r, Supabase.refresh_session client tok = Ok r
                   /\ Supabase.session r = None
  | forward_get_current_user tok =>
      refused (Supabase.set_session client tok "")
      \/ (Supabase.set_session client tok "" = Ok tt
          /\ (refused (Supabase.get_user client tok)
              \/ exists r, Supabase.get_user client tok = Ok r
                           /\ Supabase.user r = None))
  | forward_reset_password e =>
      refused (Supabase.reset_password_email client e)
  end.

(** The status each method raises with in its handler for provider
    errors. *)
Definition status_on_rejection (op : Forwarding) : Z :=
  match op with
  | forward_sign_in _ _ => HTTP_401_UNAUTHORIZED
  | forward_refresh_token _ => HTTP_401_UNAUTHORIZED
  | forward_get_current_user _ => HTTP_401_UNAUTHORIZED
  | forward_sign_out _ => HTTP_400_BAD_REQUEST
  | forward_reset_password _ => HTTP_400_BAD_REQUEST
  end.

(** ** Sample data *)

Module Sample.

(** A provider that authenticates everybody as [supabase_user]. *)
Definition accepting (supabase_user : Supabase.User) : Supabase.Client :=
  let tokens := Supabase.mkSession "access" "refresh" in
  let response confirmed :=
    Ok (Supabase.mkAuthResponse (Some supabase_user)
          (if confirmed : bool then Some tokens else None)) in
  Supabase.mkClient
    (fun _ _ _ => response false)
    (fun _ _ => response true)
    (fun _ _ => Ok tt)
    (fun _ => Ok tt)
    (fun _ => response true)
    (fun _ => response true)
    (fun _ => Ok tt).

(** The same provider, with confirmation of the e-mail address switched
    off: a sign-up returns a session at once. *)
Definition unconfirmed (supabase_user : Supabase.User) : Supabase.Client :=
  let response :=
    Ok (Supabase.mkAuthResponse (Some supabase_user)
          (Some (Supabase.mkSession "access" "refresh"))) in
  Supabase.mkClient
    (fun _ _ _ => response)
    (fun _ _ => response)
    (fun _ _ => Ok tt)
    (fun _ => Ok tt)
    (fun _ => response)
    (fun _ => response)
    (fun _ => Ok tt).

(** A provider that turns every call down. *)
Definition rejecting : Supabase.Client :=
  Supabase.mkClient
    (fun _ _ _ => Raise (AuthApiError "invalid"))
    (fun _ _ => Raise (AuthApiError "invalid"))
    (fun _ _ => Raise (AuthApiError "invalid"))
    (fun _ => Raise (AuthApiError "invalid"))
    (fun _ => Raise (AuthApiError "invalid"))
    (fun _ => Raise (AuthApiError "invalid"))
    (fun _ => Raise (AuthApiError "invalid")).

(** The libraries, on the inputs of the samples: addresses that are in
    normal form already, and no hint that is not a Python [int]. *)
Definition lib : Library.t :=
  Library.mk (fun address => Some address) (fun _ => None) (fun _ => None).

Definition ada : User.t := User.mk 7 None "Ada" "ada@example.org" true.
Definition bob : User.t :=
  User.mk 3 (Some "uid-bob") "Bob" "bob@example.org" true.

Definition table : Database := mkDatabase [bob; ada] 8.

(** The provider's account of Ada, carrying the hint [sign_up] stored. *)
Definition ada_hinted : Supabase.User :=
  Supabase.mkUser "uid-ada"
    (Some (Metadata.mk (Some (Json.int 7)) (Some (Json.str "Ada")) [])).

(** The same account without any hint. *)
Definition ada_unhinted : Supabase.User :=
  Supabase.mkUser "uid-ada"
    (Some (Metadata.mk None (Some (Json.str "Ada")) [])).

(** An account the table knows nothing about. *)
Definition eve : Supabase.User :=
  Supabase.mkUser "uid-eve"
    (Some (Metadata.mk None (Some (Json.str "Eve")) [])).

(** Eve again, with a hint just beyond the range of the [id] column. *)
Definition eve_beyond : Supabase.User :=
  Supabase.mkUser "uid-eve"
    (Some (Metadata.mk (Some (Json.int 2147483648)) (Some (Json.str "Eve"))
             [])).

(** Ada with such a hint. *)
Definition ada_beyond : Supabase.User :=
  Supabase.mkUser "uid-ada"
    (Some (Metadata.mk (Some (Json.int 2147483648)) (Some (Json.str "Ada"))
             [])).

(** A name of 101 characters. *)
Definition long_name : string :=
  "01234567890123456789012345678901234567890123456789012345678901234567890123456789012345678901234567890".

(** Eve under that name. *)
Definition eve_verbose : Supabase.User :=
  Supabase.mkUser "uid-eve"
    (Some (Metadata.mk None (Some (Json.str long_name)) [])).

(** The same, with no metadata object at all. *)
Definition eve_bare : Supabase.User := Supabase.mkUser "uid-eve" None.

Definition bob_alone : Database := mkDatabase [bob] 4.

End Sample.

(** The table after Eve, unknown so far, has signed in once. *)
Definition after_first_sign_in : Database :=
  perform Sample.lib (Sample.accepting Sample.eve)
    (auth_sign_in true "eve@example.org" "secret") initial.

(** ** Dependencies ([app/core/auth.py]) *)

(** The [headers] argument of the exceptions raised here is left out. *)
Module CoreAuth.

Definition get_current_user (lib : Library.t) (client : Supabase.Client)
    (credentials : option string) : M User.t :=
  match credentials with
  | None =>
      raise (HTTPException HTTP_401_UNAUTHORIZED (Message "Not authenticated"))
  | Some token =>
      try_except
        (AuthService.get_current_user lib (AuthService.mk client true) token)
        (fun e =>
           match e with
           | HTTPException _ _ => raise e
           | _ => raise (HTTPException HTTP_401_UNAUTHORIZED
                           (Formatted "Authentication failed: " e))
           end)
  end.

Definition get_current_active_user (lib : Library.t)
    (client : Supabase.Client) (credentials : option string) : M User.t :=
  current_user <- get_current_user lib client credentials ;;
  if negb (User.is_active current_user) then
    raise (HTTPException HTTP_401_UNAUTHORIZED
             (Message "User account is inactive"))
  else ret current_user.

Definition get_optional_current_user (lib : Library.t)
    (client : Supabase.Client) (credentials : option string)
    : M (option User.t) :=
  match credentials with
  | None => ret None
  | Some token =>
      try_except
        (user <- AuthService.get_current_user lib
                   (AuthService.mk client true) token ;;
         ret (Some user))
        (fun _ => ret None)
  end.

(** [require_roles], for whatever roles, returns [role_checker], whose body is
    [return current_user] on top of [get_current_active_user]. *)
Definition require_roles (roles : list string) (lib : Library.t)
    (client : Supabase.Client) (credentials : option string) : M User.t :=
  current_user <- get_current_active_user lib client credentials ;;
  ret current_user.

End CoreAuth.

(** ** Vocabulary of the further properties *)

(** The table with the external-id column blanked out. *)
Definition blank (l : list User.t) : list User.t :=
  map (User.with_supabase_user_id None) l.

(** A computation that commits nothing. *)
Definition quiet {A} (m : M A) : Prop :=
  forall s, persisted (snd (m s)) = persisted s.

(** A computation that has committed nothing whenever it raises. *)
Definition atomic {A} (m : M A) : Prop :=
  forall s, persisted (snd (m s)) = persisted s \/ exists a, fst (m s) = Ok a.

(** The session a forwarding method leaves behind. *)
Definition forward_session (lib : Library.t) (self : AuthService.t)
    (op : Forwarding) (s : Session) : Session :=
  match op with
  | forward_sign_in e p => snd (AuthService.sign_in lib self e p s)
  | forward_sign_out tok => snd (AuthService.sign_out self tok s)
  | forward_refresh_token tok => snd (AuthService.refresh_token self tok s)
  | forward_get_current_user tok =>
      snd (AuthService.get_current_user lib self tok s)
  | forward_reset_password e => snd (AuthService.reset_password self e s)
  end.

(** The provider recognises the access token as that of
    [supabase_user]. *)
Definition identifies (client : Supabase.Client) (access_token : string)
    (supabase_user : Supabase.User) : Prop :=
  Supabase.set_session client access_token "" = Ok tt
  /\ exists supabase_session,
       Supabase.get_user client access_token
       = Ok (Supabase.mkAuthResponse (Some supabase_user) supabase_session).

(** The provider's account of Bob, who is linked in [Sample.table]. *)
Definition bob_account : Supabase.User :=
  Supabase.mkUser "uid-bob"
    (Some (Metadata.mk (Some (Json.int 3)) (Some (Json.str "Bob")) [])).

(** * Properties *)

(** ** Columns under a unique index *)

Section Column.
Variable K : Type.
Variable key : User.t -> option K.
Variable eqb : K -> K -> bool.
Hypothesis eqb_eq : forall a b, eqb a b = true <-> a = b.

#[local] Abbreviation holds := (holds key eqb).

Lemma holds_true k u : holds k u = true <-> key u = Some k.
Proof.
  unfold holds. destruct (key u) as [x|].
  - rewrite eqb_eq. split; congruence.
  - split; discriminate.
Qed.

Lemma In_column k l :
  In k (Storage.column key l) <-> exists u, In u l /\ key u = Some k.
Proof.
  unfold Storage.column. rewrite in_flat_map. split.
  - intros (u & Hu & Hk). exists u. split; [assumption|].
    destruct (key u) as [x|]; simpl in Hk; [|contradiction].
    destruct Hk as [->|[]]. reflexivity.
  - intros (u & Hu & Hk). exists u. split; [assumption|].
    rewrite Hk. now left.
Qed.

Lemma column_cons u l :
  Storage.column key (u :: l)
  = match key u with Some k => k :: Storage.column key l
                | None => Storage.column key l end.
Proof. unfold Storage.column. simpl. destruct (key u); reflexivity. Qed.

Lemma column_app l1 l2 :
  Storage.column key (l1 ++ l2) = Storage.column key l1 ++ Storage.column key l2.
Proof. apply flat_map_app. Qed.

Lemma filter_holds_nil k l :
  ~ In k (Storage.column key l) -> filter (holds k) l = [].
Proof.
  induction l as [|u l IH]; intros Hn; [reflexivity|].
  simpl. destruct (holds k u) eqn:E.
  - apply holds_true in E. exfalso. apply Hn.
    apply In_column. exists u. split; [now left|assumption].
  - apply IH. intros Hin. apply Hn.
    apply In_column in Hin. destruct Hin as (v & Hv & Hk).
    apply In_column. exists v. split; [now right|assumption].
Qed.

Lemma existsb_holds_false k l :
  existsb (holds k) l = false <-> ~ In k (Storage.column key l).
Proof.
  split.
  - intros E Hin. apply In_column in Hin. destruct Hin as (u & Hu & Hk).
    assert (existsb (holds k) l = true) as E'
      by (apply existsb_exists; exists u; split;
          [assumption|now apply holds_true]).
    congruence.
  - intros Hn. destruct (existsb (holds k) l) eqn:E; [|reflexivity].
    apply existsb_exists in E. destruct E as (u & Hu & Hk).
    apply holds_true in Hk. exfalso. apply Hn.
    apply In_column. now exists u.
Qed.

(** A unique index gives at most one row per value. *)
Lemma NoDup_at_most_one l :
  NoDup (Storage.column key l) -> forall k, at_most_one (holds k) l.
Proof.
  unfold at_most_one.
  induction l as [|u l IH]; intros Hnd k; simpl; [lia|].
  rewrite column_cons in Hnd.
  destruct (holds k u) eqn:E.
  - apply holds_true in E. rewrite E in Hnd.
    apply NoDup_cons_iff in Hnd. destruct Hnd as [Hn _].
    rewrite (filter_holds_nil k l Hn). simpl. lia.
  - apply IH. destruct (key u); [|assumption].
    apply NoDup_cons_iff in Hnd. tauto.
Qed.

Lemma at_most_one_NoDup l :
  (forall k, at_most_one (holds k) l) -> NoDup (Storage.column key l).
Proof.
  unfold at_most_one.
  induction l as [|u l IH]; intros H; [constructor|].
  assert (NoDup (Storage.column key l)) as Hl.
  { apply IH. intros k. specialize (H k). simpl in H.
    destruct (holds k u); simpl in H; lia. }
  rewrite column_cons. destruct (key u) as [k|] eqn:Ek; [|assumption].
  constructor; [|assumption].
  intros Hin. apply In_column in Hin. destruct Hin as (v & Hv & Hk).
  specialize (H k). simpl in H.
  assert (holds k u = true) as Eu by now apply holds_true.
  rewrite Eu in H. simpl in H.
  assert (In v (filter (holds k) l)) as Hf
    by (apply filter_In; split; [assumption|now apply holds_true]).
  destruct (filter (holds k) l); [contradiction|simpl in H; lia].
Qed.

(** With a unique index, the row that carries a value is the whole
    answer of the query for that value. *)
Lemma filter_holds_single k u l :
  NoDup (Storage.column key l) -> In u l -> key u = Some k ->
  filter (holds k) l = [u].
Proof.
  intros Hnd Hin Hk.
  pose proof (NoDup_at_most_one l Hnd k) as H1. unfold at_most_one in H1.
  assert (In u (filter (holds k) l)) as Hf
    by (apply filter_In; split; [assumption|now apply holds_true]).
  destruct (filter (holds k) l) as [|a [|b t]]; simpl in *.
  - contradiction.
  - destruct Hf as [->|[]]. reflexivity.
  - lia.
Qed.

Lemma NoDup_column_snoc u l :
  NoDup (Storage.column key l) ->
  (forall k, key u = Some k -> ~ In k (Storage.column key l)) ->
  NoDup (Storage.column key (l ++ [u])).
Proof.
  intros Hnd Hfresh. rewrite column_app. apply NoDup_app.
  - assumption.
  - rewrite column_cons. destruct (key u); repeat constructor. intros [].
  - intros k Hk Hk'. rewrite column_cons in Hk'.
    destruct (key u) as [x|] eqn:E; simpl in Hk'; [|contradiction].
    destruct Hk' as [<-|[]]. now apply (Hfresh x).
Qed.

Lemma NoDup_column_filter p l :
  NoDup (Storage.column key l) -> NoDup (Storage.column key (filter p l)).
Proof.
  induction l as [|u l IH]; intros Hnd; [constructor|].
  rewrite column_cons in Hnd. simpl.
  assert (NoDup (Storage.column key l)) as Hl
    by (destruct (key u); [apply NoDup_cons_iff in Hnd; tauto|assumption]).
  destruct (p u); [|now apply IH].
  rewrite column_cons. destruct (key u) as [k|]; [|now apply IH].
  constructor; [|now apply IH].
  apply NoDup_cons_iff in Hnd. destruct Hnd as [Hn _].
  intros Hin. apply Hn. apply In_column in Hin.
  destruct Hin as (v & Hv & Hk). apply filter_In in Hv.
  apply In_column. exists v. tauto.
Qed.

End Column.

Section Replace.
Variable K : Type.
Variable key : User.t -> option K.

Lemma pk_alone i a l :
  NoDup (Storage.column Storage.pk (a :: l)) -> has_id i a = true ->
  forall v, In v l -> has_id i v = false.
Proof.
  intros Hnd Ha v Hv. unfold has_id in *.
  apply Z.eqb_eq in Ha. apply Z.eqb_neq. intros Hv'.
  change (Storage.column Storage.pk (a :: l))
    with (User.id a :: Storage.column Storage.pk l) in Hnd.
  apply NoDup_cons_iff in Hnd. destruct Hnd as [Hn _]. apply Hn.
  apply In_column. exists v. split; [assumption|].
  unfold Storage.pk. congruence.
Qed.

Lemma others_all i l :
  (forall v, In v l -> has_id i v = false) -> Storage.others i l = l.
Proof.
  induction l as [|a l IH]; intros H; [reflexivity|].
  unfold Storage.others in *. simpl. rewrite (H a (or_introl eq_refl)). simpl.
  f_equal. apply IH. intros v Hv. apply H. now right.
Qed.

Lemma replace_none i (u' : User.t) l :
  (forall v, In v l -> has_id i v = false) ->
  Storage.replace i u' l = l.
Proof.
  unfold Storage.replace.
  induction l as [|a l IH]; intros H; [reflexivity|].
  simpl. rewrite (H a (or_introl eq_refl)).
  f_equal. apply IH. intros v Hv. apply H. now right.
Qed.

Lemma In_replace i (u' : User.t) l v :
  In v (Storage.replace i u' l) ->
  v = u' \/ In v l.
Proof.
  unfold Storage.replace. intros Hin. apply in_map_iff in Hin. destruct Hin as (w & Hw & Hin).
  destruct (has_id i w); [left; congruence|right; congruence].
Qed.

Lemma others_cons i a l :
  Storage.others i (a :: l)
  = if has_id i a then Storage.others i l else a :: Storage.others i l.
Proof. unfold Storage.others. simpl. now destruct (has_id i a). Qed.

(** An UPDATE of the row with primary key [i] keeps a unique index
    intact when the new row passes the check against the other rows. *)
Lemma NoDup_column_replace i u' l :
  NoDup (Storage.column Storage.pk l) ->
  NoDup (Storage.column key l) ->
  (forall k, key u' = Some k ->
             ~ In k (Storage.column key (Storage.others i l))) ->
  NoDup (Storage.column key (Storage.replace i u' l)).
Proof.
  induction l as [|a l IH]; intros Hpk Hnd Hfresh; [constructor|].
  assert (NoDup (Storage.column Storage.pk l)) as Hpk'
    by (change (Storage.column Storage.pk (a :: l))
          with (User.id a :: Storage.column Storage.pk l) in Hpk;
        apply NoDup_cons_iff in Hpk; tauto).
  assert (NoDup (Storage.column key l)) as Hnd'.
  { rewrite column_cons in Hnd.
    destruct (key a); [apply NoDup_cons_iff in Hnd; tauto|assumption]. }
  unfold Storage.replace. rewrite map_cons.
  fold (Storage.replace i u' l). rewrite others_cons in Hfresh.
  destruct (has_id i a) eqn:E.
  - pose proof (pk_alone i a l Hpk E) as Hrest.
    rewrite (replace_none i u' l Hrest).
    rewrite column_cons. destruct (key u') as [k|] eqn:Ek; [|assumption].
    constructor; [|assumption].
    specialize (Hfresh k eq_refl).
    now rewrite (others_all i l Hrest) in Hfresh.
  - assert (forall k, key u' = Some k ->
                      ~ In k (Storage.column key (Storage.others i l))) as Hfresh'.
    { intros k Hk Hin. apply (Hfresh k Hk).
      rewrite column_cons. destruct (key a); [now right|assumption]. }
    specialize (IH Hpk' Hnd' Hfresh').
    rewrite column_cons. destruct (key a) as [k|] eqn:Ek; [|assumption].
    constructor; [|assumption].
    intros Hin. apply In_column in Hin. destruct Hin as (v & Hv & Hk).
    apply In_replace in Hv. destruct Hv as [->|Hv].
    + apply (Hfresh k Hk). rewrite column_cons, Ek. now left.
    + rewrite column_cons, Ek in Hnd. apply NoDup_cons_iff in Hnd.
      destruct Hnd as [Hn _]. apply Hn. apply In_column. now exists v.
Qed.

End Replace.

(** ** The storage operations keep the table well formed *)

Lemma violation_None u l :
  Storage.violation u l = None ->
  ~ In (User.id u) (Storage.column Storage.pk l)
  /\ (forall x, User.supabase_user_id u = Some x ->
                ~ In x (Storage.column User.supabase_user_id l))
  /\ ~ In (User.email u) (Storage.column Storage.email_key l).
Proof.
  unfold Storage.violation. intros H.
  destruct (existsb (has_id (User.id u)) l) eqn:E1; [discriminate|].
  destruct (match User.supabase_user_id u with
            | Some x => existsb (has_supabase_user_id x) l
            | None => false
            end) eqn:E2; [discriminate|].
  destruct (existsb (has_email (User.email u)) l) eqn:E3; [discriminate|].
  repeat split.
  - now apply (existsb_holds_false Z Storage.pk Z.eqb Z.eqb_eq).
  - intros x Hx. rewrite Hx in E2.
    now apply (existsb_holds_false string User.supabase_user_id
                 String.eqb String.eqb_eq).
  - now apply (existsb_holds_false string Storage.email_key
                 String.eqb String.eqb_eq).
Qed.

Lemma well_formed_next l n :
  well_formed l n -> n <= Storage.max_int32 -> well_formed l (n + 1).
Proof.
  intros [H1 H2 H3 H4 H5 H6] Hn. constructor; try assumption; [|lia].
  eapply Forall_impl; [|exact H4]. simpl. intros; lia.
Qed.

Lemma well_formed_insert l n u :
  well_formed l n -> User.id u = n -> n <= Storage.max_int32 ->
  Storage.too_long None u = None -> Storage.violation u l = None ->
  well_formed (l ++ [u]) (n + 1).
Proof.
  intros [H1 H2 H3 H4 H5 H6] Hid Hn Hw Hv.
  apply violation_None in Hv. destruct Hv as (V1 & V2 & V3).
  constructor.
  - apply NoDup_column_snoc; [assumption|].
    unfold Storage.pk. intros k Hk. now inversion Hk; subst.
  - apply NoDup_column_snoc; [assumption|].
    unfold Storage.email_key. intros k Hk. now inversion Hk; subst.
  - apply NoDup_column_snoc; assumption.
  - apply Forall_app. split.
    + eapply Forall_impl; [|exact H4]. simpl. intros; lia.
    + repeat constructor; lia.
  - apply Forall_app. split; [assumption|]. now repeat constructor.
  - lia.
Qed.

Lemma well_formed_others l n i :
  well_formed l n -> well_formed (Storage.others i l) n.
Proof.
  intros [H1 H2 H3 H4 H5 H6]. unfold Storage.others.
  constructor; try (now apply NoDup_column_filter); [| |assumption].
  - rewrite Forall_forall in *. intros u Hu. apply filter_In in Hu.
    now apply H4.
  - rewrite Forall_forall in *. intros u Hu. apply filter_In in Hu.
    now apply H5.
Qed.

Lemma exceeds_None width old v :
  Storage.exceeds width old v = false ->
  match old with
  | Some w => Storage.exceeds width None w = false
  | None => True
  end ->
  Storage.exceeds width None v = false.
Proof.
  unfold Storage.exceeds. destruct old as [w|]; [|easy].
  simpl. destruct (String.eqb w v) eqn:E; simpl; [|easy].
  apply String.eqb_eq in E. now subst.
Qed.

(** A row that passes the width check of an UPDATE fits its columns
    when the loaded row did. *)
Lemma too_long_update u u' :
  Storage.too_long (Some u) u' = None -> Storage.too_long None u = None ->
  Storage.too_long None u' = None.
Proof.
  unfold Storage.too_long. simpl. intros H' H.
  destruct (match User.supabase_user_id u with
            | Some x => Storage.exceeds 255 None x
            | None => false
            end) eqn:Ex; [discriminate|].
  destruct (Storage.exceeds 100 None (User.name u)) eqn:En; [discriminate|].
  destruct (match User.supabase_user_id u' with
            | Some x => Storage.exceeds 255 (User.supabase_user_id u) x
            | None => false
            end) eqn:Ex'; [discriminate|].
  destruct (Storage.exceeds 100 (Some (User.name u)) (User.name u')) eqn:En';
    [discriminate|].
  rewrite (exceeds_None 100 (Some (User.name u)) (User.name u') En' En).
  destruct (User.supabase_user_id u') as [x|]; [|reflexivity].
  rewrite (exceeds_None 255 (User.supabase_user_id u) x Ex').
  - reflexivity.
  - destruct (User.supabase_user_id u); [assumption|exact I].
Qed.

Lemma well_formed_update l n i u u' :
  well_formed l n -> find (has_id i) l = Some u ->
  User.id u' = User.id u ->
  Storage.too_long (Some u) u' = None ->
  Storage.violation u' (Storage.others i l) = None ->
  well_formed (Storage.replace i u' l) n.
Proof.
  intros [H1 H2 H3 H4 H5 H6] Hf Hid Hw Hv.
  apply find_some in Hf. destruct Hf as [Hin Hi].
  apply violation_None in Hv. destruct Hv as (V1 & V2 & V3).
  constructor; try (apply NoDup_column_replace; try assumption).
  - unfold Storage.pk. intros k Hk. now inversion Hk; subst.
  - unfold Storage.email_key. intros k Hk. now inversion Hk; subst.
  - rewrite Forall_forall in *. intros v Hv.
    apply In_replace in Hv. destruct Hv as [->|Hv]; [|now apply H4].
    rewrite Hid. now apply H4.
  - rewrite Forall_forall in *. intros v Hv.
    apply In_replace in Hv. destruct Hv as [->|Hv]; [|now apply H5].
    apply (too_long_update u); [assumption|now apply H5].
  - assumption.
Qed.


Lemma preserves_ret A (a : A) : preserves (ret a).
Proof. intros s H. exact H. Qed.

Lemma preserves_raise A e : preserves (@raise A e).
Proof. intros s H. exact H. Qed.

Lemma preserves_lift A (r : Result A) : preserves (lift r).
Proof. intros s H. exact H. Qed.

Lemma preserves_bind A B (m : M A) (k : A -> M B) :
  preserves m -> (forall a, preserves (k a)) -> preserves (bind m k).
Proof.
  intros Hm Hk s H. unfold bind. specialize (Hm s H).
  destruct (m s) as [[a|e] s']; simpl in *; [now apply Hk|assumption].
Qed.

(** The continuation only runs on what the first computation can
    return. *)
Lemma preserves_bind_result A B (m : M A) (k : A -> M B) :
  preserves m ->
  (forall s a, invariant s -> fst (m s) = Ok a -> preserves (k a)) ->
  preserves (bind m k).
Proof.
  intros Hm Hk s H. unfold bind. specialize (Hm s H). specialize (Hk s).
  destruct (m s) as [[a|e] s']; simpl in *; [|assumption].
  now apply (Hk a H eq_refl).
Qed.

Lemma preserves_try_except A (m : M A) h :
  preserves m -> (forall e, preserves (h e)) -> preserves (try_except m h).
Proof.
  intros Hm Hh s H. unfold try_except. specialize (Hm s H).
  destruct (m s) as [[a|e] s']; simpl in *; [assumption|now apply Hh].
Qed.

Lemma preserves_select_where p : preserves (Storage.select_where p).
Proof. intros s H. exact H. Qed.

Lemma preserves_scalar_one_or_none l : preserves (Storage.scalar_one_or_none l).
Proof. intros s H. destruct l as [|a [|b l]]; exact H. Qed.

Lemma preserves_integer_parameter z : preserves (Storage.integer_parameter z).
Proof.
  intros s H. unfold Storage.integer_parameter.
  destruct (Storage.in_int32 z); exact H.
Qed.

Lemma preserves_insert mk :
  (forall i, User.id (mk i) = i) -> preserves (Storage.insert mk).
Proof.
  intros Hid s [Hp Hw]. unfold Storage.insert.
  destruct (Storage.too_long None (mk (sequence s))) eqn:Ew; [now split|].
  destruct (Storage.max_int32 <? sequence s) eqn:En; [now split|].
  apply Z.ltb_ge in En.
  destruct (Storage.violation (mk (sequence s)) (pending s)) eqn:E; simpl;
    split; simpl; try (now apply well_formed_next).
  now apply well_formed_insert.
Qed.

Lemma preserves_update i f :
  (forall u, User.id (f u) = User.id u) -> preserves (Storage.update i f).
Proof.
  intros Hid s [Hp Hw]. unfold Storage.update.
  destruct (find (has_id i) (pending s)) as [u|] eqn:Ef; [|now split].
  destruct (Storage.too_long (Some u) (f u)) eqn:Ew; [now split|].
  destruct (Storage.violation (f u) (Storage.others i (pending s))) eqn:E;
    [now split|].
  split; simpl; [assumption|].
  now apply (well_formed_update _ _ i u).
Qed.

Lemma preserves_delete i : preserves (Storage.delete i).
Proof.
  intros s [Hp Hw]. split; simpl; [assumption|now apply well_formed_others].
Qed.

Lemma preserves_commit : preserves Storage.commit.
Proof. intros s [Hp Hw]. now split. Qed.

Lemma setattrs_id user_update f :
  UserUpdate.setattrs user_update = Ok f ->
  forall u, User.id (f u) = User.id u.
Proof.
  unfold UserUpdate.setattrs, UserUpdate.assign.
  destruct user_update as [[|[n|]] [|[e|]] [|[a|]]]; simpl;
    intros H; inversion H; reflexivity.
Qed.

Create HintDb preserve.
#[local] Hint Resolve preserves_ret preserves_raise preserves_lift
  preserves_integer_parameter preserves_select_where
  preserves_scalar_one_or_none preserves_delete
  preserves_commit : preserve.

(** Walks through a service body statement by statement. *)
Ltac preserving :=
  repeat first
    [ solve [auto with preserve]
    | apply preserves_insert; reflexivity
    | apply preserves_update; reflexivity
    | apply preserves_bind; [|intros]
    | apply preserves_try_except; [|intros]
    | match goal with
      | |- preserves (match ?x with _ => _ end) => destruct x
      end
    | progress cbv zeta ].

(** ** Every service method and handler keeps the table well formed *)

Lemma preserves_get_user_by_id i : preserves (UserService.get_user_by_id i).
Proof. unfold UserService.get_user_by_id. preserving. Qed.

Lemma preserves_get_user_by_email e : preserves (UserService.get_user_by_email e).
Proof. unfold UserService.get_user_by_email. preserving. Qed.

Lemma preserves_get_user_by_supabase_id x :
  preserves (UserService.get_user_by_supabase_id x).
Proof. unfold UserService.get_user_by_supabase_id. preserving. Qed.

#[local] Hint Resolve preserves_get_user_by_id preserves_get_user_by_email
  preserves_get_user_by_supabase_id : preserve.

Lemma preserves_create_user uc x : preserves (UserService.create_user uc x).
Proof. unfold UserService.create_user. preserving. Qed.

Lemma preserves_setattrs_update i user_update A (k : User.t -> M A) :
  (forall u, preserves (k u)) ->
  preserves (f <- lift (UserUpdate.setattrs user_update) ;;
             db_user <- Storage.update i f ;; k db_user).
Proof.
  intros Hk. apply preserves_bind_result; [auto with preserve|].
  intros s f _ Hf. unfold lift in Hf. cbn [fst] in Hf.
  apply preserves_bind; [|assumption].
  apply preserves_update. now apply (setattrs_id user_update).
Qed.

Lemma preserves_update_user i uu : preserves (UserService.update_user i uu).
Proof.
  unfold UserService.update_user.
  apply preserves_bind; [auto with preserve|]. intros [u|]; [|preserving].
  apply preserves_setattrs_update. intros. preserving.
Qed.

Lemma preserves_delete_user i : preserves (UserService.delete_user i).
Proof. unfold UserService.delete_user. preserving. Qed.

Lemma preserves_get_users skip limit :
  preserves (UserService.get_users skip limit).
Proof. unfold UserService.get_users. preserving. Qed.

Lemma preserves_link_supabase_user e x :
  preserves (UserService.link_supabase_user e x).
Proof. unfold UserService.link_supabase_user. preserving. Qed.

#[local] Hint Resolve preserves_create_user preserves_update_user
  preserves_delete_user preserves_get_users preserves_link_supabase_user
  : preserve.

Lemma preserves_sign_up lib self e p n md :
  preserves (AuthService.sign_up lib self e p n md).
Proof. unfold AuthService.sign_up, AuthService.no_session. preserving. Qed.

Lemma preserves_as_it_is lib v : preserves (AuthService.as_it_is lib v).
Proof. unfold AuthService.as_it_is. preserving. Qed.

Lemma preserves_py_int lib v : preserves (AuthService.py_int lib v).
Proof. unfold AuthService.py_int. preserving. Qed.

Lemma preserves_display_name su : preserves (AuthService.display_name su).
Proof. unfold AuthService.display_name. preserving. Qed.

#[local] Hint Resolve preserves_as_it_is preserves_py_int
  preserves_display_name : preserve.

Lemma preserves_by_metadata_hint key su lu :
  (forall v, preserves (key v)) ->
  preserves (AuthService.by_metadata_hint key su lu).
Proof. intros Hkey. unfold AuthService.by_metadata_hint. preserving. Qed.

#[local] Hint Resolve preserves_by_metadata_hint : preserve.

Lemma preserves_resolve_local_user lib e su :
  preserves (AuthService.resolve_local_user lib e su).
Proof. unfold AuthService.resolve_local_user. preserving. Qed.

#[local] Hint Resolve preserves_resolve_local_user : preserve.

Lemma preserves_sign_in lib self e p :
  preserves (AuthService.sign_in lib self e p).
Proof. unfold AuthService.sign_in, AuthService.no_session. preserving. Qed.

Lemma preserves_sign_out self tok : preserves (AuthService.sign_out self tok).
Proof. unfold AuthService.sign_out. preserving. Qed.

Lemma preserves_refresh_token self tok :
  preserves (AuthService.refresh_token self tok).
Proof. unfold AuthService.refresh_token. preserving. Qed.

Lemma preserves_get_current_user lib self tok :
  preserves (AuthService.get_current_user lib self tok).
Proof.
  unfold AuthService.get_current_user, AuthService.no_session. preserving.
Qed.

Lemma preserves_reset_password self e :
  preserves (AuthService.reset_password self e).
Proof. unfold AuthService.reset_password. preserving. Qed.

#[local] Hint Resolve preserves_sign_up preserves_sign_in preserves_sign_out
  preserves_refresh_token preserves_get_current_user preserves_reset_password
  : preserve.

Lemma preserves_handlers lib client c :
  match c with
  | post_signup d => preserves (AuthEndpoints.sign_up lib client d)
  | post_signin e p => preserves (AuthEndpoints.sign_in lib client e p)
  | post_signout tok => preserves (AuthEndpoints.sign_out client tok)
  | post_refresh tok => preserves (AuthEndpoints.refresh_token lib client tok)
  | post_reset_password e => preserves (AuthEndpoints.reset_password client e)
  | get_me tok =>
      preserves (AuthEndpoints.get_current_user_info lib client tok)
  | users_get_users => preserves UsersEndpoints.get_users
  | users_get_user i => preserves (UsersEndpoints.get_user i)
  | users_create_user u => preserves (UsersEndpoints.create_user u)
  | users_update_user i uu => preserves (UsersEndpoints.update_user i uu)
  | users_delete_user i => preserves (UsersEndpoints.delete_user i)
  | _ => True
  end.
Proof.
  destruct c; try exact I.
  - unfold AuthEndpoints.sign_up. preserving.
  - unfold AuthEndpoints.sign_in. preserving.
  - unfold AuthEndpoints.sign_out. preserving.
  - unfold AuthEndpoints.refresh_token. preserving.
  - unfold AuthEndpoints.reset_password. preserving.
  - unfold AuthEndpoints.get_current_user_info. preserving.
  - unfold UsersEndpoints.get_users. preserving.
  - unfold UsersEndpoints.get_user, UsersEndpoints.not_found. preserving.
  - unfold UsersEndpoints.create_user. preserving.
  - unfold UsersEndpoints.update_user, UsersEndpoints.not_found.
    apply preserves_bind; [auto with preserve|]. intros [u|]; [|preserving].
    apply preserves_setattrs_update. intros. preserving.
  - unfold UsersEndpoints.delete_user, UsersEndpoints.not_found. preserving.
Qed.

Lemma effect_consistent A (m : M A) db :
  preserves m -> consistent db -> consistent (effect m db).
Proof.
  intros Hm Hdb. unfold effect, Storage.run.
  assert (invariant (Storage.open db)) as Hs by (split; exact Hdb).
  specialize (Hm _ Hs).
  destruct (m (Storage.open db)) as [r s]. simpl in *.
  exact (proj1 Hm).
Qed.

Lemma perform_consistent lib client c db :
  consistent db -> consistent (perform lib client c db).
Proof.
  intros H. pose proof (preserves_handlers lib client c) as Hh.
  destruct c; simpl; apply effect_consistent;
    solve [assumption | auto with preserve].
Qed.

Lemma initial_consistent : consistent initial.
Proof.
  constructor; simpl; try constructor; unfold Storage.max_int32; lia.
Qed.

Lemma reachable_consistent db : reachable db -> consistent db.
Proof.
  induction 1 as [|lib client c db _ IH].
  - exact initial_consistent.
  - now apply perform_consistent.
Qed.

Lemma consistent_unique_emails db : consistent db -> unique_emails db.
Proof.
  intros [_ H _ _ _ _] e.
  exact (NoDup_at_most_one string Storage.email_key String.eqb String.eqb_eq
           (rows db) H e).
Qed.

Lemma consistent_unique_supabase_user_ids db :
  consistent db -> unique_supabase_user_ids db.
Proof.
  intros [_ _ H _ _ _] x.
  exact (NoDup_at_most_one string User.supabase_user_id String.eqb
           String.eqb_eq (rows db) H x).
Qed.

(** ** Running a computation *)

Lemma bind_ok A B (m : M A) (k : A -> M B) s a s' :
  m s = (Ok a, s') -> bind m k s = k a s'.
Proof. intros H. unfold bind. now rewrite H. Qed.

Lemma bind_raise A B (m : M A) (k : A -> M B) s e s' :
  m s = (Raise e, s') -> bind m k s = (Raise e, s').
Proof. intros H. unfold bind. now rewrite H. Qed.

Lemma try_except_ok A (m : M A) h s a s' :
  m s = (Ok a, s') -> try_except m h s = (Ok a, s').
Proof. intros H. unfold try_except. now rewrite H. Qed.

Lemma try_except_raise A (m : M A) h s e s' :
  m s = (Raise e, s') -> try_except m h s = h e s'.
Proof. intros H. unfold try_except. now rewrite H. Qed.

Lemma find_filter (p : User.t -> bool) l :
  find p l = hd_error (filter p l).
Proof.
  induction l as [|a l IH]; [reflexivity|].
  simpl. destruct (p a); [reflexivity|exact IH].
Qed.

Lemma filter_nil_iff (p : User.t -> bool) l :
  filter p l = [] <-> forall u, In u l -> p u = false.
Proof.
  split.
  - intros H u Hu. destruct (p u) eqn:E; [|reflexivity].
    assert (In u (filter p l)) as Hf by (apply filter_In; now split).
    rewrite H in Hf. contradiction.
  - intros H. induction l as [|a l IH]; [reflexivity|].
    simpl. rewrite (H a (or_introl eq_refl)). apply IH.
    intros u Hu. apply H. now right.
Qed.

(** A query whose WHERE clause no row satisfies. *)
Lemma query_none p s :
  (forall u, In u (pending s) -> p u = false) ->
  (result <- Storage.select_where p ;; Storage.scalar_one_or_none result) s
  = (Ok None, s).
Proof.
  intros H. unfold bind, Storage.select_where.
  now rewrite (proj2 (filter_nil_iff p (pending s)) H).
Qed.

(** A query whose WHERE clause exactly one row satisfies. *)
Lemma query_one p s u :
  filter p (pending s) = [u] ->
  (result <- Storage.select_where p ;; Storage.scalar_one_or_none result) s
  = (Ok (Some u), s).
Proof. intros H. unfold bind, Storage.select_where. now rewrite H. Qed.

Lemma by_id_one l n u :
  well_formed l n -> In u l -> filter (has_id (User.id u)) l = [u].
Proof.
  intros [H _ _ _ _ _] Hu.
  exact (filter_holds_single Z Storage.pk Z.eqb Z.eqb_eq (User.id u) u l H Hu
           eq_refl).
Qed.

Lemma by_email_one l n u :
  well_formed l n -> In u l -> filter (has_email (User.email u)) l = [u].
Proof.
  intros [_ H _ _ _ _] Hu.
  exact (filter_holds_single string Storage.email_key String.eqb String.eqb_eq
           (User.email u) u l H Hu eq_refl).
Qed.

Lemma by_supabase_user_id_one l n u x :
  well_formed l n -> In u l -> User.supabase_user_id u = Some x ->
  filter (has_supabase_user_id x) l = [u].
Proof.
  intros [_ _ H _ _ _] Hu Hx.
  exact (filter_holds_single string User.supabase_user_id String.eqb
           String.eqb_eq x u l H Hu Hx).
Qed.


Lemma existsb_false_iff (p : User.t -> bool) l :
  existsb p l = false <-> forall u, In u l -> p u = false.
Proof.
  split.
  - intros H u Hu. destruct (p u) eqn:E; [|reflexivity].
    assert (existsb p l = true) as H'
      by (apply existsb_exists; now exists u).
    congruence.
  - intros H. destruct (existsb p l) eqn:E; [|reflexivity].
    apply existsb_exists in E. destruct E as (u & Hu & Hp).
    rewrite (H u Hu) in Hp. discriminate.
Qed.

Lemma In_others i l v :
  In v (Storage.others i l) <-> In v l /\ has_id i v = false.
Proof.
  unfold Storage.others. rewrite filter_In.
  destruct (has_id i v); simpl; intuition congruence.
Qed.

(** Attaching an external id that no row carries to a row of a
    well-formed table passes every index check. *)
Lemma attach_passes l n u x :
  well_formed l n -> In u l ->
  (forall v, In v l -> has_supabase_user_id x v = false) ->
  Storage.violation (User.with_supabase_user_id (Some x) u)
    (Storage.others (User.id u) l) = None.
Proof.
  intros Hwf Hu Hx. unfold Storage.violation. simpl.
  assert (existsb (has_id (User.id u)) (Storage.others (User.id u) l) = false)
    as ->.
  { apply existsb_false_iff. intros v Hv. now apply In_others in Hv. }
  assert (existsb (has_supabase_user_id x) (Storage.others (User.id u) l)
          = false) as ->.
  { apply existsb_false_iff. intros v Hv. apply In_others in Hv.
    apply Hx. tauto. }
  assert (existsb (has_email (User.email u)) (Storage.others (User.id u) l)
          = false) as ->; [|reflexivity].
  apply existsb_false_iff. intros v Hv. apply In_others in Hv.
  destruct Hv as [Hv Hid].
  destruct (has_email (User.email u) v) eqn:E; [|reflexivity].
  assert (In v (filter (has_email (User.email u)) l)) as Hf
    by (apply filter_In; now split).
  rewrite (by_email_one l n u Hwf Hu) in Hf. destruct Hf as [->|[]].
  unfold has_id in Hid. rewrite Z.eqb_refl in Hid. discriminate.
Qed.

(** An external id that fits the column passes the width check of the
    UPDATE that attaches it: no other column is sent. *)
Lemma attach_fits u x :
  Storage.fits 255 x = true ->
  Storage.too_long (Some u) (User.with_supabase_user_id (Some x) u) = None.
Proof.
  intros Hx. unfold Storage.too_long, Storage.exceeds. simpl.
  rewrite Hx, String.eqb_refl, andb_false_r. reflexivity.
Qed.

(** The UPDATE that attaches the external id, then the commit. *)
Lemma attach_commit l0 l n u x :
  well_formed l n -> In u l ->
  (forall v, In v l -> has_supabase_user_id x v = false) ->
  Storage.fits 255 x = true ->
  let u' := User.with_supabase_user_id (Some x) u in
  (u' <- Storage.update (User.id u) (User.with_supabase_user_id (Some x)) ;;
   Storage.commit ;; ret (Some u')) (mkSession l0 l n)
  = (Ok (Some u'),
     mkSession (Storage.replace (User.id u) u' l)
       (Storage.replace (User.id u) u' l) n).
Proof.
  intros Hwf Hu Hx Hfit u'. unfold bind, Storage.update. simpl.
  rewrite find_filter, (by_id_one l n u Hwf Hu). simpl.
  rewrite (attach_fits u x Hfit).
  now rewrite (attach_passes l n u x Hwf Hu Hx).
Qed.

(** ** Reading the WHERE clauses *)

Lemma has_email_false e u : has_email e u = false <-> User.email u <> e.
Proof. unfold has_email. apply String.eqb_neq. Qed.

Lemma has_supabase_user_id_false x u :
  has_supabase_user_id x u = false <-> User.supabase_user_id u <> Some x.
Proof.
  unfold has_supabase_user_id. destruct (User.supabase_user_id u) as [y|].
  - rewrite String.eqb_neq. split; congruence.
  - split; [discriminate|reflexivity].
Qed.

Lemma has_id_false i u : has_id i u = false <-> User.id u <> i.
Proof. unfold has_id. apply Z.eqb_neq. Qed.

Lemma run_open_close db : Storage.close (Storage.open db) = db.
Proof. now destruct db. Qed.

(** ** Keys of the [id] column *)

Lemma in_int32_iff z :
  Storage.in_int32 z = true <-> Storage.min_int32 <= z <= Storage.max_int32.
Proof. unfold Storage.in_int32. rewrite andb_true_iff. lia. Qed.

(** The ids the sequence has issued are 32-bit integers. *)
Lemma in_int32_issued l n u :
  well_formed l n -> In u l -> Storage.in_int32 (User.id u) = true.
Proof.
  intros [_ _ _ Hpos _ Hn] Hu. rewrite Forall_forall in Hpos.
  specialize (Hpos u Hu). apply in_int32_iff.
  unfold Storage.min_int32, Storage.max_int32 in *. lia.
Qed.

Lemma integer_parameter_ok z s :
  Storage.in_int32 z = true -> Storage.integer_parameter z s = (Ok z, s).
Proof. intros H. unfold Storage.integer_parameter. now rewrite H. Qed.

Lemma integer_parameter_refused z s :
  Storage.in_int32 z = false ->
  Storage.integer_parameter z s = (Raise (DBAPIError out_of_int32), s).
Proof. intros H. unfold Storage.integer_parameter. now rewrite H. Qed.

(** One statement of a body: the next computation returns, and the rest
    goes on from there. *)
Ltac step tac := erewrite bind_ok by tac; cbv beta iota.

(** ** The listing of the user service *)

Lemma filter_never (l : list User.t) : filter (fun _ => false) l = [].
Proof. induction l; [reflexivity|assumption]. Qed.

(** C9: for every database state and every skip/limit pair of integers
    from 0 to 2147483647, the values LIMIT and OFFSET take,
    [UserService.get_users] returns the empty list, because its filter is
    the Python value of [User.is_active is True], an identity test between
    a column object and a Boolean, which is false; the table is left as it
    was. *)
Theorem get_users_empty db skip limit :
  0 <= skip <= Storage.max_int32 -> 0 <= limit <= Storage.max_int32 ->
  Storage.run (UserService.get_users skip limit) db = (Ok [], db).
Proof.
  intros Hs Hl. unfold Storage.run, UserService.get_users.
  step ltac:(apply integer_parameter_ok, in_int32_iff;
             unfold Storage.min_int32; lia).
  step ltac:(apply integer_parameter_ok, in_int32_iff;
             unfold Storage.min_int32; lia).
  assert ((skip <? 0) = false) as -> by (apply Z.ltb_ge; lia).
  assert ((limit <? 0) = false) as -> by (apply Z.ltb_ge; lia).
  unfold bind, Storage.select_where, ret. simpl.
  rewrite filter_never, skipn_nil, firstn_nil.
  now rewrite run_open_close.
Qed.

Lemma get_users_empty_witness :
  Storage.run (UserService.get_users 0 100) Sample.table
  = (Ok [], Sample.table).
Proof.
  apply (get_users_empty Sample.table 0 100);
    unfold Storage.max_int32; lia.
Defined.

(** [UserService.get_users] with a negative [skip]: the server refuses
    the OFFSET and the call raises; it does not return the empty list on
    every skip/limit pair. *)
Lemma get_users_negative_skip :
  Storage.run (UserService.get_users (-1) 100) Sample.table
  = (Raise (DBAPIError (negative_row_count "OFFSET")), Sample.table)
  /\ Storage.run (UserService.get_users (-1) 100) Sample.table
     <> (Ok [], Sample.table).
Proof. split; [reflexivity|discriminate]. Qed.

(** ** Uniqueness of e-mail addresses and of external ids *)

(** C2: at every reachable state, at most one LocalUser has a given
    e-mail address and at most one LocalUser has a given external id, and
    every operation of the user service, of the auth service and of the
    handlers, started from such a state, ends in a state where both still
    hold. *)
Theorem uniqueness_invariants db :
  reachable db ->
  unique_emails db /\ unique_supabase_user_ids db
  /\ forall lib client c,
       unique_emails (perform lib client c db)
       /\ unique_supabase_user_ids (perform lib client c db).
Proof.
  intros Hr. apply reachable_consistent in Hr.
  split; [now apply consistent_unique_emails|].
  split; [now apply consistent_unique_supabase_user_ids|].
  intros lib client c.
  pose proof (perform_consistent lib client c db Hr) as Hc.
  split; [now apply consistent_unique_emails
         |now apply consistent_unique_supabase_user_ids].
Qed.

Lemma uniqueness_invariants_witness :
  reachable after_first_sign_in
  /\ (unique_emails after_first_sign_in
      /\ unique_supabase_user_ids after_first_sign_in
      /\ forall lib client c,
           unique_emails (perform lib client c after_first_sign_in)
           /\ unique_supabase_user_ids
                (perform lib client c after_first_sign_in)).
Proof.
  assert (reachable after_first_sign_in) as Hr
    by (apply reachable_step; apply reachable_initial).
  split; [exact Hr|exact (uniqueness_invariants after_first_sign_in Hr)].
Defined.

(** ** Sign-in, branch by branch *)

Lemma sign_in_authenticated lib client email password su sess s :
  authenticates client email password su sess ->
  AuthService.sign_in lib (AuthService.mk client true) email password s
  = match AuthService.resolve_local_user lib email su s with
    | (Ok local_user, s') =>
        (Ok (AuthService.mkSignInResult local_user sess
               (Supabase.access_token sess) (Supabase.refresh_token sess)
               "bearer"), s')
    | (Raise (HTTPException code detail), s') =>
        (Raise (HTTPException code detail), s')
    | (Raise e, s') =>
        (Raise (HTTPException HTTP_401_UNAUTHORIZED
                  (Formatted "Login failed: " e)), s')
    end.
Proof.
  unfold authenticates. intros H.
  unfold AuthService.sign_in, try_except, bind, lift. simpl. rewrite H. simpl.
  destruct (AuthService.resolve_local_user lib email su s) as [[lu|[]] s'];
    reflexivity.
Qed.

Lemma get_user_by_supabase_id_none x l0 l n :
  no_match_by_external_id x l ->
  UserService.get_user_by_supabase_id x (mkSession l0 l n)
  = (Ok None, mkSession l0 l n).
Proof.
  intros H. apply query_none. simpl. intros u Hu.
  apply has_supabase_user_id_false. now apply H.
Qed.

Lemma get_user_by_email_none e l0 l n :
  no_match_by_email e l ->
  UserService.get_user_by_email e (mkSession l0 l n)
  = (Ok None, mkSession l0 l n).
Proof.
  intros H. apply query_none. simpl. intros u Hu.
  apply has_email_false. now apply H.
Qed.

Lemma get_user_by_id_none i l0 l n :
  Storage.in_int32 i = true ->
  (forall u, In u l -> User.id u <> i) ->
  UserService.get_user_by_id i (mkSession l0 l n)
  = (Ok None, mkSession l0 l n).
Proof.
  intros Hi H. unfold UserService.get_user_by_id.
  step ltac:(now apply integer_parameter_ok).
  apply query_none. simpl. intros u Hu.
  apply has_id_false. now apply H.
Qed.

Lemma get_user_by_id_some u l0 l n :
  well_formed l n -> In u l ->
  UserService.get_user_by_id (User.id u) (mkSession l0 l n)
  = (Ok (Some u), mkSession l0 l n).
Proof.
  intros Hwf Hu. unfold UserService.get_user_by_id.
  step ltac:(apply integer_parameter_ok; now apply (in_int32_issued l n)).
  apply query_one. simpl. now apply (by_id_one l n).
Qed.

(** A key outside the range of the column: the driver raises. *)
Lemma get_user_by_id_refused i s :
  Storage.in_int32 i = false ->
  UserService.get_user_by_id i s = (Raise (DBAPIError out_of_int32), s).
Proof.
  intros Hi. unfold UserService.get_user_by_id.
  now erewrite bind_raise by now apply integer_parameter_refused.
Qed.

Lemma get_user_by_email_some u l0 l n :
  well_formed l n -> In u l ->
  UserService.get_user_by_email (User.email u) (mkSession l0 l n)
  = (Ok (Some u), mkSession l0 l n).
Proof. intros Hwf Hu. apply query_one. simpl. now apply (by_email_one l n). Qed.

Lemma get_user_by_supabase_id_some u x l0 l n :
  well_formed l n -> In u l -> User.supabase_user_id u = Some x ->
  UserService.get_user_by_supabase_id x (mkSession l0 l n)
  = (Ok (Some u), mkSession l0 l n).
Proof.
  intros Hwf Hu Hx. apply query_one. simpl.
  now apply (by_supabase_user_id_one l n).
Qed.

Lemma as_it_is_int lib : int_as_it_is (AuthService.as_it_is lib).
Proof. intros z s. reflexivity. Qed.

Lemma py_int_int lib : int_as_it_is (AuthService.py_int lib).
Proof. intros z s. reflexivity. Qed.

(** A hint that passes the truth test and is usable is an integer of
    the range of the column. *)
Lemma usable_hint_truthy hint :
  usable_hint hint = true -> Json.truthy hint = true ->
  exists z, hint = Json.int z /\ Storage.in_int32 z = true.
Proof.
  destruct hint as [|b|z|t zero|s|e|e]; simpl; intros H T;
    try discriminate; try (rewrite T in H; discriminate).
  now exists z.
Qed.

Lemma by_metadata_hint_miss key su l0 l n :
  int_as_it_is key -> hint_in_range su -> no_match_by_hint su l ->
  AuthService.by_metadata_hint key su None (mkSession l0 l n)
  = (Ok None, mkSession l0 l n).
Proof.
  intros Hkey Hr H. unfold AuthService.by_metadata_hint.
  destruct (Supabase.user_metadata su) as [m|] eqn:Em; [|reflexivity].
  destruct (Metadata.truthy m); [|reflexivity].
  destruct (Metadata.local_user_id m) as [v|] eqn:Ev; [|reflexivity].
  destruct (Json.truthy v) eqn:Et; [|reflexivity].
  destruct (usable_hint_truthy v (Hr m v Em Ev) Et) as (z & -> & Hz).
  step ltac:(apply Hkey).
  step ltac:(apply get_user_by_id_none; [exact Hz|now apply (H m z)]).
  reflexivity.
Qed.

Lemma truthy_hint m v :
  Metadata.local_user_id m = Some v -> Metadata.truthy m = true.
Proof. unfold Metadata.truthy. now intros ->. Qed.

Lemma truthy_issued l n u :
  well_formed l n -> In u l -> Json.truthy (Json.int (User.id u)) = true.
Proof.
  intros [_ _ _ Hpos _ _] Hu. rewrite Forall_forall in Hpos.
  specialize (Hpos u Hu). simpl. apply negb_true_iff, Z.eqb_neq. lia.
Qed.

Lemma by_metadata_hint_hit key su m u l0 l n :
  int_as_it_is key ->
  well_formed l n ->
  no_match_by_external_id (Supabase.id su) l ->
  Storage.fits 255 (Supabase.id su) = true ->
  Supabase.user_metadata su = Some m ->
  Metadata.local_user_id m = Some (Json.int (User.id u)) ->
  In u l ->
  let u' := User.with_supabase_user_id (Some (Supabase.id su)) u in
  AuthService.by_metadata_hint key su None (mkSession l0 l n)
  = (Ok (Some u'),
     mkSession (Storage.replace (User.id u) u' l)
       (Storage.replace (User.id u) u' l) n).
Proof.
  intros Hkey Hwf Hx Hfit Hm Hi Hu u'. unfold AuthService.by_metadata_hint.
  rewrite Hm, (truthy_hint m _ Hi), Hi, (truthy_issued l n u Hwf Hu).
  step ltac:(apply Hkey).
  step ltac:(now apply get_user_by_id_some).
  apply attach_commit; try assumption.
  intros v Hv. apply has_supabase_user_id_false. now apply Hx.
Qed.

(** A hint beyond the range of the column: the lookup raises. *)
Lemma by_metadata_hint_refused key su m z s :
  int_as_it_is key ->
  Supabase.user_metadata su = Some m ->
  Metadata.local_user_id m = Some (Json.int z) ->
  Storage.in_int32 z = false ->
  AuthService.by_metadata_hint key su None s
  = (Raise (DBAPIError out_of_int32), s).
Proof.
  intros Hkey Hm Hi Hz. unfold AuthService.by_metadata_hint.
  rewrite Hm, (truthy_hint m _ Hi), Hi.
  assert (Json.truthy (Json.int z) = true) as ->.
  { simpl. apply negb_true_iff, Z.eqb_neq. intros ->. discriminate. }
  step ltac:(apply Hkey).
  now erewrite bind_raise by now apply get_user_by_id_refused.
Qed.

Lemma resolve_fast_path lib e su u l0 l n :
  well_formed l n -> In u l ->
  User.supabase_user_id u = Some (Supabase.id su) ->
  AuthService.resolve_local_user lib e su (mkSession l0 l n)
  = (Ok (Some u), mkSession l0 l n).
Proof.
  intros Hwf Hu Hx. unfold AuthService.resolve_local_user.
  step ltac:(now apply (get_user_by_supabase_id_some u)).
  reflexivity.
Qed.

Lemma resolve_by_hint lib e su m u l0 l n :
  well_formed l n ->
  no_match_by_external_id (Supabase.id su) l ->
  Storage.fits 255 (Supabase.id su) = true ->
  Supabase.user_metadata su = Some m ->
  Metadata.local_user_id m = Some (Json.int (User.id u)) ->
  In u l ->
  let u' := User.with_supabase_user_id (Some (Supabase.id su)) u in
  AuthService.resolve_local_user lib e su (mkSession l0 l n)
  = (Ok (Some u'),
     mkSession (Storage.replace (User.id u) u' l)
       (Storage.replace (User.id u) u' l) n).
Proof.
  intros Hwf Hx Hfit Hm Hi Hu u'. unfold AuthService.resolve_local_user.
  step ltac:(now apply get_user_by_supabase_id_none).
  step ltac:(now apply (by_metadata_hint_hit _ su m u _ _ _
                          (as_it_is_int lib))).
  reflexivity.
Qed.

Lemma resolve_by_email lib su u l0 l n :
  well_formed l n ->
  no_match_by_external_id (Supabase.id su) l ->
  Storage.fits 255 (Supabase.id su) = true ->
  hint_in_range su ->
  no_match_by_hint su l ->
  In u l ->
  let u' := User.with_supabase_user_id (Some (Supabase.id su)) u in
  AuthService.resolve_local_user lib (User.email u) su (mkSession l0 l n)
  = (Ok (Some u'),
     mkSession (Storage.replace (User.id u) u' l)
       (Storage.replace (User.id u) u' l) n).
Proof.
  intros Hwf Hx Hfit Hr Hh Hu u'. unfold AuthService.resolve_local_user.
  step ltac:(now apply get_user_by_supabase_id_none).
  step ltac:(now apply by_metadata_hint_miss; [apply as_it_is_int| |]).
  step ltac:(now apply get_user_by_email_some).
  unfold UserService.link_supabase_user.
  step ltac:(now apply get_user_by_email_some).
  apply attach_commit; try assumption.
  intros v Hv. apply has_supabase_user_id_false. now apply Hx.
Qed.

Lemma insert_passes l n u :
  well_formed l n -> User.id u = n ->
  (forall x, User.supabase_user_id u = Some x -> no_match_by_external_id x l) ->
  no_match_by_email (User.email u) l ->
  Storage.violation u l = None.
Proof.
  intros Hwf Hid Hx He. unfold Storage.violation.
  assert (existsb (has_id (User.id u)) l = false) as ->.
  { apply existsb_false_iff. intros v Hv. apply has_id_false.
    destruct Hwf as [_ _ _ Hpos _ _]. rewrite Forall_forall in Hpos.
    specialize (Hpos v Hv). lia. }
  assert (match User.supabase_user_id u with
          | Some x => existsb (has_supabase_user_id x) l
          | None => false
          end = false) as ->.
  { destruct (User.supabase_user_id u) as [x|]; [|reflexivity].
    apply existsb_false_iff. intros v Hv. apply has_supabase_user_id_false.
    now apply (Hx x). }
  assert (existsb (has_email (User.email u)) l = false) as ->; [|reflexivity].
  apply existsb_false_iff. intros v Hv. apply has_email_false. now apply He.
Qed.

(** The width check of an INSERT, column by column. *)
Lemma insert_fits i x name email active :
  match x with Some x => Storage.fits 255 x | None => true end = true ->
  Storage.fits 100 name = true ->
  Storage.too_long None (User.mk i x name email active) = None.
Proof.
  intros Hx Hn. unfold Storage.too_long, Storage.exceeds. simpl.
  rewrite Hn. destruct x as [x|]; [now rewrite Hx|reflexivity].
Qed.

(** An INSERT that passes the width check, finds the sequence in range
    and passes the indexes appends the row. *)
Lemma insert_appends mk l0 l n :
  Storage.too_long None (mk n) = None -> n <= Storage.max_int32 ->
  Storage.violation (mk n) l = None ->
  Storage.insert mk (mkSession l0 l n)
  = (Ok (mk n), mkSession l0 (l ++ [mk n]) (n + 1)).
Proof.
  intros Hw Hn Hv. unfold Storage.insert. simpl. rewrite Hw.
  assert ((Storage.max_int32 <? n) = false) as -> by (apply Z.ltb_ge; lia).
  now rewrite Hv.
Qed.

Lemma create_user_fresh uc x l0 l n :
  well_formed l n ->
  no_match_by_email (UserCreate.email uc) l ->
  no_match_by_external_id x l ->
  Storage.fits 255 x = true ->
  Storage.fits 100 (UserCreate.name uc) = true ->
  n <= Storage.max_int32 ->
  let u := User.mk n (Some x) (UserCreate.name uc) (UserCreate.email uc) true in
  UserService.create_user uc x (mkSession l0 l n)
  = (Ok u, mkSession (l ++ [u]) (l ++ [u]) (n + 1)).
Proof.
  intros Hwf He Hx Hfx Hfn Hn u. unfold UserService.create_user.
  step ltac:(now apply get_user_by_email_none).
  step ltac:(now apply get_user_by_supabase_id_none).
  step ltac:(apply insert_appends;
             [now apply insert_fits | exact Hn
             | apply (insert_passes l n); simpl;
               [exact Hwf | reflexivity
               | intros y Hy; now inversion Hy; subst | exact He]]).
  reflexivity.
Qed.

Lemma usable_display_name su m :
  name_fits su -> Supabase.user_metadata su = Some m ->
  (match Metadata.name m with
   | Some v => v
   | None => Json.str "Unknown"
   end) = Json.str (display_name_of m)
  /\ Storage.fits 100 (display_name_of m) = true.
Proof.
  intros Hn Hm. unfold display_name_of.
  destruct (Metadata.name m) as [v|] eqn:Ev; [|now split].
  specialize (Hn m v Hm Ev). destruct v; try discriminate. now split.
Qed.

Lemma resolve_create lib e su m l0 l n :
  well_formed l n ->
  no_match_by_external_id (Supabase.id su) l ->
  Storage.fits 255 (Supabase.id su) = true ->
  hint_in_range su ->
  no_match_by_hint su l ->
  no_match_by_email e l ->
  Supabase.user_metadata su = Some m ->
  name_fits su ->
  Library.EmailStr lib e = Some e ->
  n <= Storage.max_int32 ->
  let u := User.mk n (Some (Supabase.id su)) (display_name_of m) e true in
  AuthService.resolve_local_user lib e su (mkSession l0 l n)
  = (Ok (Some u), mkSession (l ++ [u]) (l ++ [u]) (n + 1)).
Proof.
  intros Hwf Hx Hfit Hr Hh He Hm Hname Hv Hn u.
  destruct (usable_display_name su m Hname Hm) as [Hd Hfd].
  unfold AuthService.resolve_local_user.
  step ltac:(now apply get_user_by_supabase_id_none).
  step ltac:(now apply by_metadata_hint_miss; [apply as_it_is_int| |]).
  step ltac:(now apply get_user_by_email_none).
  unfold AuthService.display_name. rewrite Hm, Hd.
  step ltac:(reflexivity).
  unfold UserCreate.validate. rewrite Hv.
  step ltac:(reflexivity).
  step ltac:(now apply create_user_fresh).
  reflexivity.
Qed.

Lemma resolve_create_without_metadata lib e su l0 l n :
  no_match_by_external_id (Supabase.id su) l ->
  no_match_by_email e l ->
  Supabase.user_metadata su = None ->
  AuthService.resolve_local_user lib e su (mkSession l0 l n)
  = (Raise (AttributeError "get"), mkSession l0 l n).
Proof.
  intros Hx He Hm. unfold AuthService.resolve_local_user.
  step ltac:(now apply get_user_by_supabase_id_none).
  step ltac:(unfold AuthService.by_metadata_hint; rewrite Hm; reflexivity).
  step ltac:(now apply get_user_by_email_none).
  unfold AuthService.display_name. rewrite Hm. reflexivity.
Qed.

Lemma find_replace i u' l :
  has_id i u' = true ->
  (exists u, In u l /\ has_id i u = true) ->
  find (has_id i) (Storage.replace i u' l) = Some u'.
Proof.
  intros Hi (u & Hu & Hid). unfold Storage.replace.
  induction l as [|a l IH]; [contradiction|].
  simpl. destruct (has_id i a) eqn:E.
  - now rewrite Hi.
  - rewrite E. apply IH. destruct Hu as [->|Hu]; [congruence|assumption].
Qed.

Lemma run_sign_in lib client email password su sess db :
  authenticates client email password su sess ->
  Storage.run
    (AuthService.sign_in lib (AuthService.mk client true) email password) db
  = match AuthService.resolve_local_user lib email su (Storage.open db) with
    | (Ok local_user, s') =>
        (Ok (AuthService.mkSignInResult local_user sess
               (Supabase.access_token sess) (Supabase.refresh_token sess)
               "bearer"), Storage.close s')
    | (Raise (HTTPException code detail), s') =>
        (Raise (HTTPException code detail), Storage.close s')
    | (Raise e, s') =>
        (Raise (HTTPException HTTP_401_UNAUTHORIZED
                  (Formatted "Login failed: " e)), Storage.close s')
    end.
Proof.
  intros H. unfold Storage.run.
  rewrite (sign_in_authenticated lib client email password su sess _ H).
  destruct (AuthService.resolve_local_user lib email su (Storage.open db))
    as [[lu|[]] s']; reflexivity.
Qed.

(** ** Rows after an UPDATE *)

Lemma length_replace i u' l :
  List.length (Storage.replace i u' l) = List.length l.
Proof. unfold Storage.replace. apply length_map. Qed.

(** The rows with another primary key are the ones there were. *)
Lemma In_replace_other i u' l v :
  User.id u' = i -> User.id v <> i ->
  In v (Storage.replace i u' l) <-> In v l.
Proof.
  intros Hi Hv. split.
  - intros H. apply In_replace in H. destruct H as [->|H]; [|exact H].
    contradiction.
  - intros H. unfold Storage.replace. apply in_map_iff. exists v.
    split; [|exact H].
    now rewrite (proj2 (has_id_false i v) Hv).
Qed.

(** ** Sign-in: the metadata hint *)

(** C3: when the provider authenticates, the metadata of the user it
    returns carries a hint that points at internal id 7, no LocalUser has
    the external id, and LocalUser 7 exists with no external id set, then
    [sign_in] returns LocalUser 7 with its external id set to the
    provider's user id (an id of the provider, which fits the column) and
    its other columns as they were, and the committed table holds row 7
    in that form, next to the rows it held under other ids. *)
Theorem sign_in_links_hinted_user lib client db email password
    supabase_user supabase_session user_metadata u :
  consistent db ->
  authenticates client email password supabase_user supabase_session ->
  Storage.fits 255 (Supabase.id supabase_user) = true ->
  Supabase.user_metadata supabase_user = Some user_metadata ->
  Metadata.local_user_id user_metadata = Some (Json.int 7) ->
  no_match_by_external_id (Supabase.id supabase_user) (rows db) ->
  In u (rows db) -> User.id u = 7 -> User.supabase_user_id u = None ->
  let linked :=
    User.mk 7 (Some (Supabase.id supabase_user)) (User.name u) (User.email u)
      (User.is_active u) in
  let outcome :=
    Storage.run
      (AuthService.sign_in lib (AuthService.mk client true) email password)
      db in
  fst outcome = Ok (signed_in linked supabase_session)
  /\ User.supabase_user_id linked = Some (Supabase.id supabase_user)
  /\ find (has_id 7) (rows (snd outcome)) = Some linked
  /\ (forall v, User.id v <> 7 -> In v (rows (snd outcome)) <-> In v (rows db))
  /\ List.length (rows (snd outcome)) = List.length (rows db)
  /\ next_id (snd outcome) = next_id db.
Proof.
  intros Hdb Hauth Hfit Hm Hhint Hx Hu Hid Hnone linked outcome.
  assert (outcome
          = (Ok (signed_in linked supabase_session),
             mkDatabase (Storage.replace 7 linked (rows db)) (next_id db)))
    as ->.
  { unfold outcome. rewrite (run_sign_in _ _ _ _ _ _ _ Hauth).
    unfold Storage.open. rewrite <- Hid in Hhint.
    rewrite (resolve_by_hint lib email supabase_user user_metadata u _ _ _
               Hdb Hx Hfit Hm Hhint Hu).
    unfold User.with_supabase_user_id. rewrite Hid. reflexivity. }
  simpl. repeat split.
  - apply find_replace; [reflexivity|].
    exists u. split; [assumption|]. unfold has_id. now apply Z.eqb_eq.
  - now apply In_replace_other.
  - now apply In_replace_other.
  - apply length_replace.
Qed.

Lemma sample_table_consistent : consistent Sample.table.
Proof.
  constructor; simpl; repeat constructor; simpl;
    unfold Storage.max_int32; try lia; intuition discriminate.
Defined.

Lemma sign_in_links_hinted_user_witness :
  consistent Sample.table
  /\ authenticates (Sample.accepting Sample.ada_hinted) "ada@example.org"
       "secret" Sample.ada_hinted (Supabase.mkSession "access" "refresh")
  /\ fst (Storage.run
            (AuthService.sign_in Sample.lib
               (AuthService.mk (Sample.accepting Sample.ada_hinted) true)
               "ada@example.org" "secret")
            Sample.table)
     = Ok (signed_in
             (User.mk 7 (Some "uid-ada") "Ada" "ada@example.org" true)
             (Supabase.mkSession "access" "refresh")).
Proof.
  pose proof sample_table_consistent as Hdb.
  assert (authenticates (Sample.accepting Sample.ada_hinted) "ada@example.org"
            "secret" Sample.ada_hinted (Supabase.mkSession "access" "refresh"))
    as Hauth by reflexivity.
  split; [exact Hdb|]. split; [exact Hauth|].
  refine (proj1 (sign_in_links_hinted_user Sample.lib
                   (Sample.accepting Sample.ada_hinted) Sample.table
                   "ada@example.org" "secret" Sample.ada_hinted
                   (Supabase.mkSession "access" "refresh")
                   (Metadata.mk (Some (Json.int 7)) (Some (Json.str "Ada")) [])
                   Sample.ada
                   Hdb Hauth eq_refl eq_refl eq_refl _ _ eq_refl eq_refl)).
  - intros v [<-|[<-|[]]]; simpl; discriminate.
  - simpl. tauto.
Defined.

(** ** Sign-in: linking by e-mail *)

(** C4: when the provider authenticates, no LocalUser matches the
    external id or the metadata hint, the hint, if there is one, being an
    integer of the range of the [id] column, and an unlinked LocalUser has
    the signed-in e-mail address (the only one, the table being
    consistent), then [sign_in] sets the external id on that row, commits,
    and returns that same row; the table has as many rows as before, the
    others being the ones it had. *)
Theorem sign_in_links_by_email lib client db email password
    supabase_user supabase_session u :
  consistent db ->
  authenticates client email password supabase_user supabase_session ->
  Storage.fits 255 (Supabase.id supabase_user) = true ->
  no_match_by_external_id (Supabase.id supabase_user) (rows db) ->
  hint_in_range supabase_user ->
  no_match_by_hint supabase_user (rows db) ->
  In u (rows db) -> User.email u = email -> User.supabase_user_id u = None ->
  let linked :=
    User.mk (User.id u) (Some (Supabase.id supabase_user)) (User.name u)
      (User.email u) (User.is_active u) in
  let outcome :=
    Storage.run
      (AuthService.sign_in lib (AuthService.mk client true) email password)
      db in
  fst outcome = Ok (signed_in linked supabase_session)
  /\ User.supabase_user_id linked = Some (Supabase.id supabase_user)
  /\ find (has_id (User.id u)) (rows (snd outcome)) = Some linked
  /\ (forall v, User.id v <> User.id u ->
                In v (rows (snd outcome)) <-> In v (rows db))
  /\ List.length (rows (snd outcome)) = List.length (rows db)
  /\ next_id (snd outcome) = next_id db.
Proof.
  intros Hdb Hauth Hfit Hx Hr Hh Hu He Hnone linked outcome.
  assert (outcome
          = (Ok (signed_in linked supabase_session),
             mkDatabase (Storage.replace (User.id u) linked (rows db))
               (next_id db))) as ->.
  { unfold outcome. rewrite (run_sign_in _ _ _ _ _ _ _ Hauth).
    unfold Storage.open. rewrite <- He.
    now rewrite (resolve_by_email lib supabase_user u _ _ _
                   Hdb Hx Hfit Hr Hh Hu). }
  simpl. repeat split.
  - apply find_replace.
    + unfold has_id, linked. simpl. now apply Z.eqb_eq.
    + exists u. split; [assumption|]. unfold has_id. now apply Z.eqb_eq.
  - now apply In_replace_other.
  - now apply In_replace_other.
  - apply length_replace.
Qed.

Lemma sign_in_links_by_email_witness :
  fst (Storage.run
         (AuthService.sign_in Sample.lib
            (AuthService.mk (Sample.accepting Sample.ada_unhinted) true)
            "ada@example.org" "secret")
         Sample.table)
  = Ok (signed_in (User.mk 7 (Some "uid-ada") "Ada" "ada@example.org" true)
          (Supabase.mkSession "access" "refresh")).
Proof.
  refine (proj1 (sign_in_links_by_email Sample.lib
                   (Sample.accepting Sample.ada_unhinted) Sample.table
                   "ada@example.org" "secret" Sample.ada_unhinted
                   (Supabase.mkSession "access" "refresh") Sample.ada
                   sample_table_consistent eq_refl eq_refl _ _ _ _
                   eq_refl eq_refl)).
  - intros v [<-|[<-|[]]]; simpl; discriminate.
  - intros m hint Hm Hhint. inversion Hm; subst. discriminate.
  - intros m hint Hm Hhint. inversion Hm; subst. discriminate.
  - simpl. tauto.
Defined.

(** The provider authenticates Ada, whose metadata carries the hint
    2147483648.  No LocalUser has her external id, none has that internal
    id, and one unlinked LocalUser has her e-mail address; the lookup by
    the hint raises on a key beyond the range of the column, [sign_in]
    answers 401, and the row stays unlinked: it is neither linked nor
    returned. *)
Lemma sign_in_beyond_hint_links_nothing :
  let sign_in :=
    Storage.run
      (AuthService.sign_in Sample.lib
         (AuthService.mk (Sample.accepting Sample.ada_beyond) true)
         "ada@example.org" "secret") in
  authenticates (Sample.accepting Sample.ada_beyond) "ada@example.org"
    "secret" Sample.ada_beyond (Supabase.mkSession "access" "refresh")
  /\ no_match_by_external_id "uid-ada" (rows Sample.table)
  /\ no_match_by_hint Sample.ada_beyond (rows Sample.table)
  /\ filter (has_email "ada@example.org") (rows Sample.table) = [Sample.ada]
  /\ User.supabase_user_id Sample.ada = None
  /\ sign_in Sample.table
     = (Raise (HTTPException HTTP_401_UNAUTHORIZED
                 (Formatted "Login failed: " (DBAPIError out_of_int32))),
        Sample.table)
  /\ find (has_id 7) (rows (snd (sign_in Sample.table))) = Some Sample.ada.
Proof.
  cbv zeta. repeat split.
  - intros v [<-|[<-|[]]]; simpl; discriminate.
  - intros m hint Hm Hhint v [<-|[<-|[]]]; inversion Hm; subst;
      inversion Hhint; subst; simpl; discriminate.
Qed.

(** ** Sign-in: the provider's user without metadata *)

(** C10: when the provider authenticates but the user it returns has a
    null [user_metadata], and no LocalUser matches by external id or by
    e-mail, [sign_in] raises HTTP 401: the create branch calls [get] on
    the null metadata, and the handler for other exceptions turns the
    error into "Login failed"; no LocalUser is created. *)
Theorem sign_in_null_metadata_is_401 lib client db email password
    supabase_user supabase_session :
  authenticates client email password supabase_user supabase_session ->
  Supabase.user_metadata supabase_user = None ->
  no_match_by_external_id (Supabase.id supabase_user) (rows db) ->
  no_match_by_email email (rows db) ->
  Storage.run
    (AuthService.sign_in lib (AuthService.mk client true) email password) db
  = (Raise (HTTPException HTTP_401_UNAUTHORIZED
              (Formatted "Login failed: " (AttributeError "get"))),
     db).
Proof.
  intros Hauth Hm Hx He.
  rewrite (run_sign_in _ _ _ _ _ _ _ Hauth). unfold Storage.open.
  rewrite (resolve_create_without_metadata lib email supabase_user _ _ _
             Hx He Hm).
  now destruct db.
Qed.

Lemma sign_in_null_metadata_is_401_witness :
  Storage.run
    (AuthService.sign_in Sample.lib
       (AuthService.mk (Sample.accepting Sample.eve_bare) true)
       "eve@example.org" "secret")
    Sample.table
  = (Raise (HTTPException HTTP_401_UNAUTHORIZED
              (Formatted "Login failed: " (AttributeError "get"))),
     Sample.table).
Proof.
  refine (sign_in_null_metadata_is_401 Sample.lib
            (Sample.accepting Sample.eve_bare)
            Sample.table "eve@example.org" "secret" Sample.eve_bare
            (Supabase.mkSession "access" "refresh") eq_refl eq_refl _ _).
  - intros v [<-|[<-|[]]]; simpl; discriminate.
  - intros v [<-|[<-|[]]]; simpl; discriminate.
Defined.

(** ** Sign-in against the reconciliation of the specification *)

Lemma has_supabase_user_id_true x u :
  has_supabase_user_id x u = true <-> User.supabase_user_id u = Some x.
Proof.
  unfold has_supabase_user_id. destruct (User.supabase_user_id u) as [y|].
  - rewrite String.eqb_eq. split; congruence.
  - split; discriminate.
Qed.

Lemma find_none_iff (p : User.t -> bool) l :
  find p l = None <-> forall u, In u l -> p u = false.
Proof.
  rewrite find_filter, <- filter_nil_iff.
  destruct (filter p l); simpl; split; congruence.
Qed.

(** The reconciliation of the specification, in the vocabulary of the
    storage layer. *)
Lemma resolveLocalUser_eq l n x m e :
  resolveLocalUser l n x m e
  = let attach u :=
      let u' := User.with_supabase_user_id (Some x) u in
      (u', Storage.replace (User.id u) u' l) in
    match find (has_supabase_user_id x) l with
    | Some u => (u, l)
    | None =>
        match match Metadata.local_user_id m with
              | Some (Json.int hint) => find (has_id hint) l
              | _ => None
              end with
        | Some u => attach u
        | None =>
            match find (has_email e) l with
            | Some u => attach u
            | None =>
                let u := User.mk n (Some x) (display_name_of m) e true in
                (u, l ++ [u])
            end
        end
    end.
Proof. reflexivity. Qed.

(** Where the provider's user has a metadata object whose hint and name
    are usable, an id that fits the column and a validated address, and
    the sequence has an id left, [sign_in] resolves the LocalUser exactly
    as section 4.1 words it. *)
Lemma sign_in_resolves lib client db email password
    supabase_user supabase_session user_metadata :
  consistent db ->
  next_id db <= Storage.max_int32 ->
  authenticates client email password supabase_user supabase_session ->
  Library.EmailStr lib email = Some email ->
  Storage.fits 255 (Supabase.id supabase_user) = true ->
  Supabase.user_metadata supabase_user = Some user_metadata ->
  hint_in_range supabase_user ->
  name_fits supabase_user ->
  let resolved :=
    resolveLocalUser (rows db) (next_id db) (Supabase.id supabase_user)
      user_metadata email in
  Storage.run
    (AuthService.sign_in lib (AuthService.mk client true) email password) db
  = (Ok (signed_in (fst resolved) supabase_session),
     mkDatabase (snd resolved)
       (next_id db + Z.of_nat (List.length (snd resolved))
        - Z.of_nat (List.length (rows db)))).
Proof.
  intros Hdb Hn Hauth Hv Hfit Hm Hr Hname resolved. unfold resolved.
  rewrite (run_sign_in _ _ _ _ _ _ _ Hauth), resolveLocalUser_eq.
  unfold Storage.open. cbv zeta.
  destruct (find (has_supabase_user_id (Supabase.id supabase_user)) (rows db))
    as [u|] eqn:Ex.
  { apply find_some in Ex. destruct Ex as [Hu Hx].
    apply has_supabase_user_id_true in Hx.
    rewrite (resolve_fast_path lib email supabase_user u _ _ _ Hdb Hu Hx).
    unfold Storage.close. simpl. f_equal. f_equal. lia. }
  assert (no_match_by_external_id (Supabase.id supabase_user) (rows db)) as Hx.
  { intros u Hu. apply has_supabase_user_id_false.
    now apply (proj1 (find_none_iff _ _) Ex). }
  destruct (match Metadata.local_user_id user_metadata with
            | Some (Json.int hint) => find (has_id hint) (rows db)
            | _ => None
            end) as [u|] eqn:Eh.
  { destruct (Metadata.local_user_id user_metadata) as [[| |i| | | |]|] eqn:Ei;
      try discriminate.
    apply find_some in Eh. destruct Eh as [Hu Hi].
    unfold has_id in Hi. apply Z.eqb_eq in Hi. subst i.
    rewrite (resolve_by_hint lib email supabase_user user_metadata u _ _ _
               Hdb Hx Hfit Hm Ei Hu).
    unfold Storage.close. simpl. rewrite length_replace.
    f_equal. f_equal. lia. }
  assert (no_match_by_hint supabase_user (rows db)) as Hh.
  { intros m i Hm' Hi u Hu. rewrite Hm in Hm'. inversion Hm'; subst m.
    rewrite Hi in Eh. apply has_id_false.
    now apply (proj1 (find_none_iff _ _) Eh). }
  destruct (find (has_email email) (rows db)) as [u|] eqn:Ee.
  { apply find_some in Ee. destruct Ee as [Hu He].
    unfold has_email in He. apply String.eqb_eq in He. subst email.
    rewrite (resolve_by_email lib supabase_user u _ _ _ Hdb Hx Hfit Hr Hh Hu).
    unfold Storage.close. simpl. rewrite length_replace.
    f_equal. f_equal. lia. }
  assert (no_match_by_email email (rows db)) as He.
  { intros u Hu. apply has_email_false.
    now apply (proj1 (find_none_iff _ _) Ee). }
  rewrite (resolve_create lib email supabase_user user_metadata _ _ _
             Hdb Hx Hfit Hr Hh He Hm Hname Hv Hn).
  unfold Storage.close. simpl. rewrite length_app. simpl.
  f_equal. f_equal. lia.
Qed.




(** ** Sign-in: the create step *)

(** C5: when the provider authenticates and no LocalUser matches by
    external id, by metadata hint or by e-mail, then, the hint, if there
    is one, being an integer of the range of the [id] column, the name, if
    there is one, a string that fits the [name] column, and the sequence
    having an id left, [sign_in] appends exactly one row and returns it:
    the signed-in e-mail address, the external id, and the name of the
    metadata or "Unknown". *)
Theorem sign_in_creates_local_user lib client db email password
    supabase_user supabase_session user_metadata :
  consistent db ->
  next_id db <= Storage.max_int32 ->
  authenticates client email password supabase_user supabase_session ->
  Library.EmailStr lib email = Some email ->
  Storage.fits 255 (Supabase.id supabase_user) = true ->
  Supabase.user_metadata supabase_user = Some user_metadata ->
  hint_in_range supabase_user ->
  name_fits supabase_user ->
  no_match_by_external_id (Supabase.id supabase_user) (rows db) ->
  no_match_by_hint supabase_user (rows db) ->
  no_match_by_email email (rows db) ->
  let created :=
    User.mk (next_id db) (Some (Supabase.id supabase_user))
      (match Metadata.name user_metadata with
       | Some (Json.str name) => name
       | _ => "Unknown"
       end) email true in
  Storage.run
    (AuthService.sign_in lib (AuthService.mk client true) email password) db
  = (Ok (signed_in created supabase_session),
     mkDatabase (rows db ++ [created]) (next_id db + 1)).
Proof.
  intros Hdb Hn Hauth Hv Hfit Hm Hr Hname Hx Hh He created.
  rewrite (run_sign_in _ _ _ _ _ _ _ Hauth). unfold Storage.open.
  now rewrite (resolve_create lib email supabase_user user_metadata _ _ _
                 Hdb Hx Hfit Hr Hh He Hm Hname Hv Hn).
Qed.

Lemma sign_in_creates_local_user_witness :
  Storage.run
    (AuthService.sign_in Sample.lib
       (AuthService.mk (Sample.accepting Sample.eve) true)
       "eve@example.org" "secret")
    Sample.table
  = (Ok (signed_in (User.mk 8 (Some "uid-eve") "Eve" "eve@example.org" true)
           (Supabase.mkSession "access" "refresh")),
     mkDatabase
       [Sample.bob; Sample.ada;
        User.mk 8 (Some "uid-eve") "Eve" "eve@example.org" true] 9).
Proof.
  refine (sign_in_creates_local_user Sample.lib
            (Sample.accepting Sample.eve) Sample.table
            "eve@example.org" "secret" Sample.eve
            (Supabase.mkSession "access" "refresh")
            (Metadata.mk None (Some (Json.str "Eve")) [])
            sample_table_consistent _ eq_refl eq_refl eq_refl eq_refl
            _ _ _ _ _).
  - simpl. unfold Storage.max_int32. lia.
  - intros m hint Hm Hhint. inversion Hm; subst. discriminate.
  - intros m name Hm Hname. inversion Hm; subst. inversion Hname; subst.
    reflexivity.
  - intros v [<-|[<-|[]]]; simpl; discriminate.
  - intros m hint Hm Hhint. inversion Hm; subst. discriminate.
  - intros v [<-|[<-|[]]]; simpl; discriminate.
Defined.

(** The provider authenticates Eve under a name of 101 characters; no
    LocalUser matches her by external id, by hint or by e-mail.  The
    INSERT of the create step is turned down by the width of the [name]
    column, [sign_in] answers 401, and no LocalUser is created. *)
Lemma sign_in_long_name_creates_nothing :
  let sign_in :=
    Storage.run
      (AuthService.sign_in Sample.lib
         (AuthService.mk (Sample.accepting Sample.eve_verbose) true)
         "eve@example.org" "secret") in
  authenticates (Sample.accepting Sample.eve_verbose) "eve@example.org"
    "secret" Sample.eve_verbose (Supabase.mkSession "access" "refresh")
  /\ no_match_by_external_id "uid-eve" (rows Sample.table)
  /\ no_match_by_hint Sample.eve_verbose (rows Sample.table)
  /\ no_match_by_email "eve@example.org" (rows Sample.table)
  /\ sign_in Sample.table
     = (Raise (HTTPException HTTP_401_UNAUTHORIZED
                 (Formatted "Login failed: "
                    (DBAPIError (value_too_long "name")))),
        Sample.table)
  /\ filter (has_email "eve@example.org") (rows (snd (sign_in Sample.table)))
     = [].
Proof.
  cbv zeta. repeat split.
  - intros v [<-|[<-|[]]]; simpl; discriminate.
  - intros m hint Hm Hhint. inversion Hm; subst. discriminate.
  - intros v [<-|[<-|[]]]; simpl; discriminate.
Qed.

(** ** Sign-up *)

Lemma insert_duplicate_email l n u v :
  well_formed l n -> User.id u = n -> User.supabase_user_id u = None ->
  In v l -> User.email v = User.email u ->
  Storage.violation u l = Some ix_users_email.
Proof.
  intros Hwf Hid Hx Hv He. unfold Storage.violation.
  assert (existsb (has_id (User.id u)) l = false) as ->.
  { apply existsb_false_iff. intros w Hw. apply has_id_false.
    destruct Hwf as [_ _ _ Hpos _ _]. rewrite Forall_forall in Hpos.
    specialize (Hpos w Hw). lia. }
  rewrite Hx.
  assert (existsb (has_email (User.email u)) l = true) as ->; [|reflexivity].
  apply existsb_exists. exists v. split; [assumption|].
  unfold has_email. now apply String.eqb_eq.
Qed.

Lemma sign_up_duplicate lib client email password name metadata l0 l n v :
  well_formed l n -> n <= Storage.max_int32 ->
  Storage.fits 100 name = true ->
  In v l -> Library.EmailStr lib email = Some (User.email v) ->
  AuthService.sign_up lib (AuthService.mk client true) email password
    (Some name) metadata (mkSession l0 l n)
  = (Raise (HTTPException HTTP_400_BAD_REQUEST
              (Formatted "Registration failed: "
                 (IntegrityError ix_users_email))),
     mkSession l0 l (n + 1)).
Proof.
  intros Hwf Hn Hfit Hv He. unfold AuthService.sign_up.
  cbn [AuthService.db negb].
  erewrite try_except_raise; [reflexivity|].
  unfold UserCreate.validate, AuthService.py_name. rewrite He.
  step ltac:(reflexivity).
  cbn [UserCreate.name UserCreate.email].
  erewrite bind_raise; [reflexivity|].
  unfold Storage.insert. cbn [sequence pending persisted].
  rewrite insert_fits by (reflexivity || exact Hfit).
  assert ((Storage.max_int32 <? n) = false) as -> by (apply Z.ltb_ge; lia).
  now rewrite (insert_duplicate_email l n
                 (User.mk n None name (User.email v) true) v
                 Hwf eq_refl eq_refl Hv eq_refl).
Qed.




Lemma insert_unlinked name email l0 l n :
  well_formed l n -> n <= Storage.max_int32 ->
  Storage.fits 100 name = true -> no_match_by_email email l ->
  let u := User.mk n None name email true in
  Storage.insert (fun i => User.mk i None name email true) (mkSession l0 l n)
  = (Ok u, mkSession l0 (l ++ [u]) (n + 1))
  /\ well_formed (l ++ [u]) (n + 1).
Proof.
  intros Hwf Hn Hfit He u.
  assert (Storage.too_long None u = None) as Hw
    by (now apply insert_fits).
  assert (Storage.violation u l = None) as Hv
    by (apply (insert_passes l n u); try assumption;
        [reflexivity|discriminate]).
  split.
  - now apply (insert_appends (fun i => User.mk i None name email true)).
  - now apply well_formed_insert.
Qed.

Lemma replace_last u u' l n :
  well_formed l n -> User.id u = n ->
  Storage.replace n u' (l ++ [u]) = l ++ [u'].
Proof.
  intros Hwf Hid. unfold Storage.replace. rewrite map_app. f_equal.
  - apply replace_none. intros v Hv. apply has_id_false.
    destruct Hwf as [_ _ _ Hpos _ _]. rewrite Forall_forall in Hpos.
    specialize (Hpos v Hv). lia.
  - simpl. unfold has_id. rewrite Hid, Z.eqb_refl. reflexivity.
Qed.

(** A [sign_up] that goes all the way: the row is inserted, the provider
    returns a user, the row is linked and committed. *)
Lemma sign_up_completes lib client email address password name metadata
    supabase_user supabase_session l0 l n :
  well_formed l n -> n <= Storage.max_int32 ->
  Storage.fits 100 name = true ->
  Library.EmailStr lib email = Some address ->
  no_match_by_email address l ->
  Supabase.sign_up client email password
    (Metadata.update (Metadata.or_empty metadata) (Json.str name) n)
  = Ok (Supabase.mkAuthResponse (Some supabase_user) supabase_session) ->
  no_match_by_external_id (Supabase.id supabase_user) l ->
  Storage.fits 255 (Supabase.id supabase_user) = true ->
  let u := User.mk n (Some (Supabase.id supabase_user)) name address true in
  AuthService.sign_up lib (AuthService.mk client true) email password
    (Some name) metadata (mkSession l0 l n)
  = (Ok (AuthService.mkSignUpResult u supabase_session supabase_user
           "User created successfully"),
     mkSession (l ++ [u]) (l ++ [u]) (n + 1)).
Proof.
  intros Hwf Hn Hfit Hv He Hrsp Hx Hfx u.
  destruct (insert_unlinked name address l0 l n Hwf Hn Hfit He)
    as [Hins Hwf'].
  set (u0 := User.mk n None name address true) in *.
  assert (In u0 (l ++ [u0])) as Hu0 by (apply in_or_app; right; now left).
  assert (forall v, In v (l ++ [u0]) ->
                    has_supabase_user_id (Supabase.id supabase_user) v = false)
    as Hfree.
  { intros v Hv'. apply has_supabase_user_id_false.
    apply in_app_or in Hv'. destruct Hv' as [Hv'|[<-|[]]];
      [now apply Hx|discriminate]. }
  pose proof (attach_commit l0 _ _ u0 (Supabase.id supabase_user)
                Hwf' Hu0 Hfree Hfx) as Hc.
  cbv zeta in Hc.
  change (User.with_supabase_user_id (Some (Supabase.id supabase_user)) u0)
    with u in Hc.
  change (User.id u0) with n in Hc.
  rewrite (replace_last u0 u l n Hwf eq_refl) in Hc.
  unfold AuthService.sign_up. cbn [AuthService.db negb].
  erewrite try_except_ok; [reflexivity|].
  unfold UserCreate.validate, AuthService.py_name. rewrite Hv.
  step ltac:(reflexivity).
  cbn [UserCreate.name UserCreate.email].
  step ltac:(exact Hins).
  cbv zeta. cbn [AuthService.supabase_client].
  change (User.id u0) with n.
  step ltac:(unfold lift; rewrite Hrsp; reflexivity).
  cbn [Supabase.user Supabase.session].
  unfold bind in *.
  destruct (Storage.update n
              (User.with_supabase_user_id (Some (Supabase.id supabase_user)))
              {| persisted := l0; pending := l ++ [u0]; sequence := n + 1 |})
    as [[w|e] s'].
  - simpl in *. now inversion Hc; subst.
  - discriminate.
Qed.



(** ** Rejections by the provider *)

(** C7, as the code has it: when the provider rejects the credentials or
    the token, [sign_in], [refresh_token] and [get_current_user] raise
    401, while [sign_out] and [reset_password] raise 400. *)
Theorem rejection_status lib client op s :
  provider_rejects client op ->
  forward lib (AuthService.mk client true) op s
  = Some (status_on_rejection op).
Proof.
  unfold refused.
  destruct op as [e p|tok|tok|tok|e]; simpl; intros H.
  - unfold surfaced, AuthService.sign_in, try_except, bind, lift. simpl.
    destruct H as [[reason ->]|(r & -> & Hr)]; [reflexivity|].
    destruct Hr as [->| ->]; [reflexivity|].
    now destruct (Supabase.user r).
  - unfold surfaced, AuthService.sign_out, try_except, bind, lift. simpl.
    destruct H as [[reason ->]|(-> & [reason ->])]; reflexivity.
  - unfold surfaced, AuthService.refresh_token, try_except, bind, lift. simpl.
    destruct H as [[reason ->]|(r & -> & ->)]; reflexivity.
  - unfold surfaced, AuthService.get_current_user, try_except, bind, lift.
    simpl.
    destruct H as [[reason ->]|(-> & [[reason ->]|(r & -> & ->)])];
      reflexivity.
  - unfold surfaced, AuthService.reset_password, try_except, bind, lift. simpl.
    destruct H as [reason ->]. reflexivity.
Qed.

Lemma rejection_status_witness :
  forward Sample.lib (AuthService.mk Sample.rejecting true)
    (forward_sign_in "eve@example.org" "wrong") (Storage.open Sample.table)
  = Some HTTP_401_UNAUTHORIZED.
Proof.
  refine (rejection_status Sample.lib Sample.rejecting
            (forward_sign_in "eve@example.org" "wrong")
            (Storage.open Sample.table) _).
  simpl. left. exists "invalid". reflexivity.
Defined.

(** C7 as stated fails on [sign_out]: the provider rejects the token and
    the method raises 400, not 401. *)
Lemma sign_out_rejection_is_400 :
  provider_rejects Sample.rejecting (forward_sign_out "expired")
  /\ forward Sample.lib (AuthService.mk Sample.rejecting true)
       (forward_sign_out "expired") (Storage.open Sample.table)
     = Some HTTP_400_BAD_REQUEST
  /\ forward Sample.lib (AuthService.mk Sample.rejecting true)
       (forward_sign_out "expired") (Storage.open Sample.table)
     <> Some HTTP_401_UNAUTHORIZED.
Proof.
  split; [|split].
  - simpl. left. exists "invalid". reflexivity.
  - reflexivity.
  - discriminate.
Qed.

(** * Further properties of the services *)

(** ** The user service: creation *)

(** X1: [create_user] with an e-mail address some LocalUser already has
    raises 400 "User with this email already exists" before anything is
    written; the table is left as it was. *)
Theorem create_user_existing_email uc supabase_user_id db u :
  consistent db -> In u (rows db) -> User.email u = UserCreate.email uc ->
  Storage.run (UserService.create_user uc supabase_user_id) db
  = (Raise (HTTPException HTTP_400_BAD_REQUEST
              (Message "User with this email already exists")),
     db).
Proof.
  intros Hdb Hu He. unfold Storage.run, Storage.open, UserService.create_user.
  rewrite <- He.
  step ltac:(now apply get_user_by_email_some).
  now destruct db.
Qed.

Lemma create_user_existing_email_witness :
  Storage.run
    (UserService.create_user (UserCreate.mk "Robert" "bob@example.org")
       "uid-new")
    Sample.table
  = (Raise (HTTPException HTTP_400_BAD_REQUEST
              (Message "User with this email already exists")),
     Sample.table).
Proof.
  refine (create_user_existing_email (UserCreate.mk "Robert" "bob@example.org")
            "uid-new" Sample.table Sample.bob sample_table_consistent _
            eq_refl).
  simpl. tauto.
Defined.

(** X2: [create_user] with a fresh e-mail address but an external id some
    LocalUser already carries raises 400 "User with this Supabase ID
    already exists"; the table is left as it was. *)
Theorem create_user_existing_supabase_id uc supabase_user_id db u :
  consistent db ->
  no_match_by_email (UserCreate.email uc) (rows db) ->
  In u (rows db) -> User.supabase_user_id u = Some supabase_user_id ->
  Storage.run (UserService.create_user uc supabase_user_id) db
  = (Raise (HTTPException HTTP_400_BAD_REQUEST
              (Message "User with this Supabase ID already exists")),
     db).
Proof.
  intros Hdb He Hu Hx. unfold Storage.run, Storage.open, UserService.create_user.
  step ltac:(now apply get_user_by_email_none).
  step ltac:(now apply (get_user_by_supabase_id_some u)).
  now destruct db.
Qed.

Lemma create_user_existing_supabase_id_witness :
  Storage.run
    (UserService.create_user (UserCreate.mk "Robert" "robert@example.org")
       "uid-bob")
    Sample.table
  = (Raise (HTTPException HTTP_400_BAD_REQUEST
              (Message "User with this Supabase ID already exists")),
     Sample.table).
Proof.
  refine (create_user_existing_supabase_id
            (UserCreate.mk "Robert" "robert@example.org") "uid-bob"
            Sample.table Sample.bob sample_table_consistent _ _ eq_refl).
  - intros v [<-|[<-|[]]]; simpl; discriminate.
  - simpl. tauto.
Defined.

Lemma run_query A (m : M A) db a :
  m (Storage.open db) = (Ok a, Storage.open db) ->
  Storage.run m db = (Ok a, db).
Proof. intros H. unfold Storage.run. rewrite H. now rewrite run_open_close. Qed.



(** ** The user service: updates *)

Lemma In_replace_self i u u' l :
  In u l -> has_id i u = true -> In u' (Storage.replace i u' l).
Proof.
  intros Hu Hi. unfold Storage.replace. apply in_map_iff.
  exists u. now rewrite Hi.
Qed.

Lemma In_replace_cases i (u' : User.t) l v :
  In v (Storage.replace i u' l) -> v = u' \/ (In v l /\ has_id i v = false).
Proof.
  unfold Storage.replace. intros Hin. apply in_map_iff in Hin.
  destruct Hin as (w & Hw & Hin).
  destruct (has_id i w) eqn:E; [left; congruence|right; subst; tauto].
Qed.

Lemma has_id_self u : has_id (User.id u) u = true.
Proof. unfold has_id. apply Z.eqb_refl. Qed.

Lemma others_free_of_external_id l n u x :
  well_formed l n -> In u l -> User.supabase_user_id u = Some x ->
  existsb (has_supabase_user_id x) (Storage.others (User.id u) l) = false.
Proof.
  intros Hwf Hu Hx. apply existsb_false_iff. intros v Hv.
  apply In_others in Hv. destruct Hv as [Hv Hid].
  destruct (has_supabase_user_id x v) eqn:E; [|reflexivity].
  assert (In v (filter (has_supabase_user_id x) l)) as Hf
    by (apply filter_In; now split).
  rewrite (by_supabase_user_id_one l n u x Hwf Hu Hx) in Hf.
  destruct Hf as [->|[]]. rewrite has_id_self in Hid. discriminate.
Qed.

Lemma others_free_of_email l n u :
  well_formed l n -> In u l ->
  existsb (has_email (User.email u)) (Storage.others (User.id u) l) = false.
Proof.
  intros Hwf Hu. apply existsb_false_iff. intros v Hv.
  apply In_others in Hv. destruct Hv as [Hv Hid].
  destruct (has_email (User.email u) v) eqn:E; [|reflexivity].
  assert (In v (filter (has_email (User.email u)) l)) as Hf
    by (apply filter_In; now split).
  rewrite (by_email_one l n u Hwf Hu) in Hf.
  destruct Hf as [->|[]]. rewrite has_id_self in Hid. discriminate.
Qed.

Lemma others_free_of_id i l :
  existsb (has_id i) (Storage.others i l) = false.
Proof.
  apply existsb_false_iff. intros v Hv. now apply In_others in Hv.
Qed.

(** An UPDATE that leaves the indexed columns alone passes the checks. *)
Lemma keep_passes l n u u' :
  well_formed l n -> In u l ->
  User.id u' = User.id u -> User.email u' = User.email u ->
  User.supabase_user_id u' = User.supabase_user_id u ->
  Storage.violation u' (Storage.others (User.id u) l) = None.
Proof.
  intros Hwf Hu Hid He Hx. unfold Storage.violation.
  rewrite Hid, He, Hx, others_free_of_id.
  rewrite (others_free_of_email l n u Hwf Hu).
  destruct (User.supabase_user_id u) as [x|] eqn:Ex; [|reflexivity].
  now rewrite (others_free_of_external_id l n u x Hwf Hu Ex).
Qed.

(** An UPDATE that leaves the character columns with a width alone
    passes the width check. *)
Lemma keep_fits u u' :
  User.supabase_user_id u' = User.supabase_user_id u ->
  User.name u' = User.name u ->
  Storage.too_long (Some u) u' = None.
Proof.
  intros Hx Hn. unfold Storage.too_long, Storage.exceeds. simpl.
  rewrite Hx, Hn, String.eqb_refl. simpl.
  destruct (User.supabase_user_id u) as [x|]; [|reflexivity].
  now rewrite String.eqb_refl.
Qed.

Lemma update_passes f l0 l n u :
  well_formed l n -> In u l ->
  Storage.too_long (Some u) (f u) = None ->
  Storage.violation (f u) (Storage.others (User.id u) l) = None ->
  Storage.update (User.id u) f (mkSession l0 l n)
  = (Ok (f u), mkSession l0 (Storage.replace (User.id u) (f u) l) n).
Proof.
  intros Hwf Hu Hw Hv. unfold Storage.update. simpl.
  rewrite find_filter, (by_id_one l n u Hwf Hu). simpl.
  now rewrite Hw, Hv.
Qed.

Lemma update_fails f l0 l n u c :
  well_formed l n -> In u l ->
  Storage.too_long (Some u) (f u) = None ->
  Storage.violation (f u) (Storage.others (User.id u) l) = Some c ->
  Storage.update (User.id u) f (mkSession l0 l n)
  = (Raise (IntegrityError c), mkSession l0 l n).
Proof.
  intros Hwf Hu Hw Hv. unfold Storage.update. simpl.
  rewrite find_filter, (by_id_one l n u Hwf Hu). simpl.
  now rewrite Hw, Hv.
Qed.

(** X4: [delete_user] on an existing id is a soft delete.  It returns
    [True] and commits the row with [is_active] false and its id,
    external id, name and e-mail address as before; the table keeps its
    length, the row is still found by its id, and its e-mail address
    stays taken: a later [create_user] with that address is refused. *)
Theorem delete_user_deactivates db u uc supabase_user_id :
  consistent db -> In u (rows db) -> UserCreate.email uc = User.email u ->
  let inactive :=
    User.mk (User.id u) (User.supabase_user_id u) (User.name u) (User.email u)
      false in
  let after :=
    mkDatabase (Storage.replace (User.id u) inactive (rows db)) (next_id db) in
  Storage.run (UserService.delete_user (User.id u)) db = (Ok true, after)
  /\ User.is_active inactive = false
  /\ List.length (rows after) = List.length (rows db)
  /\ find (has_id (User.id u)) (rows after) = Some inactive
  /\ Storage.run (UserService.get_user_by_id (User.id u)) after
     = (Ok (Some inactive), after)
  /\ Storage.run (UserService.create_user uc supabase_user_id) after
     = (Raise (HTTPException HTTP_400_BAD_REQUEST
                 (Message "User with this email already exists")),
        after).
Proof.
  intros Hdb Hu He inactive after.
  assert (Storage.violation inactive (Storage.others (User.id u) (rows db))
          = None) as Hv by now apply (keep_passes _ (next_id db)).
  assert (Storage.too_long (Some u) inactive = None) as Hw
    by now apply keep_fits.
  assert (consistent after) as Hafter.
  { unfold consistent, after. simpl.
    apply (well_formed_update _ _ _ u); try assumption; [|reflexivity].
    now rewrite find_filter, (by_id_one _ _ u Hdb Hu). }
  assert (In inactive (rows after)) as Hin
    by (apply (In_replace_self _ u); [assumption|apply has_id_self]).
  split; [|repeat split].
  - unfold Storage.run, Storage.open, UserService.delete_user.
    step ltac:(now apply get_user_by_id_some).
    step ltac:(now apply (update_passes (User.with_is_active false))).
    reflexivity.
  - apply length_replace.
  - apply find_replace; [apply (has_id_self inactive)|].
    exists u. split; [assumption|apply has_id_self].
  - apply run_query.
    exact (get_user_by_id_some inactive _ _ _ Hafter Hin).
  - unfold Storage.run, Storage.open, UserService.create_user.
    change (User.email u) with (User.email inactive) in He. rewrite He.
    step ltac:(exact (get_user_by_email_some inactive _ _ _ Hafter Hin)).
    reflexivity.
Qed.

Lemma delete_user_deactivates_witness :
  Storage.run (UserService.delete_user 7) Sample.table
  = (Ok true,
     mkDatabase [Sample.bob; User.mk 7 None "Ada" "ada@example.org" false] 8).
Proof.
  refine (proj1 (delete_user_deactivates Sample.table Sample.ada
                   (UserCreate.mk "Ada" "ada@example.org") "uid-new"
                   sample_table_consistent _ eq_refl)).
  simpl. tauto.
Defined.





Lemma change_email_passes l n u e :
  well_formed l n -> In u l -> no_match_by_email e l ->
  Storage.violation (User.with_email e u) (Storage.others (User.id u) l) = None.
Proof.
  intros Hwf Hu He. unfold Storage.violation. simpl.
  rewrite others_free_of_id.
  assert (match User.supabase_user_id u with
          | Some x =>
              existsb (has_supabase_user_id x) (Storage.others (User.id u) l)
          | None => false
          end = false) as ->.
  { destruct (User.supabase_user_id u) as [x|] eqn:Ex; [|reflexivity].
    now apply (others_free_of_external_id l n u x). }
  assert (existsb (has_email e) (Storage.others (User.id u) l) = false) as ->;
    [|reflexivity].
  apply existsb_false_iff. intros v Hv. apply In_others in Hv.
  apply has_email_false. apply He. tauto.
Qed.

(** X6: [update_user] that sets only the e-mail address, to one no
    LocalUser has, commits the row with the new address; the lookup by
    the new address then returns the row, and the lookup by the old
    address returns nothing. *)
Theorem update_user_moves_email db u email :
  consistent db -> In u (rows db) -> no_match_by_email email (rows db) ->
  let user_update :=
    UserUpdate.mk UserUpdate.unset (UserUpdate.set (Some email))
      UserUpdate.unset in
  let moved := User.with_email email u in
  let after :=
    mkDatabase (Storage.replace (User.id u) moved (rows db)) (next_id db) in
  Storage.run (UserService.update_user (User.id u) user_update) db
  = (Ok (Some moved), after)
  /\ Storage.run (UserService.get_user_by_email email) after
     = (Ok (Some moved), after)
  /\ Storage.run (UserService.get_user_by_email (User.email u)) after
     = (Ok None, after).
Proof.
  intros Hdb Hu He user_update moved after.
  pose proof (change_email_passes _ _ u email Hdb Hu He) as Hv.
  assert (Storage.too_long (Some u) moved = None) as Hw
    by now apply keep_fits.
  assert (consistent after) as Hafter.
  { unfold consistent, after. simpl.
    apply (well_formed_update _ _ _ u); try assumption; [|reflexivity].
    now rewrite find_filter, (by_id_one _ _ u Hdb Hu). }
  assert (In moved (rows after)) as Hin
    by (apply (In_replace_self _ u); [assumption|apply has_id_self]).
  split; [|split].
  - unfold Storage.run, Storage.open, UserService.update_user.
    step ltac:(now apply get_user_by_id_some).
    step ltac:(reflexivity).
    step ltac:(apply (update_passes (User.with_email email));
               [exact Hdb|exact Hu|exact Hw|exact Hv]).
    reflexivity.
  - apply run_query.
    exact (get_user_by_email_some moved _ _ _ Hafter Hin).
  - apply run_query. apply get_user_by_email_none.
    intros v Hv'. apply In_replace_cases in Hv'.
    destruct Hv' as [->|[Hv' Hid]].
    + simpl. intros Heq. now apply (He u).
    + intros Heq.
      assert (In v (filter (has_email (User.email u)) (rows db))) as Hf
        by (apply filter_In; split;
            [assumption|unfold has_email; now apply String.eqb_eq]).
      rewrite (by_email_one _ _ u Hdb Hu) in Hf. destruct Hf as [->|[]].
      rewrite has_id_self in Hid. discriminate.
Qed.

Lemma update_user_moves_email_witness :
  Storage.run
    (UserService.update_user 7
       (UserUpdate.mk UserUpdate.unset (UserUpdate.set (Some "ada@lovelace.org"))
          UserUpdate.unset))
    Sample.table
  = (Ok (Some (User.with_email "ada@lovelace.org" Sample.ada)),
     mkDatabase [Sample.bob; User.with_email "ada@lovelace.org" Sample.ada] 8).
Proof.
  refine (proj1 (update_user_moves_email Sample.table Sample.ada
                   "ada@lovelace.org" sample_table_consistent _ _)).
  - simpl. tauto.
  - intros v [<-|[<-|[]]]; simpl; discriminate.
Defined.

Lemma take_email_fails l n u v :
  well_formed l n -> In u l -> In v l -> User.id v <> User.id u ->
  Storage.violation (User.with_email (User.email v) u)
    (Storage.others (User.id u) l) = Some ix_users_email.
Proof.
  intros Hwf Hu Hv Hne. unfold Storage.violation. simpl.
  rewrite others_free_of_id.
  assert (match User.supabase_user_id u with
          | Some x =>
              existsb (has_supabase_user_id x) (Storage.others (User.id u) l)
          | None => false
          end = false) as ->.
  { destruct (User.supabase_user_id u) as [x|] eqn:Ex; [|reflexivity].
    now apply (others_free_of_external_id l n u x). }
  assert (existsb (has_email (User.email v)) (Storage.others (User.id u) l)
          = true) as ->; [|reflexivity].
  apply existsb_exists. exists v. split.
  - apply In_others. split; [assumption|now apply has_id_false].
  - unfold has_email. apply String.eqb_refl.
Qed.

(** X7: an update that sets the e-mail address of one LocalUser to the
    address of another is turned down by the unique index at the commit.
    Neither [update_user] of the service nor the PUT handler catches the
    [IntegrityError]: the service method raises it as it is and the
    request ends as a 500, where the POST handler answers a taken address
    with a 400; nothing is committed. *)
Theorem update_to_taken_email db u v :
  consistent db -> In u (rows db) -> In v (rows db) ->
  User.id v <> User.id u ->
  let user_update :=
    UserUpdate.mk UserUpdate.unset (UserUpdate.set (Some (User.email v)))
      UserUpdate.unset in
  Storage.run (UserService.update_user (User.id u) user_update) db
  = (Raise (IntegrityError ix_users_email), db)
  /\ Http.respond HTTP_200_OK
       (UsersEndpoints.update_user (User.id u) user_update) db
     = (Http.mkResponse HTTP_500_INTERNAL_SERVER_ERROR Http.InternalServerError,
        db)
  /\ Http.respond HTTP_200_OK
       (UsersEndpoints.create_user (UserCreate.mk (User.name u) (User.email v)))
       db
     = (Http.mkResponse HTTP_400_BAD_REQUEST
          (Http.ErrorBody (Message "Email already registered")),
        db).
Proof.
  intros Hdb Hu Hv Hne user_update.
  pose proof (take_email_fails _ _ u v Hdb Hu Hv Hne) as Hfail.
  assert (Storage.too_long (Some u) (User.with_email (User.email v) u) = None)
    as Hw by now apply keep_fits.
  assert (forall A (k : User.t -> M A),
            (db_user <- UserService.get_user_by_id (User.id u) ;;
             match db_user with
             | None => UsersEndpoints.not_found
             | Some u0 =>
                 f <- lift (UserUpdate.setattrs user_update) ;;
                 db_user <- Storage.update (User.id u0) f ;; k db_user
             end) (Storage.open db)
            = (Raise (IntegrityError ix_users_email), Storage.open db)) as Hput.
  { intros A k. unfold Storage.open.
    step ltac:(now apply get_user_by_id_some).
    step ltac:(reflexivity).
    erewrite bind_raise; [reflexivity|].
    apply (update_fails (User.with_email (User.email v)));
      [exact Hdb|exact Hu|exact Hw|exact Hfail]. }
  split; [|split].
  - unfold Storage.run, UserService.update_user. unfold Storage.open.
    step ltac:(now apply get_user_by_id_some).
    step ltac:(reflexivity).
    erewrite bind_raise;
      [|apply (update_fails (User.with_email (User.email v)));
        [exact Hdb|exact Hu|exact Hw|exact Hfail]].
    now destruct db.
  - unfold Http.respond, Storage.run, UsersEndpoints.update_user.
    rewrite Hput. now rewrite run_open_close.
  - unfold Http.respond, Storage.run, UsersEndpoints.create_user, Storage.open.
    cbn [UserCreate.email].
    step ltac:(now apply get_user_by_email_some).
    unfold raise. now destruct db.
Qed.

Lemma update_to_taken_email_witness :
  Storage.run
    (UserService.update_user 7
       (UserUpdate.mk UserUpdate.unset (UserUpdate.set (Some "bob@example.org"))
          UserUpdate.unset))
    Sample.table
  = (Raise (IntegrityError ix_users_email), Sample.table).
Proof.
  refine (proj1 (update_to_taken_email Sample.table Sample.ada Sample.bob
                   sample_table_consistent _ _ _)).
  - simpl. tauto.
  - simpl. tauto.
  - simpl. discriminate.
Defined.

(** ** The user service: linking *)

(** The external ids of a well-formed table fit their column. *)
Lemma fits_external_id l n v x :
  well_formed l n -> In v l -> User.supabase_user_id v = Some x ->
  Storage.fits 255 x = true.
Proof.
  intros [_ _ _ _ Hw _] Hv Hx. rewrite Forall_forall in Hw.
  specialize (Hw v Hv). unfold Storage.too_long, Storage.exceeds in Hw.
  rewrite Hx in Hw. simpl in Hw.
  now destruct (Storage.fits 255 x).
Qed.

(** X8: [link_supabase_user] with an external id that another LocalUser
    carries is turned down by the unique index at the commit; the method
    raises the [IntegrityError] as it is and nothing is committed. *)
Theorem link_supabase_user_taken_id db u v supabase_user_id :
  consistent db -> In u (rows db) -> In v (rows db) ->
  User.id v <> User.id u ->
  User.supabase_user_id v = Some supabase_user_id ->
  Storage.run
    (UserService.link_supabase_user (User.email u) supabase_user_id) db
  = (Raise (IntegrityError ix_users_supabase_user_id), db).
Proof.
  intros Hdb Hu Hv Hne Hx.
  assert (Storage.violation
            (User.with_supabase_user_id (Some supabase_user_id) u)
            (Storage.others (User.id u) (rows db))
          = Some ix_users_supabase_user_id) as Hfail.
  { unfold Storage.violation. simpl. rewrite others_free_of_id.
    assert (existsb (has_supabase_user_id supabase_user_id)
              (Storage.others (User.id u) (rows db)) = true) as ->;
      [|reflexivity].
    apply existsb_exists. exists v. split.
    - apply In_others. split; [assumption|now apply has_id_false].
    - now apply has_supabase_user_id_true. }
  unfold Storage.run, Storage.open, UserService.link_supabase_user.
  step ltac:(now apply get_user_by_email_some).
  erewrite bind_raise;
    [|apply (update_fails
               (User.with_supabase_user_id (Some supabase_user_id)));
      [exact Hdb|exact Hu| |exact Hfail]].
  - now destruct db.
  - apply attach_fits.
    now apply (fits_external_id (rows db) (next_id db) v).
Qed.

Lemma link_supabase_user_taken_id_witness :
  Storage.run (UserService.link_supabase_user "ada@example.org" "uid-bob")
    Sample.table
  = (Raise (IntegrityError ix_users_supabase_user_id), Sample.table).
Proof.
  refine (link_supabase_user_taken_id Sample.table Sample.ada Sample.bob
            "uid-bob" sample_table_consistent _ _ _ eq_refl).
  - simpl. tauto.
  - simpl. tauto.
  - simpl. discriminate.
Defined.

(** ** Sign-in: further behaviour *)

(** X9: the e-mail step of [sign_in] does not look at the link the row
    already has.  When no LocalUser has the provider's user id, which
    fits the column, and the hint, an integer of the range of the [id]
    column if there is one, finds nothing, a LocalUser with the signed-in
    e-mail address that is linked to another external id is re-linked to
    the provider's user id; afterwards no LocalUser carries the former
    id. *)
Theorem sign_in_relinks_by_email lib client db email password
    supabase_user supabase_session u former :
  consistent db ->
  authenticates client email password supabase_user supabase_session ->
  Storage.fits 255 (Supabase.id supabase_user) = true ->
  no_match_by_external_id (Supabase.id supabase_user) (rows db) ->
  hint_in_range supabase_user ->
  no_match_by_hint supabase_user (rows db) ->
  In u (rows db) -> User.email u = email ->
  User.supabase_user_id u = Some former ->
  let linked :=
    User.mk (User.id u) (Some (Supabase.id supabase_user)) (User.name u)
      (User.email u) (User.is_active u) in
  let after :=
    mkDatabase (Storage.replace (User.id u) linked (rows db)) (next_id db) in
  Storage.run
    (AuthService.sign_in lib (AuthService.mk client true) email password) db
  = (Ok (signed_in linked supabase_session), after)
  /\ find (has_id (User.id u)) (rows after) = Some linked
  /\ no_match_by_external_id former (rows after).
Proof.
  intros Hdb Hauth Hfit Hx Hr Hh Hu He Hformer linked after. repeat split.
  - rewrite (run_sign_in _ _ _ _ _ _ _ Hauth). unfold Storage.open.
    rewrite <- He.
    now rewrite (resolve_by_email lib supabase_user u _ _ _
                   Hdb Hx Hfit Hr Hh Hu).
  - apply find_replace; [apply (has_id_self linked)|].
    exists u. split; [assumption|apply has_id_self].
  - intros v Hv. simpl in Hv. apply In_replace_cases in Hv.
    destruct Hv as [->|[Hv Hid]].
    + simpl. intros Heq. inversion Heq as [Heq'].
      apply (Hx u Hu). now rewrite Hformer, Heq'.
    + intros Heq.
      assert (In v (filter (has_supabase_user_id former) (rows db))) as Hf
        by (apply filter_In; split;
            [assumption|now apply has_supabase_user_id_true]).
      rewrite (by_supabase_user_id_one _ _ u former Hdb Hu Hformer) in Hf.
      destruct Hf as [->|[]]. rewrite has_id_self in Hid. discriminate.
Qed.

Lemma sign_in_relinks_by_email_witness :
  Storage.run
    (AuthService.sign_in Sample.lib
       (AuthService.mk (Sample.accepting Sample.eve) true)
       "bob@example.org" "secret")
    Sample.table
  = (Ok (signed_in (User.mk 3 (Some "uid-eve") "Bob" "bob@example.org" true)
           (Supabase.mkSession "access" "refresh")),
     mkDatabase
       [User.mk 3 (Some "uid-eve") "Bob" "bob@example.org" true; Sample.ada]
       8).
Proof.
  refine (proj1 (sign_in_relinks_by_email Sample.lib
                   (Sample.accepting Sample.eve)
                   Sample.table "bob@example.org" "secret" Sample.eve
                   (Supabase.mkSession "access" "refresh") Sample.bob "uid-bob"
                   sample_table_consistent eq_refl eq_refl _ _ _ _
                   eq_refl eq_refl)).
  - intros v [<-|[<-|[]]]; simpl; discriminate.
  - intros m hint Hm Hhint. inversion Hm; subst. discriminate.
  - intros m hint Hm Hhint. inversion Hm; subst. discriminate.
  - simpl. tauto.
Defined.

Lemma run_sign_in_fast_path lib client db email password su sess u :
  consistent db ->
  authenticates client email password su sess ->
  In u (rows db) -> User.supabase_user_id u = Some (Supabase.id su) ->
  Storage.run
    (AuthService.sign_in lib (AuthService.mk client true) email password) db
  = (Ok (signed_in u sess), db).
Proof.
  intros Hdb Hauth Hu Hx.
  rewrite (run_sign_in _ _ _ _ _ _ _ Hauth). unfold Storage.open.
  rewrite (resolve_fast_path lib email su u _ _ _ Hdb Hu Hx).
  now destruct db.
Qed.

(** X10: for a LocalUser that already carries the provider's user id,
    [sign_in] is a pure read: it returns that row as it is, whatever the
    e-mail address typed, the metadata of the provider's user and the
    row's [is_active], and the table is left as it was. *)
Theorem sign_in_linked_user lib client db email password
    supabase_user supabase_session u :
  consistent db ->
  authenticates client email password supabase_user supabase_session ->
  In u (rows db) ->
  User.supabase_user_id u = Some (Supabase.id supabase_user) ->
  Storage.run
    (AuthService.sign_in lib (AuthService.mk client true) email password) db
  = (Ok (signed_in u supabase_session), db).
Proof.
  intros Hdb Hauth Hu Hx.
  rewrite (run_sign_in _ _ _ _ _ _ _ Hauth). unfold Storage.open.
  rewrite (resolve_fast_path lib email supabase_user u _ _ _ Hdb Hu Hx).
  now destruct db.
Qed.

Lemma sign_in_linked_user_witness :
  Storage.run
    (AuthService.sign_in Sample.lib
       (AuthService.mk (Sample.accepting bob_account) true)
       "robert@example.org" "secret")
    Sample.table
  = (Ok (signed_in Sample.bob (Supabase.mkSession "access" "refresh")),
     Sample.table).
Proof.
  refine (sign_in_linked_user Sample.lib (Sample.accepting bob_account)
            Sample.table
            "robert@example.org" "secret" bob_account
            (Supabase.mkSession "access" "refresh") Sample.bob
            sample_table_consistent eq_refl _ eq_refl).
  simpl. tauto.
Defined.


(** ** Queries on a well-formed table *)

(** A query whose WHERE clause at most one row satisfies returns the
    first row that satisfies it, if any. *)
Lemma query_find p l0 l n :
  at_most_one p l ->
  (result <- Storage.select_where p ;; Storage.scalar_one_or_none result)
    (mkSession l0 l n)
  = (Ok (find p l), mkSession l0 l n).
Proof.
  unfold at_most_one, bind, Storage.select_where. simpl. intros H.
  rewrite find_filter.
  destruct (filter p l) as [|a [|b t]]; simpl in *; [reflexivity..|lia].
Qed.

Lemma get_user_by_email_find e l0 l n :
  well_formed l n ->
  UserService.get_user_by_email e (mkSession l0 l n)
  = (Ok (find (has_email e) l), mkSession l0 l n).
Proof.
  intros [_ H _ _ _ _]. apply query_find.
  exact (NoDup_at_most_one string Storage.email_key String.eqb String.eqb_eq
           l H e).
Qed.

Lemma get_user_by_supabase_id_find x l0 l n :
  well_formed l n ->
  UserService.get_user_by_supabase_id x (mkSession l0 l n)
  = (Ok (find (has_supabase_user_id x) l), mkSession l0 l n).
Proof.
  intros [_ _ H _ _ _]. apply query_find.
  exact (NoDup_at_most_one string User.supabase_user_id String.eqb
           String.eqb_eq l H x).
Qed.

Lemma get_user_by_id_find i l0 l n :
  well_formed l n -> Storage.in_int32 i = true ->
  UserService.get_user_by_id i (mkSession l0 l n)
  = (Ok (find (has_id i) l), mkSession l0 l n).
Proof.
  intros [H _ _ _ _ _] Hi. unfold UserService.get_user_by_id.
  step ltac:(now apply integer_parameter_ok).
  apply query_find.
  exact (NoDup_at_most_one Z Storage.pk Z.eqb Z.eqb_eq l H i).
Qed.

Lemma find_has_id i l u :
  find (has_id i) l = Some u -> In u l /\ User.id u = i.
Proof.
  intros H. apply find_some in H. destruct H as [Hu Hi].
  split; [exact Hu|]. unfold has_id in Hi. now apply Z.eqb_eq.
Qed.

Lemma find_has_email e l u :
  find (has_email e) l = Some u -> In u l /\ User.email u = e.
Proof.
  intros H. apply find_some in H. destruct H as [Hu He].
  split; [exact Hu|]. unfold has_email in He. now apply String.eqb_eq.
Qed.

(** ** What a sign-in can end in *)

(** An external id that does not fit the column: the UPDATE raises and
    the session is as it was. *)
Lemma attach_refused l0 l n u x :
  well_formed l n -> In u l ->
  (forall v, In v l -> has_supabase_user_id x v = false) ->
  Storage.fits 255 x = false ->
  (u' <- Storage.update (User.id u) (User.with_supabase_user_id (Some x)) ;;
   Storage.commit ;; ret (Some u')) (mkSession l0 l n)
  = (Raise (DBAPIError (value_too_long "supabase_user_id")),
     mkSession l0 l n).
Proof.
  intros Hwf Hu Hx Hfit. unfold bind, Storage.update. simpl.
  rewrite find_filter, (by_id_one l n u Hwf Hu). simpl.
  assert (Storage.too_long (Some u) (User.with_supabase_user_id (Some x) u)
          = Some (value_too_long "supabase_user_id")) as ->; [|reflexivity].
  unfold Storage.too_long, Storage.exceeds. simpl. rewrite Hfit.
  specialize (Hx u Hu). unfold has_supabase_user_id in Hx.
  destruct (User.supabase_user_id u) as [w|]; [|reflexivity].
  now rewrite Hx.
Qed.

(** The attaching UPDATE and its commit, on any external id no row
    carries: the row is linked and committed, or the call raises and the
    session is as it was. *)
Lemma attach_outcomes l0 l n u x :
  well_formed l n -> In u l ->
  (forall v, In v l -> has_supabase_user_id x v = false) ->
  let attach :=
    (u' <- Storage.update (User.id u) (User.with_supabase_user_id (Some x)) ;;
     Storage.commit ;; ret (Some u')) (mkSession l0 l n) in
  (exists u' s',
      attach = (Ok (Some u'), s') /\ In u' (persisted s')
      /\ User.supabase_user_id u' = Some x)
  \/ (exists e, attach = (Raise e, mkSession l0 l n)).
Proof.
  intros Hwf Hu Hx attach. unfold attach.
  destruct (Storage.fits 255 x) eqn:Hfit.
  - left. rewrite (attach_commit l0 l n u x Hwf Hu Hx Hfit).
    eexists. eexists. split; [reflexivity|]. split; [|reflexivity].
    simpl. unfold Storage.replace. apply in_map_iff. exists u.
    unfold has_id. now rewrite Z.eqb_refl.
  - right. rewrite (attach_refused l0 l n u x Hwf Hu Hx Hfit).
    eexists. reflexivity.
Qed.

(** What is done to the hint before the lookup touches no session. *)
Lemma as_it_is_pure lib v :
  exists r, forall s, AuthService.as_it_is lib v s = (r, s).
Proof.
  destruct v; simpl;
    try (destruct (Library.bind_integer lib _));
    eexists; intros ?; reflexivity.
Qed.

Lemma py_int_pure lib v :
  exists r, forall s, AuthService.py_int lib v s = (r, s).
Proof.
  destruct v; simpl;
    try (destruct (Library.int_of_str lib _));
    eexists; intros ?; reflexivity.
Qed.

(** The hint step, when no row carries the external id: it links a row
    and commits, or finds nothing, or raises, and in the last two cases
    the session is as it was. *)
Lemma by_metadata_hint_outcomes key su l0 l n :
  (forall v, exists r, forall s, key v s = (r, s)) ->
  well_formed l n ->
  no_match_by_external_id (Supabase.id su) l ->
  let hinted :=
    AuthService.by_metadata_hint key su None (mkSession l0 l n) in
  (exists u s',
      hinted = (Ok (Some u), s') /\ In u (persisted s')
      /\ User.supabase_user_id u = Some (Supabase.id su))
  \/ hinted = (Ok None, mkSession l0 l n)
  \/ (exists e, hinted = (Raise e, mkSession l0 l n)).
Proof.
  intros Hkey Hwf Hx hinted. unfold hinted, AuthService.by_metadata_hint.
  destruct (Supabase.user_metadata su) as [m|]; [|now right; left].
  destruct (Metadata.truthy m); [|now right; left].
  destruct (Metadata.local_user_id m) as [v|]; [|now right; left].
  destruct (Json.truthy v); [|now right; left].
  destruct (Hkey v) as [[z|e] Hv].
  2:{ right. right. exists e. now erewrite bind_raise by apply Hv. }
  step ltac:(apply Hv).
  destruct (Storage.in_int32 z) eqn:Hz.
  2:{ right. right. eexists.
      now erewrite bind_raise by now apply get_user_by_id_refused. }
  step ltac:(now apply get_user_by_id_find).
  destruct (find (has_id z) l) as [u|] eqn:Ef; [|now right; left].
  apply find_has_id in Ef. destruct Ef as [Hu _].
  assert (forall w, In w l ->
                    has_supabase_user_id (Supabase.id su) w = false) as Hfree
    by (intros w Hw; apply has_supabase_user_id_false; now apply Hx).
  destruct (attach_outcomes l0 l n u (Supabase.id su) Hwf Hu Hfree)
    as [H|H]; [now left|now right; right].
Qed.

(** [create_user], when no row carries the external id: the row is
    appended and committed, or the call raises and the session is as it
    was. *)
Lemma create_user_outcomes uc x l0 l n :
  well_formed l n -> no_match_by_external_id x l ->
  let created := UserService.create_user uc x (mkSession l0 l n) in
  (exists u s',
      created = (Ok u, s') /\ In u (persisted s')
      /\ User.supabase_user_id u = Some x)
  \/ (exists e, created = (Raise e, mkSession l0 l n)).
Proof.
  intros Hwf Hx created. unfold created, UserService.create_user.
  step ltac:(now apply get_user_by_email_find).
  destruct (find (has_email (UserCreate.email uc)) l) as [u|] eqn:Ee.
  { right. eexists. reflexivity. }
  step ltac:(now apply get_user_by_supabase_id_none).
  set (mk := fun i => User.mk i (Some x) (UserCreate.name uc)
                        (UserCreate.email uc) true).
  destruct (Storage.too_long None (mk n)) as [fault|] eqn:Ew.
  { right. eexists. erewrite bind_raise; [reflexivity|].
    unfold Storage.insert. simpl. now rewrite Ew. }
  destruct (Storage.max_int32 <? n) eqn:En.
  { right. eexists. erewrite bind_raise; [reflexivity|].
    unfold Storage.insert. simpl. now rewrite Ew, En. }
  apply Z.ltb_ge in En. left.
  step ltac:(apply (insert_appends mk);
             [exact Ew | exact En
             | apply (insert_passes l n); simpl;
               [exact Hwf | reflexivity
               | intros y Hy; now inversion Hy; subst
               | intros v Hv; apply has_email_false;
                 now apply (proj1 (find_none_iff _ _) Ee)]]).
  eexists. eexists. split; [reflexivity|]. split; [|reflexivity].
  simpl. apply in_or_app. right. now left.
Qed.

(** The resolution of [sign_in], when no row carries the external id:
    it returns a committed row that carries it, or raises with the
    session as it was. *)
Lemma resolve_outcomes lib e su l0 l n :
  well_formed l n ->
  no_match_by_external_id (Supabase.id su) l ->
  let resolved :=
    AuthService.resolve_local_user lib e su (mkSession l0 l n) in
  (exists u s',
      resolved = (Ok (Some u), s') /\ In u (persisted s')
      /\ User.supabase_user_id u = Some (Supabase.id su))
  \/ (exists x, resolved = (Raise x, mkSession l0 l n)).
Proof.
  intros Hwf Hx resolved. unfold resolved, AuthService.resolve_local_user.
  step ltac:(now apply get_user_by_supabase_id_none).
  destruct (by_metadata_hint_outcomes (AuthService.as_it_is lib) su l0 l n
              (as_it_is_pure lib) Hwf Hx)
    as [(u & s' & Hh & Hu & Hxu)|[Hh|[x Hh]]]; cbv zeta in Hh.
  - step ltac:(exact Hh). left. now exists u, s'.
  - step ltac:(exact Hh).
    assert (forall w, In w l ->
                      has_supabase_user_id (Supabase.id su) w = false)
      as Hfree
      by (intros w Hw; apply has_supabase_user_id_false; now apply Hx).
    step ltac:(now apply get_user_by_email_find).
    destruct (find (has_email e) l) as [u|] eqn:Ee.
    + unfold UserService.link_supabase_user.
      step ltac:(now apply get_user_by_email_find).
      rewrite Ee. apply find_has_email in Ee. destruct Ee as [Hu _].
      exact (attach_outcomes l0 l n u (Supabase.id su) Hwf Hu Hfree).
    + unfold AuthService.display_name.
      destruct (Supabase.user_metadata su) as [m|].
      2:{ right. eexists. reflexivity. }
      step ltac:(reflexivity).
      destruct (UserCreate.validate lib
                  match Metadata.name m with
                  | Some name => name
                  | None => Json.str "Unknown"
                  end e) as [uc|x] eqn:Ev.
      2:{ right. exists x. reflexivity. }
      step ltac:(reflexivity).
      destruct (create_user_outcomes uc (Supabase.id su) l0 l n Hwf Hx)
        as [(u & s' & Hc & Hu & Hxu)|[x Hc]]; cbv zeta in Hc.
      * step ltac:(exact Hc). left. now exists u, s'.
      * right. exists x. now erewrite bind_raise by exact Hc.
  - right. exists x. now erewrite bind_raise by exact Hh.
Qed.

Lemma sign_in_outcomes lib client db email password supabase_user
    supabase_session :
  consistent db ->
  authenticates client email password supabase_user supabase_session ->
  let outcome :=
    Storage.run
      (AuthService.sign_in lib (AuthService.mk client true) email password)
      db in
  (exists u,
      fst outcome = Ok (signed_in u supabase_session)
      /\ In u (rows (snd outcome))
      /\ User.supabase_user_id u = Some (Supabase.id supabase_user))
  \/ (exists e, outcome = (Raise e, db)).
Proof.
  intros Hdb Hauth outcome. unfold outcome.
  destruct (find (has_supabase_user_id (Supabase.id supabase_user)) (rows db))
    as [u|] eqn:Ex.
  { apply find_some in Ex. destruct Ex as [Hu Hx].
    apply has_supabase_user_id_true in Hx.
    rewrite (run_sign_in_fast_path _ _ _ _ _ _ _ u Hdb Hauth Hu Hx).
    left. exists u. now repeat split. }
  assert (no_match_by_external_id (Supabase.id supabase_user) (rows db)) as Hx.
  { intros u Hu. apply has_supabase_user_id_false.
    now apply (proj1 (find_none_iff _ _) Ex). }
  rewrite (run_sign_in _ _ _ _ _ _ _ Hauth). unfold Storage.open.
  destruct (resolve_outcomes lib email supabase_user (rows db) (rows db)
              (next_id db) Hdb Hx)
    as [(u & s' & Hr & Hu & Hxu)|[x Hr]]; cbv zeta in Hr; rewrite Hr.
  - left. exists u. now repeat split.
  - right. destruct x; eexists; unfold Storage.close; simpl;
      now destruct db.
Qed.

(** X11: [sign_in] settles after one call.  Whatever the first call did
    (read, link by hint, link by e-mail, create, or raise), a second call
    with the same credentials and the same answer of the provider returns
    what the first returned and leaves the table as the first left it. *)
Theorem sign_in_twice lib client db email password supabase_user
    supabase_session :
  consistent db ->
  authenticates client email password supabase_user supabase_session ->
  let sign_in :=
    Storage.run
      (AuthService.sign_in lib (AuthService.mk client true) email password) in
  sign_in (snd (sign_in db)) = sign_in db.
Proof.
  intros Hdb Hauth. cbv zeta.
  pose proof (effect_consistent _ _ db
                (preserves_sign_in lib (AuthService.mk client true) email
                   password)
                Hdb) as Hafter.
  unfold effect in Hafter.
  pose proof (sign_in_outcomes lib client db email password supabase_user
                supabase_session Hdb Hauth) as Hout.
  cbv zeta in Hout.
  destruct (Storage.run
              (AuthService.sign_in lib (AuthService.mk client true) email
                 password)
              db) as [r db'] eqn:Efirst.
  simpl in *.
  destruct Hout as [(u & Hr & Hu & Hx)|[e He]].
  - rewrite (run_sign_in_fast_path _ _ _ _ _ _ _ u Hafter Hauth Hu Hx).
    now rewrite Hr.
  - inversion He; subst. exact Efirst.
Qed.

Lemma sign_in_twice_witness :
  Storage.run
    (AuthService.sign_in Sample.lib
       (AuthService.mk (Sample.accepting Sample.eve) true)
       "eve@example.org" "secret")
    (snd (Storage.run
            (AuthService.sign_in Sample.lib
               (AuthService.mk (Sample.accepting Sample.eve) true)
               "eve@example.org" "secret")
            Sample.table))
  = Storage.run
      (AuthService.sign_in Sample.lib
         (AuthService.mk (Sample.accepting Sample.eve) true)
         "eve@example.org" "secret")
      Sample.table.
Proof.
  exact (sign_in_twice Sample.lib (Sample.accepting Sample.eve) Sample.table
           "eve@example.org" "secret" Sample.eve
           (Supabase.mkSession "access" "refresh")
           sample_table_consistent eq_refl).
Defined.

(** ** Nothing is committed by a call that raises *)

Lemma quiet_ret A (a : A) : quiet (ret a).
Proof. intros s. reflexivity. Qed.

Lemma quiet_raise A e : quiet (@raise A e).
Proof. intros s. reflexivity. Qed.

Lemma quiet_lift A (r : Result A) : quiet (lift r).
Proof. intros s. reflexivity. Qed.

Lemma quiet_select_where p : quiet (Storage.select_where p).
Proof. intros s. reflexivity. Qed.

Lemma quiet_scalar_one_or_none l : quiet (Storage.scalar_one_or_none l).
Proof. intros s. now destruct l as [|a [|b l]]. Qed.

Lemma quiet_integer_parameter z : quiet (Storage.integer_parameter z).
Proof.
  intros s. unfold Storage.integer_parameter.
  now destruct (Storage.in_int32 z).
Qed.

Lemma quiet_insert mk : quiet (Storage.insert mk).
Proof.
  intros s. unfold Storage.insert.
  destruct (Storage.too_long None (mk (sequence s))); [reflexivity|].
  destruct (Storage.max_int32 <? sequence s); [reflexivity|].
  now destruct (Storage.violation (mk (sequence s)) (pending s)).
Qed.

Lemma quiet_update i f : quiet (Storage.update i f).
Proof.
  intros s. unfold Storage.update.
  destruct (find (has_id i) (pending s)) as [u|]; [|reflexivity].
  destruct (Storage.too_long (Some u) (f u)); [reflexivity|].
  now destruct (Storage.violation (f u) (Storage.others i (pending s))).
Qed.

Lemma quiet_bind A B (m : M A) (k : A -> M B) :
  quiet m -> (forall a, quiet (k a)) -> quiet (bind m k).
Proof.
  intros Hm Hk s. unfold bind. specialize (Hm s).
  destruct (m s) as [[a|e] s']; simpl in *; [|assumption].
  now rewrite Hk.
Qed.

Lemma quiet_atomic A (m : M A) : quiet m -> atomic m.
Proof. intros H s. left. apply H. Qed.

Lemma atomic_bind A B (m : M A) (k : A -> M B) :
  quiet m -> (forall a, atomic (k a)) -> atomic (bind m k).
Proof.
  intros Hm Hk s. unfold bind. specialize (Hm s).
  destruct (m s) as [[a|e] s']; simpl in *; [|now left].
  destruct (Hk a s') as [H|H]; [left; congruence|now right].
Qed.

Lemma atomic_commit_ret A (a : A) : atomic (Storage.commit ;; ret a).
Proof. intros s. right. now exists a. Qed.

Lemma atomic_try_except A (m : M A) h :
  atomic m -> (forall e, quiet (h e)) -> atomic (try_except m h).
Proof.
  intros Hm Hh s. unfold try_except. specialize (Hm s).
  destruct (m s) as [[a|e] s']; simpl in *.
  - right. now exists a.
  - left. rewrite Hh. destruct Hm as [H|[a H]]; [assumption|discriminate].
Qed.

Lemma quiet_query p :
  quiet (result <- Storage.select_where p ;; Storage.scalar_one_or_none result).
Proof.
  apply quiet_bind; [apply quiet_select_where|].
  intros l. apply quiet_scalar_one_or_none.
Qed.

Lemma atomic_update_commit A i f (k : User.t -> A) :
  atomic (u <- Storage.update i f ;; Storage.commit ;; ret (k u)).
Proof.
  apply atomic_bind; [apply quiet_update|].
  intros u. apply atomic_commit_ret.
Qed.

Lemma atomic_create_user uc x : atomic (UserService.create_user uc x).
Proof.
  unfold UserService.create_user.
  apply atomic_bind; [apply quiet_query|]. intros [u|].
  { apply quiet_atomic, quiet_raise. }
  apply atomic_bind; [apply quiet_query|]. intros [v|].
  { apply quiet_atomic, quiet_raise. }
  apply atomic_bind; [apply quiet_insert|].
  intros u. apply atomic_commit_ret.
Qed.

Lemma atomic_link_supabase_user e x :
  atomic (UserService.link_supabase_user e x).
Proof.
  unfold UserService.link_supabase_user.
  apply atomic_bind; [apply quiet_query|]. intros [u|].
  - apply (atomic_update_commit _ _ _ Some).
  - apply quiet_atomic, quiet_ret.
Qed.

Lemma update_commit_some i f s :
  persisted (snd ((u' <- Storage.update i f ;;
                   Storage.commit ;; ret (Some u')) s)) = persisted s
  \/ exists u,
       fst ((u' <- Storage.update i f ;; Storage.commit ;; ret (Some u')) s)
       = Ok (Some u).
Proof.
  unfold bind. pose proof (quiet_update i f s) as Hq.
  destruct (Storage.update i f s) as [[w|e] t]; simpl in *.
  - right. now exists w.
  - now left.
Qed.

(** The hint step either commits nothing or returns a row. *)
Lemma quiet_get_user_by_id i : quiet (UserService.get_user_by_id i).
Proof.
  unfold UserService.get_user_by_id.
  apply quiet_bind; [apply quiet_integer_parameter|].
  intros z. apply quiet_query.
Qed.

Lemma quiet_get_user_by_email e : quiet (UserService.get_user_by_email e).
Proof. apply quiet_query. Qed.

Lemma quiet_get_user_by_supabase_id x :
  quiet (UserService.get_user_by_supabase_id x).
Proof. apply quiet_query. Qed.

Lemma quiet_as_it_is lib v : quiet (AuthService.as_it_is lib v).
Proof.
  intros s. destruct (as_it_is_pure lib v) as [r Hr]. now rewrite Hr.
Qed.

Lemma by_metadata_hint_commits key su lu s :
  (forall v, quiet (key v)) ->
  persisted (snd (AuthService.by_metadata_hint key su lu s)) = persisted s
  \/ exists u, fst (AuthService.by_metadata_hint key su lu s) = Ok (Some u).
Proof.
  intros Hkey. unfold AuthService.by_metadata_hint.
  destruct lu as [u|]; [now left|].
  destruct (Supabase.user_metadata su) as [m|]; [|now left].
  destruct (Metadata.truthy m); [|now left].
  destruct (Metadata.local_user_id m) as [v|]; [|now left].
  destruct (Json.truthy v); [|now left].
  pose proof (Hkey v s) as Hk.
  destruct (key v s) as [[i|e] s0] eqn:Ek; simpl in Hk.
  2:{ rewrite (bind_raise _ _ _ _ _ _ _ Ek). now left. }
  rewrite (bind_ok _ _ _ _ _ _ _ Ek).
  pose proof (quiet_get_user_by_id i s0) as Hq.
  destruct (UserService.get_user_by_id i s0) as [[[u|]|e] s'] eqn:Eg;
    simpl in Hq.
  - rewrite (bind_ok _ _ _ _ _ _ _ Eg).
    destruct (update_commit_some (User.id u)
                (User.with_supabase_user_id (Some (Supabase.id su))) s')
      as [H|H]; [left; congruence|now right].
  - rewrite (bind_ok _ _ _ _ _ _ _ Eg). left. simpl. congruence.
  - rewrite (bind_raise _ _ _ _ _ _ _ Eg). left. simpl. congruence.
Qed.

(** A computation that has committed only if it returns, followed by a
    pure packaging of its result. *)
Lemma atomic_then_ret A B (m : M A) (f : A -> B) :
  atomic m -> atomic (a <- m ;; ret (f a)).
Proof.
  intros Hm s. unfold bind. specialize (Hm s).
  destruct (m s) as [[a|e] s']; simpl in *.
  - right. now eexists.
  - destruct Hm as [H|[a H]]; [now left|discriminate].
Qed.

Lemma atomic_create_branch lib e su :
  atomic
    (local_user <- UserService.get_user_by_email e ;;
     match local_user with
     | Some _ => UserService.link_supabase_user e (Supabase.id su)
     | None =>
         name <- AuthService.display_name su ;;
         user_create <- lift (UserCreate.validate lib name e) ;;
         local_user <- UserService.create_user user_create (Supabase.id su) ;;
         ret (Some local_user)
     end).
Proof.
  apply atomic_bind; [apply quiet_get_user_by_email|]. intros [u|].
  - apply atomic_link_supabase_user.
  - apply atomic_bind.
    { unfold AuthService.display_name.
      destruct (Supabase.user_metadata su);
        [apply quiet_ret|apply quiet_raise]. }
    intros n. apply atomic_bind; [apply quiet_lift|]. intros uc.
    apply (atomic_then_ret _ _ _ Some). apply atomic_create_user.
Qed.

Lemma atomic_resolve_local_user lib e su :
  atomic (AuthService.resolve_local_user lib e su).
Proof.
  intros s. unfold AuthService.resolve_local_user.
  pose proof (quiet_get_user_by_supabase_id (Supabase.id su) s) as Hq.
  destruct (UserService.get_user_by_supabase_id (Supabase.id su) s)
    as [[lu|x] s1] eqn:E1; simpl in Hq.
  2:{ rewrite (bind_raise _ _ _ _ _ _ _ E1). now left. }
  rewrite (bind_ok _ _ _ _ _ _ _ E1).
  pose proof (by_metadata_hint_commits (AuthService.as_it_is lib) su lu s1
                (quiet_as_it_is lib)) as Hh.
  destruct (AuthService.by_metadata_hint (AuthService.as_it_is lib) su lu s1)
    as [[[u|]|x] s2] eqn:E2; simpl in Hh.
  - rewrite (bind_ok _ _ _ _ _ _ _ E2). right. now eexists.
  - rewrite (bind_ok _ _ _ _ _ _ _ E2).
    destruct Hh as [Hh|[u Hu]]; [|discriminate].
    destruct (atomic_create_branch lib e su s2) as [H|H];
      [left; congruence|now right].
  - rewrite (bind_raise _ _ _ _ _ _ _ E2).
    destruct Hh as [Hh|[u Hu]]; [left; simpl; congruence|discriminate].
Qed.

Lemma atomic_sign_in lib self e p :
  atomic (AuthService.sign_in lib self e p).
Proof.
  unfold AuthService.sign_in, AuthService.no_session.
  destruct (negb (AuthService.db self)); [apply quiet_atomic, quiet_raise|].
  apply atomic_try_except.
  - apply atomic_bind; [apply quiet_lift|]. intros r.
    destruct (Supabase.user r) as [su|];
      [|apply quiet_atomic, quiet_raise].
    destruct (Supabase.session r) as [sess|];
      [|apply quiet_atomic, quiet_raise].
    apply (atomic_then_ret _ _ _
             (fun lu => AuthService.mkSignInResult lu sess
                          (Supabase.access_token sess)
                          (Supabase.refresh_token sess) "bearer")).
    apply atomic_resolve_local_user.
  - intros x. destruct x; apply quiet_raise.
Qed.

Lemma atomic_sign_up lib self e p n md :
  atomic (AuthService.sign_up lib self e p n md).
Proof.
  unfold AuthService.sign_up, AuthService.no_session.
  destruct (negb (AuthService.db self)); [apply quiet_atomic, quiet_raise|].
  apply atomic_try_except; [|intros x; apply quiet_raise].
  apply atomic_bind; [apply quiet_lift|]. intros uc.
  apply atomic_bind; [apply quiet_insert|]. intros u. cbv zeta.
  apply atomic_bind; [apply quiet_lift|]. intros r.
  destruct (Supabase.user r) as [su|]; [|apply quiet_atomic, quiet_raise].
  apply (atomic_update_commit _ _ _
           (fun w => AuthService.mkSignUpResult w (Supabase.session r) su
                       "User created successfully")).
Qed.

Lemma atomic_run A (m : M A) db :
  atomic m ->
  rows (snd (Storage.run m db)) = rows db
  \/ exists a, fst (Storage.run m db) = Ok a.
Proof.
  intros H. unfold Storage.run. specialize (H (Storage.open db)).
  destruct (m (Storage.open db)) as [r s]. simpl in *. exact H.
Qed.

(** X12: [sign_up] commits once, as its last statement.  Whatever the
    arguments, the table and the provider's answers, either the call
    returns, or the committed rows are those from before the call: a
    rejected name, a taken e-mail address, an error or an empty answer of
    the provider, or an external id that is already taken leave no local
    row behind. *)
Theorem sign_up_all_or_nothing lib self email password name metadata db :
  rows (snd (Storage.run
               (AuthService.sign_up lib self email password name metadata)
               db))
  = rows db
  \/ exists result,
       fst (Storage.run
              (AuthService.sign_up lib self email password name metadata) db)
       = Ok result.
Proof. apply atomic_run, atomic_sign_up. Qed.

(** X13: [sign_in] has committed nothing whenever it raises: whatever the
    table and the provider's answers, either the call returns, or the
    committed rows are those from before the call. *)
Theorem sign_in_all_or_nothing lib self email password db :
  rows (snd (Storage.run (AuthService.sign_in lib self email password) db))
  = rows db
  \/ exists result,
       fst (Storage.run (AuthService.sign_in lib self email password) db)
       = Ok result.
Proof. apply atomic_run, atomic_sign_in. Qed.

(** ** What a rejection leaves behind *)

(** X14: when the provider rejects the credentials or the token, none of
    [sign_in], [sign_out], [refresh_token], [get_current_user] and
    [reset_password] has run a query or written anything: the session is
    exactly as it was. *)
Theorem rejection_leaves_session lib client op s :
  provider_rejects client op ->
  forward_session lib (AuthService.mk client true) op s = s.
Proof.
  unfold refused.
  destruct op as [e p|tok|tok|tok|e]; simpl; intros H.
  - unfold AuthService.sign_in, try_except, bind, lift. simpl.
    destruct H as [[reason ->]|(r & -> & Hr)]; [reflexivity|].
    destruct Hr as [->| ->]; [reflexivity|].
    now destruct (Supabase.user r).
  - unfold AuthService.sign_out, try_except, bind, lift. simpl.
    destruct H as [[reason ->]|(-> & [reason ->])]; reflexivity.
  - unfold AuthService.refresh_token, try_except, bind, lift. simpl.
    destruct H as [[reason ->]|(r & -> & ->)]; reflexivity.
  - unfold AuthService.get_current_user, try_except, bind, lift. simpl.
    destruct H as [[reason ->]|(-> & [[reason ->]|(r & -> & ->)])];
      reflexivity.
  - unfold AuthService.reset_password, try_except, bind, lift. simpl.
    destruct H as [reason ->]. reflexivity.
Qed.

Lemma rejection_leaves_session_witness :
  forward_session Sample.lib (AuthService.mk Sample.rejecting true)
    (forward_get_current_user "expired") (Storage.open Sample.table)
  = Storage.open Sample.table.
Proof.
  refine (rejection_leaves_session Sample.lib Sample.rejecting
            (forward_get_current_user "expired") (Storage.open Sample.table) _).
  simpl. left. exists "invalid". reflexivity.
Defined.


(** ** Sign-up, then sign-in *)



(** ** The current user *)

Lemma get_current_user_identified lib client tok su s :
  identifies client tok su ->
  AuthService.get_current_user lib (AuthService.mk client true) tok s
  = match (local_user <- UserService.get_user_by_supabase_id (Supabase.id su) ;;
           local_user <- AuthService.by_metadata_hint (AuthService.py_int lib)
                           su local_user ;;
           match local_user with
           | None =>
               raise (HTTPException HTTP_401_UNAUTHORIZED
                        (Message "User not found in local database"))
           | Some u => ret u
           end) s with
    | (Ok u, s') => (Ok u, s')
    | (Raise (HTTPException code detail), s') =>
        (Raise (HTTPException code detail), s')
    | (Raise e, s') =>
        (Raise (HTTPException HTTP_401_UNAUTHORIZED
                  (Formatted "Authentication failed: " e)), s')
    end.
Proof.
  intros [Hset [sess Hget]].
  unfold AuthService.get_current_user. cbn [AuthService.db negb].
  unfold try_except. cbn [AuthService.supabase_client].
  unfold lift at 1 2. unfold bind at 1 2. rewrite Hset, Hget.
  cbn [Supabase.user].
  match goal with |- context [match ?m s with _ => _ end] =>
    destruct (m s) as [[u|[]] s'] end; reflexivity.
Qed.

(** X16: for an access token of a user some LocalUser is linked to,
    [get_current_user] returns that row as it is and writes nothing. *)
Theorem get_current_user_linked lib client db access_token supabase_user u :
  consistent db ->
  identifies client access_token supabase_user ->
  In u (rows db) ->
  User.supabase_user_id u = Some (Supabase.id supabase_user) ->
  Storage.run
    (AuthService.get_current_user lib (AuthService.mk client true)
       access_token) db
  = (Ok u, db).
Proof.
  intros Hdb Hid Hu Hx. unfold Storage.run, Storage.open.
  rewrite (get_current_user_identified _ _ _ _ _ Hid).
  step ltac:(now apply (get_user_by_supabase_id_some u)).
  simpl. now destruct db.
Qed.

Lemma identifies_sample su tok : identifies (Sample.accepting su) tok su.
Proof. split; [reflexivity|]. eexists. reflexivity. Defined.

Lemma get_current_user_linked_witness :
  Storage.run
    (AuthService.get_current_user Sample.lib
       (AuthService.mk (Sample.accepting bob_account) true) "access")
    Sample.table
  = (Ok Sample.bob, Sample.table).
Proof.
  refine (get_current_user_linked Sample.lib (Sample.accepting bob_account)
            Sample.table
            "access" bob_account Sample.bob sample_table_consistent
            (identifies_sample bob_account "access") _ eq_refl).
  simpl. tauto.
Defined.

(** X17: for an access token of a user no LocalUser is linked to and
    whose hint, an integer of the range of the [id] column if there is
    one, finds nothing, [get_current_user] raises 401 "User not found in
    local database" and writes nothing: unlike [sign_in], it neither
    looks the user up by e-mail nor creates a row. *)
Theorem get_current_user_unknown lib client db access_token supabase_user :
  identifies client access_token supabase_user ->
  no_match_by_external_id (Supabase.id supabase_user) (rows db) ->
  hint_in_range supabase_user ->
  no_match_by_hint supabase_user (rows db) ->
  Storage.run
    (AuthService.get_current_user lib (AuthService.mk client true)
       access_token) db
  = (Raise (HTTPException HTTP_401_UNAUTHORIZED
              (Message "User not found in local database")),
     db).
Proof.
  intros Hid Hx Hr Hh. unfold Storage.run, Storage.open.
  rewrite (get_current_user_identified _ _ _ _ _ Hid).
  step ltac:(now apply get_user_by_supabase_id_none).
  step ltac:(now apply by_metadata_hint_miss; [apply py_int_int| |]).
  simpl. now destruct db.
Qed.

Lemma get_current_user_unknown_witness :
  Storage.run
    (AuthService.get_current_user Sample.lib
       (AuthService.mk (Sample.accepting Sample.ada_unhinted) true) "access")
    Sample.table
  = (Raise (HTTPException HTTP_401_UNAUTHORIZED
              (Message "User not found in local database")),
     Sample.table).
Proof.
  refine (get_current_user_unknown Sample.lib
            (Sample.accepting Sample.ada_unhinted)
            Sample.table "access" Sample.ada_unhinted
            (identifies_sample Sample.ada_unhinted "access") _ _ _).
  - intros v [<-|[<-|[]]]; simpl; discriminate.
  - intros m hint Hm Hhint. inversion Hm; subst. discriminate.
  - intros m hint Hm Hhint. inversion Hm; subst. discriminate.
Defined.

(** ** The dependencies of the protected routes *)

Lemma get_current_user_fast lib client tok su u l0 l n :
  identifies client tok su ->
  well_formed l n -> In u l ->
  User.supabase_user_id u = Some (Supabase.id su) ->
  AuthService.get_current_user lib (AuthService.mk client true) tok
    (mkSession l0 l n)
  = (Ok u, mkSession l0 l n).
Proof.
  intros Hid Hwf Hu Hx.
  rewrite (get_current_user_identified _ _ _ _ _ Hid).
  step ltac:(now apply (get_user_by_supabase_id_some u)).
  reflexivity.
Qed.

Lemma deactivate_run db u :
  consistent db -> In u (rows db) ->
  let inactive := User.with_is_active false u in
  let after :=
    mkDatabase (Storage.replace (User.id u) inactive (rows db)) (next_id db) in
  Storage.run (UserService.delete_user (User.id u)) db = (Ok true, after)
  /\ consistent after /\ In inactive (rows after).
Proof.
  intros Hdb Hu inactive after.
  assert (Storage.violation inactive (Storage.others (User.id u) (rows db))
          = None) as Hv by now apply (keep_passes _ (next_id db)).
  assert (Storage.too_long (Some u) inactive = None) as Hw
    by now apply keep_fits.
  split; [|split].
  - unfold Storage.run, Storage.open, UserService.delete_user.
    step ltac:(now apply get_user_by_id_some).
    step ltac:(now apply (update_passes (User.with_is_active false))).
    reflexivity.
  - unfold consistent, after. simpl.
    apply (well_formed_update _ _ _ u); try assumption; [|reflexivity].
    now rewrite find_filter, (by_id_one _ _ u Hdb Hu).
  - apply (In_replace_self _ u); [assumption|apply has_id_self].
Qed.

(** X18: after [delete_user] the row's owner is still authenticated but
    no longer active.  With a token of the linked user,
    [core.auth.get_current_user] returns the deactivated row, while
    [get_current_active_user], and with it the checker of
    [require_roles] for any list of roles, raises 401 "User account is
    inactive" and writes nothing. *)
Theorem deactivated_user_is_refused lib client db access_token supabase_user
    u :
  consistent db ->
  identifies client access_token supabase_user ->
  In u (rows db) ->
  User.supabase_user_id u = Some (Supabase.id supabase_user) ->
  let inactive := User.with_is_active false u in
  let after := snd (Storage.run (UserService.delete_user (User.id u)) db) in
  let turned_down :=
    (Raise (HTTPException HTTP_401_UNAUTHORIZED
              (Message "User account is inactive")), after) in
  Storage.run (CoreAuth.get_current_user lib client (Some access_token)) after
  = (Ok inactive, after)
  /\ Storage.run
       (CoreAuth.get_current_active_user lib client (Some access_token)) after
     = turned_down
  /\ forall roles,
       Storage.run
         (CoreAuth.require_roles roles lib client (Some access_token)) after
       = turned_down.
Proof.
  intros Hdb Hid Hu Hx inactive after turned_down.
  destruct (deactivate_run db u Hdb Hu) as (Hrun & Hafter & Hin).
  unfold turned_down, after. rewrite Hrun. cbn [snd]. subst inactive.
  set (inactive := User.with_is_active false u) in *.
  set (l := Storage.replace (User.id u) inactive (rows db)) in *.
  assert (CoreAuth.get_current_user lib client (Some access_token)
            (mkSession l l (next_id db))
          = (Ok inactive, mkSession l l (next_id db))) as Hcur.
  { unfold CoreAuth.get_current_user.
    erewrite try_except_ok; [reflexivity|].
    now apply (get_current_user_fast lib client access_token supabase_user
                 inactive). }
  split; [|split].
  - unfold Storage.run, Storage.open. cbn [rows next_id]. now rewrite Hcur.
  - unfold Storage.run, Storage.open, CoreAuth.get_current_active_user.
    cbn [rows next_id].
    step ltac:(exact Hcur). reflexivity.
  - intros roles.
    unfold Storage.run, Storage.open, CoreAuth.require_roles,
      CoreAuth.get_current_active_user.
    cbn [rows next_id].
    erewrite bind_raise by (step ltac:(exact Hcur); reflexivity).
    reflexivity.
Qed.

Lemma deactivated_user_is_refused_witness :
  Storage.run
    (CoreAuth.get_current_active_user Sample.lib
       (Sample.accepting bob_account) (Some "access"))
    (snd (Storage.run (UserService.delete_user 3) Sample.table))
  = (Raise (HTTPException HTTP_401_UNAUTHORIZED
              (Message "User account is inactive")),
     snd (Storage.run (UserService.delete_user 3) Sample.table)).
Proof.
  refine (proj1 (proj2 (deactivated_user_is_refused Sample.lib
                          (Sample.accepting bob_account) Sample.table "access"
                          bob_account Sample.bob sample_table_consistent
                          (identifies_sample bob_account "access") _
                          eq_refl))).
  simpl. tauto.
Defined.

(** X19: [get_optional_current_user] never raises: whatever the
    credentials, the provider and the table, the call returns; without
    credentials it returns [None] and leaves the session alone. *)
Theorem get_optional_current_user_returns lib client credentials s :
  (exists user,
      fst (CoreAuth.get_optional_current_user lib client credentials s)
      = Ok user)
  /\ CoreAuth.get_optional_current_user lib client None s = (Ok None, s).
Proof.
  split; [|reflexivity].
  unfold CoreAuth.get_optional_current_user.
  destruct credentials as [token|]; [|now exists None].
  unfold try_except, bind.
  destruct (AuthService.get_current_user lib (AuthService.mk client true)
              token s)
    as [[u|e] s']; simpl; eexists; reflexivity.
Qed.

(** X20: when the provider rejects the token, [get_optional_current_user]
    swallows the 401 of the service and returns [None], with the session
    as it was. *)
Theorem get_optional_current_user_rejected lib client token s :
  provider_rejects client (forward_get_current_user token) ->
  CoreAuth.get_optional_current_user lib client (Some token) s = (Ok None, s).
Proof.
  intros Hrej. unfold refused in Hrej. simpl in Hrej.
  unfold CoreAuth.get_optional_current_user, AuthService.get_current_user,
    try_except, bind, lift.
  simpl.
  destruct Hrej as [[reason ->]|(-> & [[reason ->]|(r & -> & ->)])];
    reflexivity.
Qed.

Lemma get_optional_current_user_rejected_witness :
  CoreAuth.get_optional_current_user Sample.lib Sample.rejecting
    (Some "expired") (Storage.open Sample.table)
  = (Ok None, Storage.open Sample.table).
Proof.
  refine (get_optional_current_user_rejected Sample.lib Sample.rejecting
            "expired"
            (Storage.open Sample.table) _).
  simpl. left. exists "invalid". reflexivity.
Defined.

(** ** What [get_current_user] can change *)

Section Keeps.
Variable P : Session -> Prop.

Lemma keeps_bind A B (m : M A) (k : A -> M B) :
  (forall s, P s -> P (snd (m s))) ->
  (forall a s, P s -> P (snd (k a s))) ->
  forall s, P s -> P (snd (bind m k s)).
Proof.
  intros Hm Hk s H. unfold bind. specialize (Hm s H).
  destruct (m s) as [[a|e] s']; simpl in *; [now apply Hk|assumption].
Qed.

Lemma keeps_try_except A (m : M A) h :
  (forall s, P s -> P (snd (m s))) ->
  (forall e s, P s -> P (snd (h e s))) ->
  forall s, P s -> P (snd (try_except m h s)).
Proof.
  intros Hm Hh s H. unfold try_except. specialize (Hm s H).
  destruct (m s) as [[a|e] s']; simpl in *; [assumption|now apply Hh].
Qed.

Lemma keeps_query p s :
  P s ->
  P (snd ((result <- Storage.select_where p ;;
           Storage.scalar_one_or_none result) s)).
Proof.
  intros H. unfold bind, Storage.select_where.
  now destruct (filter p (pending s)) as [|a [|b l]].
Qed.

End Keeps.

Lemma blank_replace i u x l :
  filter (has_id i) l = [u] ->
  blank (Storage.replace i (User.with_supabase_user_id x u) l) = blank l.
Proof.
  intros Hf. unfold blank, Storage.replace. rewrite map_map.
  apply map_ext_in. intros v Hv. destruct (has_id i v) eqn:E; [|reflexivity].
  assert (In v (filter (has_id i) l)) as Hin by (apply filter_In; now split).
  rewrite Hf in Hin. destruct Hin as [->|[]]. reflexivity.
Qed.

Lemma by_metadata_hint_blank key B su lu s :
  (forall v s, snd (key v s) = s) ->
  blank (pending s) = B /\ blank (persisted s) = B ->
  blank (pending (snd (AuthService.by_metadata_hint key su lu s))) = B
  /\ blank (persisted (snd (AuthService.by_metadata_hint key su lu s))) = B.
Proof.
  intros Hkey [Hp Hc]. unfold AuthService.by_metadata_hint.
  destruct lu as [u|]; [now split|].
  destruct (Supabase.user_metadata su) as [m|]; [|now split].
  destruct (Metadata.truthy m); [|now split].
  destruct (Metadata.local_user_id m) as [v|]; [|now split].
  destruct (Json.truthy v); [|now split].
  pose proof (Hkey v s) as Hk.
  destruct (key v s) as [[i|e] s0] eqn:Ek; simpl in Hk; subst s0.
  2:{ rewrite (bind_raise _ _ _ _ _ _ _ Ek). now split. }
  rewrite (bind_ok _ _ _ _ _ _ _ Ek).
  unfold UserService.get_user_by_id, Storage.integer_parameter.
  destruct (Storage.in_int32 i); [|now split].
  unfold bind, ret, Storage.select_where.
  destruct (filter (has_id i) (pending s)) as [|u [|w l]] eqn:Ef; simpl;
    try (now split).
  assert (User.id u = i) as Hid.
  { assert (In u (filter (has_id i) (pending s))) as Hin
      by (rewrite Ef; now left).
    apply filter_In in Hin. unfold has_id in Hin. now apply Z.eqb_eq. }
  unfold Storage.update. rewrite Hid, find_filter, Ef. simpl.
  destruct (Storage.too_long (Some u)
              (User.with_supabase_user_id (Some (Supabase.id su)) u));
    simpl; [now split|].
  destruct (Storage.violation
              (User.with_supabase_user_id (Some (Supabase.id su)) u)
              (Storage.others i (pending s))); simpl; [now split|].
  rewrite (blank_replace i u _ _ Ef). now split.
Qed.

(** X21: [get_current_user] can only fill in the external-id column.
    Whatever the token, the provider's answers and the table, the
    committed rows after the call are the rows from before the call in
    every other column: no row is added or removed, and no id, name,
    e-mail address or [is_active] changes. *)
Theorem get_current_user_only_links lib self access_token db :
  blank (rows (snd (Storage.run
                      (AuthService.get_current_user lib self access_token)
                      db)))
  = blank (rows db).
Proof.
  set (P := fun s : Session =>
              blank (pending s) = blank (rows db)
              /\ blank (persisted s) = blank (rows db)).
  assert (forall s, P s ->
                    P (snd (AuthService.get_current_user lib self access_token
                              s)))
    as Hkeeps.
  { unfold AuthService.get_current_user, AuthService.no_session.
    destruct (negb (AuthService.db self)); [intros s H; exact H|].
    apply keeps_try_except.
    - apply keeps_bind; [intros s H; exact H|]. intros _.
      apply keeps_bind; [intros s H; exact H|]. intros r.
      destruct (Supabase.user r) as [su|]; [|intros s H; exact H].
      apply keeps_bind;
        [intros s H;
         exact (keeps_query P (has_supabase_user_id (Supabase.id su)) s H)|].
      intros lu.
      apply keeps_bind.
      + intros s H. apply by_metadata_hint_blank; [|exact H].
        intros v t. destruct (py_int_pure lib v) as [z Hz]. now rewrite Hz.
      + intros [u|] s H; exact H.
    - intros e s H. destruct e; exact H. }
  unfold Storage.run.
  specialize (Hkeeps (Storage.open db) (conj eq_refl eq_refl)).
  destruct (AuthService.get_current_user lib self access_token
              (Storage.open db))
    as [r s]. simpl in *. exact (proj2 Hkeeps).
Qed.

(** ** The users handlers *)

Lemma length_others l n u :
  well_formed l n -> In u l ->
  S (List.length (Storage.others (User.id u) l)) = List.length l.
Proof.
  intros Hwf Hu. unfold Storage.others.
  rewrite <- (filter_length (has_id (User.id u)) l).
  now rewrite (by_id_one l n u Hwf Hu).
Qed.



(** ** The lookups at reachable states *)



(** ** The refresh handler *)

(** X24: POST /refresh asks the provider for a new session and then
    resolves the user of the new access token.  When the provider
    refreshes the session but that user has no LocalUser (no row carries
    the external id and the hint, an integer of the range of the [id]
    column if there is one, finds nothing), the request is answered with
    401 "User not found in local database", and nothing is written. *)
Theorem refresh_without_local_user lib client db token refreshed_user
    supabase_session supabase_user :
  Supabase.refresh_session client token
  = Ok (Supabase.mkAuthResponse refreshed_user (Some supabase_session)) ->
  identifies client (Supabase.access_token supabase_session) supabase_user ->
  no_match_by_external_id (Supabase.id supabase_user) (rows db) ->
  hint_in_range supabase_user ->
  no_match_by_hint supabase_user (rows db) ->
  Http.respond HTTP_200_OK (AuthEndpoints.refresh_token lib client token) db
  = (Http.mkResponse HTTP_401_UNAUTHORIZED
       (Http.ErrorBody (Message "User not found in local database")),
     db).
Proof.
  intros Hrefresh Hid Hx Hr Hh.
  unfold Http.respond, Storage.run, Storage.open, AuthEndpoints.refresh_token.
  cbv zeta.
  step ltac:(unfold AuthService.refresh_token, try_except, bind, lift;
             cbn [AuthService.supabase_client]; rewrite Hrefresh; reflexivity).
  cbn [AuthService.t_access_token].
  erewrite bind_raise.
  2:{ rewrite (get_current_user_identified _ _ _ _ _ Hid).
      step ltac:(now apply get_user_by_supabase_id_none).
      step ltac:(now apply by_metadata_hint_miss; [apply py_int_int| |]).
      reflexivity. }
  now destruct db.
Qed.

Lemma refresh_without_local_user_witness :
  Http.respond HTTP_200_OK
    (AuthEndpoints.refresh_token Sample.lib
       (Sample.accepting Sample.ada_unhinted) "refresh")
    Sample.table
  = (Http.mkResponse HTTP_401_UNAUTHORIZED
       (Http.ErrorBody (Message "User not found in local database")),
     Sample.table).
Proof.
  refine (refresh_without_local_user Sample.lib
            (Sample.accepting Sample.ada_unhinted)
            Sample.table "refresh" (Some Sample.ada_unhinted)
            (Supabase.mkSession "access" "refresh") Sample.ada_unhinted
            eq_refl (identifies_sample Sample.ada_unhinted "access") _ _ _).
  - intros v [<-|[<-|[]]]; simpl; discriminate.
  - intros m hint Hm Hhint. inversion Hm; subst. discriminate.
  - intros m hint Hm Hhint. inversion Hm; subst. discriminate.
Defined.


(** ** Values the storage layer turns down *)



(** X26: [UserService.get_users] with a [skip] or a [limit] that is
    negative or beyond 2147483647 raises the error of the driver or of
    the server, and the table is left as it was. *)
Theorem get_users_out_of_range db skip limit :
  ~ (0 <= skip <= Storage.max_int32 /\ 0 <= limit <= Storage.max_int32) ->
  exists fault,
    Storage.run (UserService.get_users skip limit) db
    = (Raise (DBAPIError fault), db).
Proof.
  intros H. unfold Storage.run, UserService.get_users.
  destruct (Storage.in_int32 limit) eqn:El.
  - step ltac:(now apply integer_parameter_ok).
    destruct (Storage.in_int32 skip) eqn:Es.
    + step ltac:(now apply integer_parameter_ok).
      apply in_int32_iff in El, Es.
      destruct (skip <? 0) eqn:E1;
        [eexists; unfold raise; now rewrite run_open_close|].
      destruct (limit <? 0) eqn:E2;
        [eexists; unfold raise; now rewrite run_open_close|].
      apply Z.ltb_ge in E1, E2. exfalso. apply H. lia.
    + erewrite bind_raise by now apply integer_parameter_refused.
      eexists. now rewrite run_open_close.
  - erewrite bind_raise by now apply integer_parameter_refused.
    eexists. now rewrite run_open_close.
Qed.

Lemma get_users_out_of_range_witness :
  exists fault,
    Storage.run (UserService.get_users 0 (-5)) Sample.table
    = (Raise (DBAPIError fault), Sample.table).
Proof.
  apply (get_users_out_of_range Sample.table 0 (-5)). lia.
Defined.

(** X27: when the hint of the provider's user is an integer beyond the
    range of the [id] column and no LocalUser carries the external id,
    the lookup by the hint raises in the driver: [sign_in] answers 401
    "Login failed" and [get_current_user] 401 "Authentication failed",
    neither looks further, and nothing is written. *)
Theorem hint_beyond_range_is_401 lib client db email password access_token
    supabase_user supabase_session user_metadata hint :
  authenticates client email password supabase_user supabase_session ->
  identifies client access_token supabase_user ->
  no_match_by_external_id (Supabase.id supabase_user) (rows db) ->
  Supabase.user_metadata supabase_user = Some user_metadata ->
  Metadata.local_user_id user_metadata = Some (Json.int hint) ->
  Storage.in_int32 hint = false ->
  Storage.run
    (AuthService.sign_in lib (AuthService.mk client true) email password) db
  = (Raise (HTTPException HTTP_401_UNAUTHORIZED
              (Formatted "Login failed: " (DBAPIError out_of_int32))),
     db)
  /\ Storage.run
       (AuthService.get_current_user lib (AuthService.mk client true)
          access_token) db
     = (Raise (HTTPException HTTP_401_UNAUTHORIZED
                 (Formatted "Authentication failed: "
                    (DBAPIError out_of_int32))),
        db).
Proof.
  intros Hauth Hid Hx Hm Hh Hz. split.
  - rewrite (run_sign_in _ _ _ _ _ _ _ Hauth). unfold Storage.open.
    unfold AuthService.resolve_local_user.
    step ltac:(now apply get_user_by_supabase_id_none).
    erewrite bind_raise
      by (apply (by_metadata_hint_refused _ supabase_user user_metadata hint);
          [apply as_it_is_int|assumption..]).
    now destruct db.
  - unfold Storage.run, Storage.open.
    rewrite (get_current_user_identified _ _ _ _ _ Hid).
    step ltac:(now apply get_user_by_supabase_id_none).
    erewrite bind_raise
      by (apply (by_metadata_hint_refused _ supabase_user user_metadata hint);
          [apply py_int_int|assumption..]).
    now destruct db.
Qed.

Lemma hint_beyond_range_is_401_witness :
  Storage.run
    (AuthService.get_current_user Sample.lib
       (AuthService.mk (Sample.accepting Sample.ada_beyond) true) "access")
    Sample.table
  = (Raise (HTTPException HTTP_401_UNAUTHORIZED
              (Formatted "Authentication failed: "
                 (DBAPIError out_of_int32))),
     Sample.table).
Proof.
  refine (proj2 (hint_beyond_range_is_401 Sample.lib
                   (Sample.accepting Sample.ada_beyond) Sample.table
                   "ada@example.org" "secret" "access" Sample.ada_beyond
                   (Supabase.mkSession "access" "refresh")
                   (Metadata.mk (Some (Json.int 2147483648))
                      (Some (Json.str "Ada")) [])
                   2147483648 eq_refl
                   (identifies_sample Sample.ada_beyond "access") _
                   eq_refl eq_refl eq_refl)).
  intros v [<-|[<-|[]]]; simpl; discriminate.
Defined.



(** X29: [sign_up] without a name, as the route calls it for a request
    that has none, raises 400 "Registration failed" around the
    validation error of [UserCreate], whatever the e-mail address, the
    provider and the table; no statement reaches the storage layer and
    the provider is not called. *)
Theorem sign_up_without_name lib client email password metadata db :
  Storage.run
    (AuthService.sign_up lib (AuthService.mk client true) email password None
       metadata) db
  = (Raise (HTTPException HTTP_400_BAD_REQUEST
              (Formatted "Registration failed: " (ValidationError "name"))),
     db).
Proof. unfold Storage.run. simpl. now destruct db. Qed.

Lemma violation_taken_email u l :
  existsb (has_email (User.email u)) l = true ->
  exists c, Storage.violation u l = Some c.
Proof.
  intros H. unfold Storage.violation. rewrite H.
  destruct (existsb (has_id (User.id u)) l); [now eexists|].
  destruct (match User.supabase_user_id u with
            | Some x => existsb (has_supabase_user_id x) l
            | None => false
            end); now eexists.
Qed.


